(** * TP-SdM: study plans, courses, exam sittings and enrolment rules

    A shallow embedding of [src/SdM.py] and [src/PlanDeEstudio.py].

    Python objects are mutable and shared: a student sits at the same time
    in the roster of a course, in the roster of an exam and in the hands of
    the staff member that operates on it.  Students, courses and exam
    sittings therefore live in a store ([World]) and are passed around as
    references; curricular units are never mutated after they are built, so
    they are values that carry their object identity ([uc_oid]).

    Text is modelled as [string] (a sequence of bytes).  The helpers of
    module [Py] follow the interpreter on ASCII text; bytes above 127 are
    kept as they are and count as neither blank, digit nor letter.
    Floating-point values are outside the model. *)

From Stdlib Require Import ZArith Ascii String DecimalString DecimalPos DecimalZ Lia.
From stdpp Require Import gmap strings list fin_maps.

Local Open Scope string_scope.
Local Open Scope list_scope.

(** ** Python built-ins used by the program *)

Module Py.

Definition ord (c : ascii) : nat := nat_of_ascii c.

(** [str.isspace] on ASCII: TAB..CR, FS..US and the space. *)
Definition isspace (c : ascii) : bool :=
  (((9 <=? ord c) && (ord c <=? 13)) || ((28 <=? ord c) && (ord c <=? 32)))%nat.

(** The blanks skipped by [int(str)]: TAB..CR and the space. *)
Definition isspace_int (c : ascii) : bool :=
  (((9 <=? ord c) && (ord c <=? 13)) || (ord c =? 32))%nat.

Definition isdigit (c : ascii) : bool := ((48 <=? ord c) && (ord c <=? 57))%nat.
Definition isupper (c : ascii) : bool := ((65 <=? ord c) && (ord c <=? 90))%nat.
Definition islower (c : ascii) : bool := ((97 <=? ord c) && (ord c <=? 122))%nat.
Definition iscased (c : ascii) : bool := isupper c || islower c.

Definition upper_c (c : ascii) : ascii :=
  if islower c then ascii_of_nat (ord c - 32) else c.
Definition lower_c (c : ascii) : ascii :=
  if isupper c then ascii_of_nat (ord c + 32) else c.

Fixpoint lstrip_by (sp : ascii -> bool) (s : string) : string :=
  match s with
  | String c r => if sp c then lstrip_by sp r else s
  | EmptyString => EmptyString
  end.

Fixpoint rstrip_by (sp : ascii -> bool) (s : string) : string :=
  match s with
  | String c r =>
      match rstrip_by sp r with
      | EmptyString => if sp c then EmptyString else String c EmptyString
      | r' => String c r'
      end
  | EmptyString => EmptyString
  end.

(** [s.strip()] *)
Definition strip (s : string) : string := rstrip_by isspace (lstrip_by isspace s).

(** [s.lower()], on ASCII text *)
Fixpoint lower (s : string) : string :=
  match s with
  | String c r => String (lower_c c) (lower r)
  | EmptyString => EmptyString
  end.

(** [s.capitalize()], on ASCII text *)
Definition capitalize (s : string) : string :=
  match s with
  | String c r => String (upper_c c) (lower r)
  | EmptyString => EmptyString
  end.

Fixpoint title_from (previous_is_cased : bool) (s : string) : string :=
  match s with
  | String c r =>
      if iscased c
      then String (if previous_is_cased then lower_c c else upper_c c) (title_from true r)
      else String c (title_from false r)
  | EmptyString => EmptyString
  end.

(** [s.title()], on ASCII text: the cased characters are the letters A-Z and
    a-z *)
Definition title (s : string) : string := title_from false s.

(** [s.endswith(suf)]: some tail of [s] is [suf]. *)
Fixpoint endswith (s suf : string) : bool :=
  if String.eqb s suf then true
  else match s with
       | String _ r => endswith r suf
       | EmptyString => false
       end.

(** [sep.join(l)] *)
Definition join (sep : string) (l : list string) : string := String.concat sep l.

(** [str(n)] for an [int] *)
Definition str_of_Z (z : Z) : string := NilZero.string_of_int (Z.to_int z).

Definition digit_val (c : ascii) : Z := Z.of_nat (ord c - 48).

(** Value of a run of decimal digits, most significant first. *)
Fixpoint Z_of_digits (acc : Z) (s : string) : Z :=
  match s with
  | String c r => Z_of_digits (10 * acc + digit_val c) r
  | EmptyString => acc
  end.

(** The digits of an [int] literal: at least one digit, single
    underscores allowed between digits only. *)
Fixpoint int_body (acc : Z) (after_digit : bool) (s : string) : option Z :=
  match s with
  | String c r =>
      if isdigit c then int_body (10 * acc + digit_val c) true r
      else if Ascii.eqb c "_"%char && after_digit then int_body acc false r
      else None
  | EmptyString => if after_digit then Some acc else None
  end.

(** [int(s)] for a string, base 10; [None] stands for [ValueError].
    The interpreter's configurable cap on the number of digits is not
    modelled. *)
Definition int_of_string (s : string) : option Z :=
  match rstrip_by isspace_int (lstrip_by isspace_int s) with
  | String "+" r => int_body 0 false r
  | String "-" r => Z.opp <$> int_body 0 false r
  | t => int_body 0 false t
  end.

(** [re.search(r"(\d+)$", s)] anchored at the first character: [s] is a
    non-empty run of digits, optionally followed by one final newline.
    Returns the digits. *)
Fixpoint digits_to_end (s : string) : option string :=
  match s with
  | String c r =>
      if isdigit c then
        match r with
        | EmptyString => Some (String c EmptyString)
        | String "010" EmptyString => Some (String c EmptyString)
        | _ => String c <$> digits_to_end r
        end
      else None
  | EmptyString => None
  end.

(** [re.search(r"S(\d+)$", s)]: group 1 of the leftmost match. *)
Fixpoint search_S_digits (s : string) : option string :=
  match s with
  | String c r =>
      if Ascii.eqb c "S"%char then
        match digits_to_end r with
        | Some ds => Some ds
        | None => search_S_digits r
        end
      else search_S_digits r
  | EmptyString => None
  end.

End Py.

(** ** Values, exceptions and results *)

(** The values that reach the program from its callers: [None], booleans,
    integers, strings and objects of any other class (known by their
    [str()]). *)
Inductive PyVal :=
  | PNone
  | PBool (b : bool)
  | PInt (z : Z)
  | PStr (s : string)
  | POtro (repr : string).

(** [str(v)], which is also what an f-string prints. *)
Definition py_str (v : PyVal) : string :=
  match v with
  | PNone => "None"
  | PBool b => if b then "True" else "False"
  | PInt z => Py.str_of_Z z
  | PStr s => s
  | POtro r => r
  end.

(** [isinstance(v, int)]: [bool] is a subclass of [int]. *)
Definition es_int (v : PyVal) : bool :=
  match v with
  | PBool _ | PInt _ => true
  | _ => false
  end.

(** [isinstance(v, str)] *)
Definition es_str (v : PyVal) : bool :=
  match v with
  | PStr _ => true
  | _ => false
  end.

(** [v is None] *)
Definition es_None (v : PyVal) : bool :=
  match v with
  | PNone => true
  | _ => false
  end.

(** The number an [int] (or [bool]) stands for in comparisons. *)
Definition valor_int (v : PyVal) : Z :=
  match v with
  | PBool b => if b then 1 else 0
  | PInt z => z
  | _ => 0
  end.

Inductive ExcClase := ValueError | TypeError | AttributeError | FileNotFoundError.

Record Excepcion := Exc { exc_clase : ExcClase; exc_msg : string }.

#[global] Instance ExcClase_eq_dec : EqDecision ExcClase.
Proof. solve_decision. Defined.

Inductive Res (A : Type) :=
  | Ret (a : A)
  | Raise (e : Excepcion).
Arguments Ret {A} a.
Arguments Raise {A} e.

(** [int(v)] *)
Definition py_int (v : PyVal) : Res Z :=
  match v with
  | PBool _ | PInt _ => Ret (valor_int v)
  | PStr s =>
      match Py.int_of_string s with
      | Some z => Ret z
      | None => Raise (Exc ValueError ("invalid literal for int() with base 10: " +:+ s))
      end
  | PNone | POtro _ =>
      Raise (Exc TypeError "int() argument must be a string, a bytes-like object or a real number")
  end.

(** ** Objects *)

(** [class UnidadCurricular].  [uc_oid] is the identity of the object: the
    class defines no [__eq__], so [==] and [in] compare identities. *)
Record unidad_curricular := UnidadCurricular {
  uc_oid : nat;
  uc_codigo : string;
  uc_nombre : string;
  uc_creditos : PyVal;
  uc_previas : list string
}.

(** An entry of a list of units, or the result of a lookup: a unit or
    [None]. *)
Abbreviation uc_o_None := (option unidad_curricular).

(** [a == b] (and [a is b]) on units and [None]. *)
Definition mismo_objeto (a b : uc_o_None) : bool :=
  match a, b with
  | Some x, Some y => (uc_oid x =? uc_oid y)%nat
  | None, None => true
  | _, _ => false
  end.

(** [x in l] *)
Definition py_in (x : uc_o_None) (l : list uc_o_None) : bool :=
  existsb (mismo_objeto x) l.

(** [l.remove(x)]: drops the first entry equal to [x] (the program only
    calls it after [x in l]). *)
Fixpoint py_remove (x : uc_o_None) (l : list uc_o_None) : list uc_o_None :=
  match l with
  | [] => []
  | y :: r => if mismo_objeto y x then r else y :: py_remove x r
  end.

(** [class PlanDeEstudio] *)
Record plan_de_estudio := PlanDeEstudio_ {
  plan_nombre_plan : string;
  plan_materias : list unidad_curricular
}.

(** [class Estudiante(Persona)].  The four lists hold whatever the staff
    operations appended: units of the plan, or [None] after a lookup that
    missed. *)
Record estudiante := Estudiante_ {
  est_nombre : string;
  est_apellido : string;
  est_cedula : PyVal;
  est_año_ingreso : PyVal;
  est_plan : nat;
  est_ucs_aprobadas : list uc_o_None;
  est_ucs_regulares : list uc_o_None;
  est_ucs_a_examen : list uc_o_None;
  est_ucs_cursando : list uc_o_None
}.

(** The attributes of a [Curso] whose construction went through. *)
Record curso_attrs := CursoAttrs {
  cur_uc : unidad_curricular;
  cur_codigo_uc : string;
  cur_nombre_uc : string;
  cur_año : PyVal;
  cur_semestre : PyVal;
  cur_estudiantes : list nat;
  cur_archivo_csv : string
}.

(** [class Curso].  When [__init__] fails the object is left with the
    single attribute [uc = None]. *)
Inductive curso :=
  | CursoValido (a : curso_attrs)
  | CursoInvalido.

(** [class InstanciaDeExamen] *)
Record instancia_de_examen := InstanciaDeExamen_ {
  ex_codigo_uc : string;
  ex_fecha : string;
  ex_hora : string;
  ex_estudiantes : list nat
}.

(** One unit of a plan file: [{"nombre": .., "creditos": .., "previas": ..}]. *)
Record materia_json := MateriaJson {
  mj_nombre : string;
  mj_creditos : PyVal;
  mj_previas : list string
}.

(** A parsed plan file: term -> (code -> unit), in file order. *)
Abbreviation plan_json := (list (string * list (string * materia_json))).

(** ** The store

    References are addresses into the store of their class.  An address that
    is not bound there stands for an object of some other class: it fails
    [isinstance] and has none of the attributes. *)
Record World := mkWorld {
  w_planes : gmap nat plan_de_estudio;
  w_estudiantes : gmap nat estudiante;
  w_cursos : gmap nat curso;
  w_examenes : gmap nat instancia_de_examen;
  w_json : gmap string plan_json;                 (* plan files, parsed *)
  w_archivos : gmap string (list (list string));  (* CSV files, as rows of fields *)
  w_oid : nat;                                    (* next unit identity *)
  w_stdout : list string                          (* lines printed so far *)
}.

Definition set_planes (f : gmap nat plan_de_estudio -> gmap nat plan_de_estudio) (w : World) : World :=
  mkWorld (f (w_planes w)) (w_estudiantes w) (w_cursos w) (w_examenes w)
          (w_json w) (w_archivos w) (w_oid w) (w_stdout w).
Definition set_estudiantes (f : gmap nat estudiante -> gmap nat estudiante) (w : World) : World :=
  mkWorld (w_planes w) (f (w_estudiantes w)) (w_cursos w) (w_examenes w)
          (w_json w) (w_archivos w) (w_oid w) (w_stdout w).
Definition set_cursos (f : gmap nat curso -> gmap nat curso) (w : World) : World :=
  mkWorld (w_planes w) (w_estudiantes w) (f (w_cursos w)) (w_examenes w)
          (w_json w) (w_archivos w) (w_oid w) (w_stdout w).
Definition set_examenes (f : gmap nat instancia_de_examen -> gmap nat instancia_de_examen)
    (w : World) : World :=
  mkWorld (w_planes w) (w_estudiantes w) (w_cursos w) (f (w_examenes w))
          (w_json w) (w_archivos w) (w_oid w) (w_stdout w).
Definition set_archivos (f : gmap string (list (list string)) -> gmap string (list (list string)))
    (w : World) : World :=
  mkWorld (w_planes w) (w_estudiantes w) (w_cursos w) (w_examenes w)
          (w_json w) (f (w_archivos w)) (w_oid w) (w_stdout w).
Definition set_oid (f : nat -> nat) (w : World) : World :=
  mkWorld (w_planes w) (w_estudiantes w) (w_cursos w) (w_examenes w)
          (w_json w) (w_archivos w) (f (w_oid w)) (w_stdout w).

(** The world after the lines [out] were printed; everything but the
    console is as in [w]. *)
Definition impreso (out : list string) (w : World) : World :=
  mkWorld (w_planes w) (w_estudiantes w) (w_cursos w) (w_examenes w)
          (w_json w) (w_archivos w) (w_oid w) (w_stdout w ++ out).

(** ** Computations: state and exceptions

    A raised exception keeps the state reached so far, as in Python. *)
Definition M (A : Type) : Type := World -> Res A * World.

#[global] Instance M_ret : MRet M := fun A a w => (Ret a, w).
#[global] Instance M_bind : MBind M := fun A B f m w =>
  match m w with
  | (Ret a, w') => f a w'
  | (Raise e, w') => (Raise e, w')
  end.

Definition raise {A} (c : ExcClase) (msg : string) : M A :=
  fun w => (Raise (Exc c msg), w).

Definition lift {A} (r : Res A) : M A := fun w => (r, w).

(** [try: m except <classes in cs> as e: h e] *)
Definition try_except {A} (m : M A) (cs : list ExcClase) (h : Excepcion -> M A) : M A :=
  fun w =>
    match m w with
    | (Raise e, w') => if bool_decide (exc_clase e ∈ cs) then h e w' else (Raise e, w')
    | r => r
    end.

(** [except Exception] *)
Definition Exception : list ExcClase :=
  [ValueError; TypeError; AttributeError; FileNotFoundError].

Definition print (line : string) : M unit := fun w => (Ret tt, impreso [line] w).

Definition get {A} (f : World -> A) : M A := fun w => (Ret (f w), w).
Definition modify (f : World -> World) : M unit := fun w => (Ret tt, f w).

(** Attribute access through a reference. *)
Definition sin_atributo {A} (attr : string) : M A :=
  raise AttributeError ("object has no attribute '" +:+ attr +:+ "'").

Definition plan_de (r : nat) (attr : string) : M plan_de_estudio :=
  fun w => match w_planes w !! r with
           | Some p => (Ret p, w)
           | None => sin_atributo attr w
           end.
Definition estudiante_de (r : nat) (attr : string) : M estudiante :=
  fun w => match w_estudiantes w !! r with
           | Some e => (Ret e, w)
           | None => sin_atributo attr w
           end.
Definition curso_de (r : nat) (attr : string) : M curso :=
  fun w => match w_cursos w !! r with
           | Some c => (Ret c, w)
           | None => sin_atributo attr w
           end.
Definition examen_de (r : nat) (attr : string) : M instancia_de_examen :=
  fun w => match w_examenes w !! r with
           | Some x => (Ret x, w)
           | None => sin_atributo attr w
           end.

(** [o.nombre] and [o.codigo] where [o] may be [None]. *)
Definition nombre_de (o : uc_o_None) : M string :=
  match o with
  | Some uc => mret (uc_nombre uc)
  | None => raise AttributeError "'NoneType' object has no attribute 'nombre'"
  end.
Definition codigo_de (o : uc_o_None) : M string :=
  match o with
  | Some uc => mret (uc_codigo uc)
  | None => raise AttributeError "'NoneType' object has no attribute 'codigo'"
  end.

(** [for x in l: body x], where a body returns [Some v] to leave the
    enclosing function with [return v], and [None] to go on. *)
Fixpoint for_return {A B} (l : list A) (body : A -> M (option B)) : M (option B) :=
  match l with
  | [] => mret None
  | x :: r =>
      o ← body x;
      match o with
      | Some v => mret (Some v)
      | None => for_return r body
      end
  end.

(** [for x in l: body x] *)
Fixpoint for_each {A} (l : list A) (body : A -> M unit) : M unit :=
  match l with
  | [] => mret tt
  | x :: r => body x;; for_each r body
  end.

(** [[f x for x in l]] *)
Fixpoint comprehension {A B} (l : list A) (f : A -> M B) : M (list B) :=
  match l with
  | [] => mret []
  | x :: r => y ← f x; ys ← comprehension r f; mret (y :: ys)
  end.

(** [for x in l: acc = body acc x] *)
Fixpoint for_acc {A S} (l : list A) (acc : S) (body : S -> A -> M S) : M S :=
  match l with
  | [] => mret acc
  | x :: r => acc' ← body acc x; for_acc r acc' body
  end.

(** ** class Persona (SdM.py) *)

Record persona := Persona_ { per_nombre : string; per_apellido : string }.

Module Persona.

(** [Persona.__init__]: the attributes it sets, or the [ValueError]. *)
Definition __init__ (nombre apellido : PyVal) : Res persona :=
  match nombre with
  | PStr n =>
      if String.eqb (Py.strip n) "" then
        Raise (Exc ValueError "El nombre debe ser una cadena no vacía.")
      else
        match apellido with
        | PStr a =>
            if String.eqb (Py.strip a) "" then
              Raise (Exc ValueError "El apellido debe ser una cadena no vacía.")
            else Ret (Persona_ (Py.title (Py.strip n)) (Py.title (Py.strip a)))
        | _ => Raise (Exc ValueError "El apellido debe ser una cadena no vacía.")
        end
  | _ => Raise (Exc ValueError "El nombre debe ser una cadena no vacía.")
  end.

Definition nombre_completo (self : persona) : string :=
  per_nombre self +:+ " " +:+ per_apellido self.

End Persona.

(** ** class PlanDeEstudio (SdM.py; PlanDeEstudio.py adds the manual
    addition and the removal of units) *)

Module PlanDeEstudio.

Definition set_materias (self : nat) (l : list unidad_curricular) : M unit :=
  p ← plan_de self "materias";
  modify (set_planes <[self := PlanDeEstudio_ (plan_nombre_plan p) l]>).

Definition _agregar_materia (self : nat) (unidad_curricular : unidad_curricular) : M unit :=
  p ← plan_de self "materias";
  set_materias self (plan_materias p ++ [unidad_curricular]).

(** The loop of [buscar_uc_por_codigo] over [self.materias]. *)
Fixpoint buscar (materias : list unidad_curricular) (codigo : string) : uc_o_None :=
  match materias with
  | [] => None
  | uc :: r => if String.eqb (uc_codigo uc) codigo then Some uc else buscar r codigo
  end.

Definition buscar_uc_por_codigo (self : nat) (codigo : string) : M uc_o_None :=
  p ← plan_de self "buscar_uc_por_codigo";
  mret (buscar (plan_materias p) codigo).

(** A new [UnidadCurricular] object, with the next free identity. *)
Definition nueva_uc (codigo nombre : string) (creditos : PyVal) (previas : list string)
    : M unidad_curricular :=
  oid ← get w_oid;
  modify (set_oid S);;
  mret (UnidadCurricular oid codigo nombre creditos previas).

Definition _cargar_desde_json (self : nat) (ruta_archivo : string) : M unit :=
  contenido ← get (fun w => w_json w !! ruta_archivo);
  match contenido with
  | None => raise FileNotFoundError ("No such file or directory: '" +:+ ruta_archivo +:+ "'")
  | Some datos =>
      for_each datos (fun '(semestre, materias) =>
        for_each materias (fun '(codigo, materia) =>
          uc ← nueva_uc codigo (mj_nombre materia) (mj_creditos materia) (mj_previas materia);
          _agregar_materia self uc))
  end.

Definition __init__ (nombre_plan ruta_json : string) : M nat :=
  self ← get (fun w => fresh (dom (w_planes w)));
  modify (set_planes <[self := PlanDeEstudio_ nombre_plan []]>);;
  _cargar_desde_json self ruta_json;;
  mret self.

(** [sum(1 for uc in self.materias if uc.codigo.endswith(sufijo))] *)
Definition contar_sufijo (materias : list unidad_curricular) (sufijo : string) : nat :=
  length (filter (fun uc => Py.endswith (uc_codigo uc) sufijo = true) materias).

(** The code that [agregar_materia_manual] builds. *)
Definition codigo_manual (materias : list unidad_curricular) (semestre : PyVal) : string :=
  "UC" +:+ Py.str_of_Z (Z.of_nat (contar_sufijo materias ("S" +:+ py_str semestre) + 1))
       +:+ "S" +:+ py_str semestre.

Definition agregar_materia_manual (self : nat) (nombre : string) (creditos semestre : PyVal)
    (previas : option (list string)) : M unit :=
  if String.eqb nombre "" || es_None creditos || es_None semestre then
    raise ValueError "Todos los campos (nombre, créditos y semestre) son obligatorios."
  else if negb (es_int semestre) then
    raise TypeError "'<' not supported between instances"
  else if (valor_int semestre <? 1)%Z || (valor_int semestre >? 10)%Z then
    raise ValueError "El semestre debe estar entre 1 y 10."
  else
    p ← plan_de self "materias";
    let codigo := codigo_manual (plan_materias p) semestre in
    let previas := match previas with None => [] | Some l => l end in
    uc ← nueva_uc codigo (Py.capitalize (Py.lower nombre)) creditos previas;
    _agregar_materia self uc;;
    print ("Materia agregada manualmente: " +:+ codigo +:+ " - " +:+ uc_nombre uc).

(** [self.materias.remove(materia)] *)
Fixpoint remove (materia : unidad_curricular) (l : list unidad_curricular)
    : list unidad_curricular :=
  match l with
  | [] => []
  | y :: r => if (uc_oid y =? uc_oid materia)%nat then r else y :: remove materia r
  end.

Definition quitar_materia (self : nat) (codigo : string) : M unit :=
  materia ← buscar_uc_por_codigo self codigo;
  match materia with
  | Some m =>
      p ← plan_de self "materias";
      set_materias self (remove m (plan_materias p));;
      print ("✔ Materia eliminada: " +:+ codigo +:+ " - " +:+ uc_nombre m)
  | None => print ("Materia con el código " +:+ codigo +:+ " no encontrada.")
  end.

Definition ver (self : nat) : M unit :=
  p ← plan_de self "nombre_plan";
  print ("Plan de Estudio: " +:+ plan_nombre_plan p);;
  print "----------------------------------------";;
  for_each (plan_materias p) (fun materia =>
    print (uc_codigo materia +:+ " - " +:+ uc_nombre materia +:+ " ("
           +:+ py_str (uc_creditos materia) +:+ " créditos)");;
    match uc_previas materia with
    | [] => mret tt
    | previas => print ("  ↳ Previas: " +:+ Py.join ", " previas)
    end);;
  print "----------------------------------------".

End PlanDeEstudio.

(** ** class Estudiante(Persona): construction, properties and the
    eligibility check *)

Module Estudiante.

Definition __init__ (nombre apellido cedula año_ingreso : PyVal) (plan : nat) : M nat :=
  p ← lift (Persona.__init__ nombre apellido);
  match py_int cedula with
  | Raise _ => raise ValueError "La cédula debe ser un número entero válido."
  | Ret _ =>
      self ← get (fun w => fresh (dom (w_estudiantes w)));
      modify (set_estudiantes
                <[self := Estudiante_ (per_nombre p) (per_apellido p) cedula año_ingreso plan
                                      [] [] [] []]>);;
      mret self
  end.

(** The [cedula] property. *)
Definition cedula (self : nat) : M PyVal :=
  e ← estudiante_de self "cedula";
  mret (est_cedula e).

Definition __str__ (self : nat) : M string :=
  e ← estudiante_de self "nombre";
  mret (est_nombre e +:+ " " +:+ est_apellido e +:+ " " +:+ py_str (est_cedula e)).

Definition nombre_completo (self : nat) : M string :=
  e ← estudiante_de self "nombre";
  mret (est_nombre e +:+ " " +:+ est_apellido e).

Definition ver_lista (vacia titulo : string) (l : list uc_o_None) : M unit :=
  match l with
  | [] => print vacia
  | _ =>
      print titulo;;
      for_each l (fun uc =>
        c ← codigo_de uc; n ← nombre_de uc; print ("- " +:+ c +:+ ": " +:+ n))
  end.

Definition ver_ucs_aprobadas (self : nat) : M unit :=
  e ← estudiante_de self "ucs_aprobadas";
  ver_lista "No tenés UCs aprobadas." "UCs aprobadas:" (est_ucs_aprobadas e).

Definition ver_ucs_regulares (self : nat) : M unit :=
  e ← estudiante_de self "ucs_regulares";
  ver_lista "No estás regular en ninguna UC." "UCs regulares:" (est_ucs_regulares e).

Definition ver_ucs_cursando (self : nat) : M unit :=
  e ← estudiante_de self "ucs_cursando";
  ver_lista "No estás cursando ninguna UC." "UCs que estás cursando:" (est_ucs_cursando e).

(** [uc.previas] where [uc] may be [None]. *)
Definition previas_de (o : uc_o_None) : M (list string) :=
  match o with
  | Some uc => mret (uc_previas uc)
  | None => raise AttributeError "'NoneType' object has no attribute 'previas'"
  end.

Definition _puede_inscribirse (self : nat) (codigo_uc : string) : M bool :=
  e ← estudiante_de self "plan";
  uc ← PlanDeEstudio.buscar_uc_por_codigo (est_plan e) codigo_uc;
  codigos_aprobadas ← comprehension (est_ucs_aprobadas e) codigo_de;
  codigos_cursando ← comprehension (est_ucs_cursando e) codigo_de;
  previas ← previas_de uc;
  previas_faltantes ← for_acc previas [] (fun faltantes previa_codigo =>
    previa ← PlanDeEstudio.buscar_uc_por_codigo (est_plan e) previa_codigo;
    c ← codigo_de previa;
    if negb (bool_decide (c ∈ codigos_aprobadas))
    then mret (faltantes ++ [previa]) else mret faltantes);
  match previas_faltantes with
  | _ :: _ =>
      n ← nombre_de uc;
      print ("No puedes inscribirte en la UC " +:+ n
             +:+ " porque te faltan las siguientes previas:");;
      for_each previas_faltantes (fun previa => n ← nombre_de previa; print ("- " +:+ n));;
      mret false
  | [] =>
      c ← codigo_de uc;
      if bool_decide (c ∈ codigos_cursando) then
        print "Ya está cursando esta UC.";; mret false
      else if bool_decide (c ∈ codigos_aprobadas) then
        print "Ya aprobó esta UC.";; mret false
      else mret true
  end.

Definition ver_plan (self : nat) : M unit :=
  e ← estudiante_de self "plan";
  PlanDeEstudio.ver (est_plan e).

End Estudiante.

(** Assignments to the list attributes of a student. *)
Definition set_ucs_aprobadas (estudiante : nat) (l : list uc_o_None) : M unit :=
  e ← estudiante_de estudiante "ucs_aprobadas";
  modify (set_estudiantes
            <[estudiante := Estudiante_ (est_nombre e) (est_apellido e) (est_cedula e)
                              (est_año_ingreso e) (est_plan e) l
                              (est_ucs_regulares e) (est_ucs_a_examen e)
                              (est_ucs_cursando e)]>).
Definition set_ucs_regulares (estudiante : nat) (l : list uc_o_None) : M unit :=
  e ← estudiante_de estudiante "ucs_regulares";
  modify (set_estudiantes
            <[estudiante := Estudiante_ (est_nombre e) (est_apellido e) (est_cedula e)
                              (est_año_ingreso e) (est_plan e) (est_ucs_aprobadas e)
                              l (est_ucs_a_examen e) (est_ucs_cursando e)]>).
Definition set_ucs_cursando (estudiante : nat) (l : list uc_o_None) : M unit :=
  e ← estudiante_de estudiante "ucs_cursando";
  modify (set_estudiantes
            <[estudiante := Estudiante_ (est_nombre e) (est_apellido e) (est_cedula e)
                              (est_año_ingreso e) (est_plan e) (est_ucs_aprobadas e)
                              (est_ucs_regulares e) (est_ucs_a_examen e) l]>).

(** [estudiante.ucs_cursando.append(uc)] *)
Definition append_cursando (estudiante : nat) (uc : uc_o_None) : M unit :=
  e ← estudiante_de estudiante "ucs_cursando";
  set_ucs_cursando estudiante (est_ucs_cursando e ++ [uc]).

(** [isinstance(r, Estudiante)] *)
Definition es_estudiante (r : nat) : M bool :=
  get (fun w => bool_decide (is_Some (w_estudiantes w !! r))).

(** ** class Curso *)

Module Curso.

Definition encabezado : list string :=
  ["Código UC"; "Nombre UC"; "Año"; "Semestre"; "Estudiantes Inscritos"].

(** Reading an attribute other than [uc]: only a course whose construction
    went through has it. *)
Definition attrs (self : nat) (attr : string) : M curso_attrs :=
  c ← curso_de self attr;
  match c with
  | CursoValido a => mret a
  | CursoInvalido => sin_atributo attr
  end.

Definition curso_valido (self : nat) : M bool :=
  c ← curso_de self "uc";
  mret (match c with CursoValido _ => true | CursoInvalido => false end).

Definition generar_csv (self : nat) : M unit :=
  try_except
    (a ← attrs self "archivo_csv";
     modify (set_archivos
               <[cur_archivo_csv a :=
                   [encabezado;
                    [cur_codigo_uc a; cur_nombre_uc a; py_str (cur_año a);
                     py_str (cur_semestre a); ""]]]>))
    Exception
    (fun e => print ("✖ Error al generar el archivo CSV: " +:+ exc_msg e)).

Definition __init__ (codigo_uc año semestre : PyVal) (plan : nat) : M nat :=
  self ← get (fun w => fresh (dom (w_cursos w)));
  modify (set_cursos <[self := CursoInvalido]>);;
  try_except
    (codigo ← match codigo_uc with
              | PStr c => mret c
              | _ => raise TypeError "El código de unidad curricular debe ser un string."
              end;
     (if negb (es_int año) || (valor_int año <? 2000)%Z then
        raise ValueError "El año debe ser un número entero válido (mayor a 2000)."
      else mret tt);;
     (if negb (es_int semestre)
         || negb ((1 <=? valor_int semestre)%Z && (valor_int semestre <=? 10)%Z) then
        raise ValueError "El semestre debe ser un entero entre 1 y 10."
      else mret tt);;
     p ← get (fun w => w_planes w !! plan);
     p ← match p with
         | Some p => mret p
         | None => raise TypeError "Plan inexistente"
         end;
     uc ← match PlanDeEstudio.buscar (plan_materias p) codigo with
          | Some uc => mret uc
          | None =>
              raise ValueError ("No se encontró la unidad curricular con código "
                                +:+ codigo +:+ " en el plan de estudios.")
          end;
     match Py.search_S_digits (uc_codigo uc) with
     | Some grupo =>
         let semestre_codificado := Py.Z_of_digits 0 grupo in
         if negb (valor_int semestre =? semestre_codificado)%Z then
           raise ValueError ("El semestre proporcionado (" +:+ py_str semestre
                             +:+ ") no coincide con el código (" +:+ uc_codigo uc +:+ ").")
         else mret tt
     | None => mret tt
     end;;
     modify (set_cursos
               <[self := CursoValido
                   (CursoAttrs uc (uc_codigo uc) (uc_nombre uc) año semestre []
                      ("curso_" +:+ uc_codigo uc +:+ "_" +:+ py_str año
                       +:+ "_sem" +:+ py_str semestre +:+ ".csv"))]>);;
     generar_csv self;;
     print ("✔ Curso creado para " +:+ uc_nombre uc +:+ " (" +:+ uc_codigo uc +:+ ") - "
            +:+ py_str año +:+ ", Semestre " +:+ py_str semestre))
    [ValueError; TypeError]
    (fun e =>
       print ("✖ Error al crear el curso: " +:+ exc_msg e);;
       modify (set_cursos <[self := CursoInvalido]>));;
  mret self.

Definition actualizar_csv (self : nat) : M unit :=
  try_except
    (a ← attrs self "archivo_csv";
     modify (set_archivos <[cur_archivo_csv a := [encabezado]]>);;
     nombres_estudiantes ← comprehension (cur_estudiantes a) (fun r =>
       e ← estudiante_de r "nombre";
       mret (est_nombre e +:+ " " +:+ est_apellido e));
     modify (set_archivos
               <[cur_archivo_csv a :=
                   [encabezado;
                    [cur_codigo_uc a; cur_nombre_uc a; py_str (cur_año a);
                     py_str (cur_semestre a); Py.join ", " nombres_estudiantes]]]>))
    Exception
    (fun e => print ("✖ Error al actualizar el CSV: " +:+ exc_msg e)).

Definition agregar_estudiante (self : nat) (estudiante : nat) : M unit :=
  valido ← curso_valido self;
  if negb valido then
    print "✖ Este curso no es válido. No se puede agregar estudiantes."
  else
    try_except
      (es ← es_estudiante estudiante;
       if negb es then raise TypeError "<objeto> no es un Estudiante"
       else
         a ← attrs self "estudiantes";
         if negb (bool_decide (estudiante ∈ cur_estudiantes a)) then
           modify (set_cursos
                     <[self := CursoValido
                         (CursoAttrs (cur_uc a) (cur_codigo_uc a) (cur_nombre_uc a)
                            (cur_año a) (cur_semestre a)
                            (cur_estudiantes a ++ [estudiante]) (cur_archivo_csv a))]>);;
           actualizar_csv self;;
           e ← estudiante_de estudiante "nombre";
           print ("✔ Estudiante " +:+ est_nombre e +:+ " " +:+ est_apellido e
                  +:+ " agregado al curso.")
         else print "⚠ El estudiante ya está inscrito en este curso.")
      [TypeError]
      (fun e => print ("✖ Error al agregar estudiante: " +:+ exc_msg e)).

Definition mostrar_estudiantes (self : nat) : M unit :=
  valido ← curso_valido self;
  if negb valido then
    print "✖ Este curso no es válido. No hay estudiantes que mostrar."
  else
    a ← attrs self "estudiantes";
    match cur_estudiantes a with
    | [] => print "No hay estudiantes inscritos en este curso."
    | l =>
        print ("Estudiantes inscritos en " +:+ cur_nombre_uc a +:+ ":");;
        for_each l (fun r =>
          e ← estudiante_de r "nombre";
          print ("- " +:+ est_nombre e +:+ " " +:+ est_apellido e))
    end.

End Curso.

(** ** class InstanciaDeExamen *)

Module InstanciaDeExamen.

Definition encabezado : list string :=
  ["Código UC"; "Fecha y Hora"; "Estudiantes Inscritos"].

Definition archivo_de (x : instancia_de_examen) : string :=
  "examen_" +:+ ex_codigo_uc x +:+ "_" +:+ ex_fecha x +:+ ".csv".

(** The body shared by [generar_csv] and [actualizar_csv], up to the line
    they print. *)
Definition escribir_csv (self : nat) : M string :=
  x ← examen_de self "codigo_uc";
  let archivo_csv := archivo_de x in
  let fecha_hora := ex_fecha x +:+ " " +:+ ex_hora x in
  modify (set_archivos <[archivo_csv := [encabezado]]>);;
  inscritos ← comprehension (ex_estudiantes x) Estudiante.__str__;
  modify (set_archivos
            <[archivo_csv :=
                [encabezado; [ex_codigo_uc x; fecha_hora; Py.join ", " inscritos]]]>);;
  mret archivo_csv.

Definition generar_csv (self : nat) : M unit :=
  archivo_csv ← escribir_csv self;
  x ← examen_de self "codigo_uc";
  print ("Examen para UC " +:+ ex_codigo_uc x +:+ " creado en el archivo "
         +:+ archivo_csv +:+ " con éxito.").

Definition __init__ (codigo_uc fecha hora : string) : M nat :=
  self ← get (fun w => fresh (dom (w_examenes w)));
  modify (set_examenes <[self := InstanciaDeExamen_ codigo_uc fecha hora []]>);;
  generar_csv self;;
  mret self.

Definition actualizar_csv (self : nat) : M unit :=
  archivo_csv ← escribir_csv self;
  print ("Archivo CSV actualizado con los estudiantes inscritos en " +:+ archivo_csv +:+ ".").

Definition agregar_estudiante (self : nat) (estudiante : nat) : M unit :=
  es ← es_estudiante estudiante;
  if (es : bool) then
    e ← estudiante_de estudiante "ucs_regulares";
    uc_en_registro ← for_return (est_ucs_regulares e) (fun uc =>
      c ← codigo_de uc;
      x ← examen_de self "codigo_uc";
      if String.eqb c (ex_codigo_uc x) then mret (Some uc) else mret None);
    match uc_en_registro with
    | Some uc_en_registro =>
        x ← examen_de self "estudiantes";
        if negb (bool_decide (estudiante ∈ ex_estudiantes x)) then
          modify (set_examenes
                    <[self := InstanciaDeExamen_ (ex_codigo_uc x) (ex_fecha x) (ex_hora x)
                                (ex_estudiantes x ++ [estudiante])]>);;
          actualizar_csv self;;
          n ← nombre_de uc_en_registro;
          print ("Estudiante " +:+ est_nombre e +:+ " " +:+ est_apellido e
                 +:+ " inscrito al examen de " +:+ n +:+ " con éxito.")
        else
          print ("El estudiante " +:+ est_nombre e +:+ " " +:+ est_apellido e
                 +:+ " ya está inscrito en el examen.")
    | None =>
        x ← examen_de self "codigo_uc";
        print ("El estudiante " +:+ est_nombre e +:+ " " +:+ est_apellido e
               +:+ " no está regular en la UC " +:+ ex_codigo_uc x
               +:+ ". No puede inscribirse al examen.")
    end
  else
    print "El objeto proporcionado no es una instancia válida de la clase Estudiante.".

Definition mostrar_estudiantes (self : nat) : M unit :=
  x ← examen_de self "estudiantes";
  match ex_estudiantes x with
  | [] => print "No hay estudiantes inscritos en este examen."
  | l =>
      print "Estudiantes inscritos:";;
      for_each l (fun r => s ← Estudiante.__str__ r; print s)
  end.

End InstanciaDeExamen.

(** ** class Estudiante: the methods that call into Curso and
    InstanciaDeExamen *)

Module EstudianteInscripcion.

Definition inscribirse_a_examen (self : nat) (instancia_examen : nat) : M unit :=
  x ← get (fun w => w_examenes w !! instancia_examen);
  match x with
  | Some x =>
      let codigo_uc := ex_codigo_uc x in
      e ← estudiante_de self "ucs_regulares";
      hecho ← for_return (est_ucs_regulares e) (fun uc =>
        c ← codigo_de uc;
        if String.eqb c codigo_uc then
          InstanciaDeExamen.agregar_estudiante instancia_examen self;;
          n ← nombre_de uc;
          print ("Estas inscripto al examen de " +:+ n);;
          mret (Some tt)
        else mret None);
      match hecho with
      | Some _ => mret tt
      | None =>
          e ← estudiante_de self "ucs_aprobadas";
          hecho ← for_return (est_ucs_aprobadas e) (fun uc =>
            c ← codigo_de uc;
            if String.eqb c codigo_uc then
              print "Esa materia ya la aprobaste naboleti";; mret (Some tt)
            else mret None);
          match hecho with
          | Some _ => mret tt
          | None => print ("No cumple con los requisitos para inscribirse a " +:+ codigo_uc)
          end
      end
  | None => print "Instancia de examen no válida."
  end.

Definition inscribirse_a_curso (self : nat) (curso : nat) : M unit :=
  valido ← Curso.curso_valido curso;
  if negb valido then print "Curso no válido."
  else
    a ← Curso.attrs curso "codigo_uc";
    puede ← Estudiante._puede_inscribirse self (cur_codigo_uc a);
    if (puede : bool) then
      a ← Curso.attrs curso "uc";
      append_cursando self (Some (cur_uc a));;
      Curso.agregar_estudiante curso self
    else mret tt.

End EstudianteInscripcion.

(** ** The staff roles

    A method call on a staff member, for the methods that only return
    [None]. *)
Inductive Llamada :=
  | L_inscribir_a_examen (estudiante examen : nat)
  | L_inscribir_a_curso (estudiante curso : nat)
  | L_ver_plan (plan : nat)
  | L_ver_estudiantes_curso (curso : nat)
  | L_ver_estudiantes_examen (examen : nat)
  | L_quitar_uc_regular (estudiante : nat) (codigo_uc : string)
  | L_quitar_uc_aprobada (estudiante : nat) (codigo_uc : string)
  | L_agregar_uc_aprobada (estudiante : nat) (codigo_uc : string)
  | L_agregar_uc_regular (estudiante : nat) (codigo_uc : string).

(** The name of the method a call goes to. *)
Definition metodo_de (l : Llamada) : string :=
  match l with
  | L_inscribir_a_examen _ _ => "inscribir_a_examen"
  | L_inscribir_a_curso _ _ => "inscribir_a_curso"
  | L_ver_plan _ => "ver_plan"
  | L_ver_estudiantes_curso _ => "ver_estudiantes_curso"
  | L_ver_estudiantes_examen _ => "ver_estudiantes_examen"
  | L_quitar_uc_regular _ _ => "quitar_uc_regular"
  | L_quitar_uc_aprobada _ _ => "quitar_uc_aprobada"
  | L_agregar_uc_aprobada _ _ => "agregar_uc_aprobada"
  | L_agregar_uc_regular _ _ => "agregar_uc_regular"
  end.

(** *** class Coordinadora(Persona) *)

Module Coordinadora.

Definition __init__ (nombre apellido : PyVal) : Res persona :=
  Persona.__init__ nombre apellido.

Definition crear_plan (self : persona) (nombre_plan ruta_json : string) : M nat :=
  plan ← PlanDeEstudio.__init__ nombre_plan ruta_json;
  print (per_nombre self +:+ " ha creado el plan '" +:+ nombre_plan +:+ "'.");;
  mret plan.

Definition inscribir_a_examen (self : persona) (estudiante examen : nat) : M unit :=
  es ← es_estudiante estudiante;
  if (es : bool) then
    e ← estudiante_de estudiante "plan";
    x ← examen_de examen "codigo_uc";
    uc ← PlanDeEstudio.buscar_uc_por_codigo (est_plan e) (ex_codigo_uc x);
    if bool_decide (is_Some uc) && py_in uc (est_ucs_regulares e) then
      EstudianteInscripcion.inscribirse_a_examen estudiante examen
    else
      c ← codigo_de uc;
      print (est_nombre e +:+ " no está regular en la UC " +:+ c
             +:+ ", no puede inscribirse al examen.")
  else print "No existe estudiante.".

Definition inscribir_a_curso (self : persona) (estudiante curso : nat) : M unit :=
  es ← es_estudiante estudiante;
  if negb es then print "El objeto proporcionado no es un Estudiante."
  else
    es_curso ← get (fun w => bool_decide (is_Some (w_cursos w !! curso)));
    valido ← (if (es_curso : bool) then Curso.curso_valido curso else mret false);
    if negb valido then print "El curso no es válido."
    else
      a ← Curso.attrs curso "codigo_uc";
      puede ← Estudiante._puede_inscribirse estudiante (cur_codigo_uc a);
      if (puede : bool) then
        a ← Curso.attrs curso "uc";
        append_cursando estudiante (Some (cur_uc a));;
        Curso.agregar_estudiante curso estudiante
      else
        e ← estudiante_de estudiante "nombre";
        a ← Curso.attrs curso "codigo_uc";
        print (est_nombre e +:+ " no puede inscribirse al curso " +:+ cur_codigo_uc a).

Definition ver_plan (self : persona) (plan : nat) : M unit :=
  PlanDeEstudio.ver plan.

Definition ver_estudiantes_curso (self : persona) (curso : nat) : M unit :=
  Curso.mostrar_estudiantes curso.

Definition ver_estudiantes_examen (self : persona) (examen : nat) : M unit :=
  InstanciaDeExamen.mostrar_estudiantes examen.

Definition quitar_uc_regular (self : persona) (estudiante : nat) (codigo_uc : string) : M unit :=
  e ← estudiante_de estudiante "plan";
  uc ← PlanDeEstudio.buscar_uc_por_codigo (est_plan e) codigo_uc;
  if py_in uc (est_ucs_regulares e) then
    set_ucs_regulares estudiante (py_remove uc (est_ucs_regulares e));;
    n ← nombre_de uc;
    print ("✔ " +:+ n +:+ " fue removida de las UCs regulares de " +:+ est_nombre e +:+ ".")
  else
    n ← nombre_de uc;
    print ("✖ " +:+ n +:+ " no está en las UCs regulares de " +:+ est_nombre e +:+ ".").

Definition quitar_uc_aprobada (self : persona) (estudiante : nat) (codigo_uc : string) : M unit :=
  e ← estudiante_de estudiante "plan";
  uc ← PlanDeEstudio.buscar_uc_por_codigo (est_plan e) codigo_uc;
  if py_in uc (est_ucs_aprobadas e) then
    set_ucs_aprobadas estudiante (py_remove uc (est_ucs_aprobadas e));;
    n ← nombre_de uc;
    print ("✔ " +:+ n +:+ " fue removida de las UCs aprobadas de " +:+ est_nombre e +:+ ".")
  else
    n ← nombre_de uc;
    print ("✖ " +:+ n +:+ " no está en las UCs aprobadas de " +:+ est_nombre e +:+ ".").

Definition agregar_uc_aprobada (self : persona) (estudiante : nat) (codigo_uc : string) : M unit :=
  e ← estudiante_de estudiante "plan";
  uc ← PlanDeEstudio.buscar_uc_por_codigo (est_plan e) codigo_uc;
  if negb (py_in uc (est_ucs_aprobadas e)) then
    set_ucs_aprobadas estudiante (est_ucs_aprobadas e ++ [uc]);;
    n ← nombre_de uc;
    print ("✔ " +:+ n +:+ " fue agregada correctamente a las UCs aprobadas de "
           +:+ est_nombre e +:+ ".")
  else
    n ← nombre_de uc;
    print ("✖ " +:+ est_nombre e +:+ " ya había aprobado la UC " +:+ n +:+ ".").

Definition agregar_uc_regular (self : persona) (estudiante : nat) (codigo_uc : string) : M unit :=
  e ← estudiante_de estudiante "plan";
  uc ← PlanDeEstudio.buscar_uc_por_codigo (est_plan e) codigo_uc;
  if negb (py_in uc (est_ucs_regulares e)) then
    set_ucs_regulares estudiante (est_ucs_regulares e ++ [uc]);;
    n ← nombre_de uc;
    print ("✔ " +:+ n +:+ " fue agregada correctamente a las UCs regulares de "
           +:+ est_nombre e +:+ ".")
  else
    n ← nombre_de uc;
    print ("✖ " +:+ est_nombre e +:+ " ya estaba regular en la UC " +:+ n +:+ ".").

Definition crear_curso (self : persona) (codigo_uc año semestre : PyVal) (plan : nat)
    : M (option nat) :=
  curso ← Curso.__init__ codigo_uc año semestre plan;
  valido ← Curso.curso_valido curso;
  if (valido : bool) then mret (Some curso)
  else print "No se pudo crear el curso.";; mret None.

Definition crear_instancia_examen (self : persona) (codigo_uc fecha hora : string) (plan : nat)
    : M (option nat) :=
  uc ← PlanDeEstudio.buscar_uc_por_codigo plan codigo_uc;
  match uc with
  | Some _ =>
      examen ← InstanciaDeExamen.__init__ codigo_uc fecha hora;
      mret (Some examen)
  | None =>
      print ("No se encontró la unidad curricular " +:+ codigo_uc +:+ " en el plan.");;
      mret None
  end.

(** The methods the class defines, in source order. *)
Definition metodos : list string :=
  ["crear_plan"; "inscribir_a_examen"; "inscribir_a_curso"; "ver_plan";
   "ver_estudiantes_curso"; "ver_estudiantes_examen"; "quitar_uc_regular";
   "quitar_uc_aprobada"; "agregar_uc_aprobada"; "agregar_uc_regular"; "crear_curso";
   "crear_instancia_examen"].

Definition llamar (self : persona) (l : Llamada) : M unit :=
  match l with
  | L_inscribir_a_examen e x => inscribir_a_examen self e x
  | L_inscribir_a_curso e c => inscribir_a_curso self e c
  | L_ver_plan p => ver_plan self p
  | L_ver_estudiantes_curso c => ver_estudiantes_curso self c
  | L_ver_estudiantes_examen x => ver_estudiantes_examen self x
  | L_quitar_uc_regular e c => quitar_uc_regular self e c
  | L_quitar_uc_aprobada e c => quitar_uc_aprobada self e c
  | L_agregar_uc_aprobada e c => agregar_uc_aprobada self e c
  | L_agregar_uc_regular e c => agregar_uc_regular self e c
  end.

End Coordinadora.

(** *** class Secretaria(Persona) *)

Module Secretaria.

Definition __init__ (nombre apellido : PyVal) : Res persona :=
  Persona.__init__ nombre apellido.

Definition inscribir_a_examen (self : persona) (estudiante examen : nat) : M unit :=
  es ← es_estudiante estudiante;
  if (es : bool) then
    e ← estudiante_de estudiante "plan";
    x ← examen_de examen "codigo_uc";
    uc ← PlanDeEstudio.buscar_uc_por_codigo (est_plan e) (ex_codigo_uc x);
    if bool_decide (is_Some uc) && py_in uc (est_ucs_regulares e) then
      EstudianteInscripcion.inscribirse_a_examen estudiante examen
    else
      c ← codigo_de uc;
      print (est_nombre e +:+ " no está regular en la UC " +:+ c
             +:+ ", no puede inscribirse al examen.")
  else print "No existe estudiante.".

Definition inscribir_a_curso (self : persona) (estudiante curso : nat) : M unit :=
  es ← es_estudiante estudiante;
  if negb es then print "El objeto proporcionado no es un Estudiante."
  else
    es_curso ← get (fun w => bool_decide (is_Some (w_cursos w !! curso)));
    valido ← (if (es_curso : bool) then Curso.curso_valido curso else mret false);
    if negb valido then print "El curso no es válido."
    else
      a ← Curso.attrs curso "codigo_uc";
      puede ← Estudiante._puede_inscribirse estudiante (cur_codigo_uc a);
      if (puede : bool) then
        a ← Curso.attrs curso "uc";
        append_cursando estudiante (Some (cur_uc a));;
        Curso.agregar_estudiante curso estudiante
      else
        e ← estudiante_de estudiante "nombre";
        a ← Curso.attrs curso "codigo_uc";
        print (est_nombre e +:+ " no puede inscribirse al curso " +:+ cur_codigo_uc a).

Definition ver_plan (self : persona) (plan : nat) : M unit :=
  PlanDeEstudio.ver plan.

Definition ver_estudiantes_curso (self : persona) (curso : nat) : M unit :=
  Curso.mostrar_estudiantes curso.

Definition ver_estudiantes_examen (self : persona) (examen : nat) : M unit :=
  InstanciaDeExamen.mostrar_estudiantes examen.

Definition quitar_uc_regular (self : persona) (estudiante : nat) (codigo_uc : string) : M unit :=
  e ← estudiante_de estudiante "plan";
  uc ← PlanDeEstudio.buscar_uc_por_codigo (est_plan e) codigo_uc;
  if py_in uc (est_ucs_regulares e) then
    set_ucs_regulares estudiante (py_remove uc (est_ucs_regulares e));;
    n ← nombre_de uc;
    print ("✔ " +:+ n +:+ " fue removida de las UCs regulares de " +:+ est_nombre e +:+ ".")
  else
    n ← nombre_de uc;
    print ("✖ " +:+ n +:+ " no está en las UCs regulares de " +:+ est_nombre e +:+ ".").

Definition quitar_uc_aprobada (self : persona) (estudiante : nat) (codigo_uc : string) : M unit :=
  e ← estudiante_de estudiante "plan";
  uc ← PlanDeEstudio.buscar_uc_por_codigo (est_plan e) codigo_uc;
  if py_in uc (est_ucs_aprobadas e) then
    set_ucs_aprobadas estudiante (py_remove uc (est_ucs_aprobadas e));;
    n ← nombre_de uc;
    print ("✔ " +:+ n +:+ " fue removida de las UCs aprobadas de " +:+ est_nombre e +:+ ".")
  else
    n ← nombre_de uc;
    print ("✖ " +:+ n +:+ " no está en las UCs aprobadas de " +:+ est_nombre e +:+ ".").

Definition agregar_uc_aprobada (self : persona) (estudiante : nat) (codigo_uc : string) : M unit :=
  e ← estudiante_de estudiante "plan";
  uc ← PlanDeEstudio.buscar_uc_por_codigo (est_plan e) codigo_uc;
  if negb (py_in uc (est_ucs_aprobadas e)) then
    set_ucs_aprobadas estudiante (est_ucs_aprobadas e ++ [uc]);;
    n ← nombre_de uc;
    print ("✔ " +:+ n +:+ " fue agregada correctamente a las UCs aprobadas de "
           +:+ est_nombre e +:+ ".")
  else
    n ← nombre_de uc;
    print ("✖ " +:+ est_nombre e +:+ " ya había aprobado la UC " +:+ n +:+ ".").

Definition agregar_uc_regular (self : persona) (estudiante : nat) (codigo_uc : string) : M unit :=
  e ← estudiante_de estudiante "plan";
  uc ← PlanDeEstudio.buscar_uc_por_codigo (est_plan e) codigo_uc;
  if negb (py_in uc (est_ucs_regulares e)) then
    set_ucs_regulares estudiante (est_ucs_regulares e ++ [uc]);;
    n ← nombre_de uc;
    print ("✔ " +:+ n +:+ " fue agregada correctamente a las UCs regulares de "
           +:+ est_nombre e +:+ ".")
  else
    n ← nombre_de uc;
    print ("✖ " +:+ est_nombre e +:+ " ya estaba regular en la UC " +:+ n +:+ ".").

(** The methods the class defines, in source order. *)
Definition metodos : list string :=
  ["inscribir_a_examen"; "inscribir_a_curso"; "ver_plan"; "ver_estudiantes_curso";
   "ver_estudiantes_examen"; "quitar_uc_regular"; "quitar_uc_aprobada";
   "agregar_uc_aprobada"; "agregar_uc_regular"].

Definition llamar (self : persona) (l : Llamada) : M unit :=
  match l with
  | L_inscribir_a_examen e x => inscribir_a_examen self e x
  | L_inscribir_a_curso e c => inscribir_a_curso self e c
  | L_ver_plan p => ver_plan self p
  | L_ver_estudiantes_curso c => ver_estudiantes_curso self c
  | L_ver_estudiantes_examen x => ver_estudiantes_examen self x
  | L_quitar_uc_regular e c => quitar_uc_regular self e c
  | L_quitar_uc_aprobada e c => quitar_uc_aprobada self e c
  | L_agregar_uc_aprobada e c => agregar_uc_aprobada self e c
  | L_agregar_uc_regular e c => agregar_uc_regular self e c
  end.

End Secretaria.

(** ** Vocabulary of the statements *)

(** The list holds units only, no [None]. *)
Definition sin_None (l : list uc_o_None) : Prop := Forall is_Some l.

(** Every code of the list resolves in [materias]. *)
Definition resuelven (materias : list unidad_curricular) (cs : list string) : Prop :=
  Forall (fun c => is_Some (PlanDeEstudio.buscar materias c)) cs.

#[global] Instance sin_None_dec l : Decision (sin_None l).
Proof. unfold sin_None. apply _. Defined.

#[global] Instance resuelven_dec materias cs : Decision (resuelven materias cs).
Proof. unfold resuelven. apply _. Defined.

(** The codes of the units of a list. *)
Definition codigos (l : list uc_o_None) : list string :=
  omap (fun o => uc_codigo <$> o) l.

(** The prerequisites of [previas] that are not among the approved codes,
    as the units the plan resolves them to. *)
Definition faltantes (materias : list unidad_curricular) (aprobadas previas : list string)
    : list uc_o_None :=
  PlanDeEstudio.buscar materias <$> filter (fun c => c ∉ aprobadas) previas.

(** ** A small scenario, built with the program's own operations *)

(** The world reached from [w] by running [m]. *)
Definition despues {A} (m : M A) (w : World) : World := (m w).2.

(** What [m] returns or raises from [w]. *)
Definition resultado {A} (m : M A) (w : World) : Res A := (m w).1.

Definition plan_ejemplo : plan_json :=
  [("1", [("UC1S1", MateriaJson "Matematica" (PInt 8) []);
          ("UC2S1", MateriaJson "Fisica" (PInt 6) [])]);
   ("2", [("UC1S2", MateriaJson "Calculo" (PInt 8) ["UC1S1"]);
          ("UC2S2", MateriaJson "Mecanica" (PInt 6) ["UC1S1"; "UC2S1"])])].

Definition uc1s1 : unidad_curricular := UnidadCurricular 0 "UC1S1" "Matematica" (PInt 8) [].
Definition uc2s1 : unidad_curricular := UnidadCurricular 1 "UC2S1" "Fisica" (PInt 6) [].
Definition uc1s2 : unidad_curricular :=
  UnidadCurricular 2 "UC1S2" "Calculo" (PInt 8) ["UC1S1"].
Definition uc2s2 : unidad_curricular :=
  UnidadCurricular 3 "UC2S2" "Mecanica" (PInt 6) ["UC1S1"; "UC2S1"].

(** The plan object that loading [plan_ejemplo] builds. *)
Definition plan0 : plan_de_estudio := PlanDeEstudio_ "Plan 2024" [uc1s1; uc2s1; uc1s2; uc2s2].

Definition marta : persona := Persona_ "Marta" "Gomez".

(** Only the plan file exists. *)
Definition mundo_json : World :=
  mkWorld ∅ ∅ ∅ ∅ {["plan.json" := plan_ejemplo]} ∅ 0 [].

(** Marta loads the plan (plan 0) ... *)
Definition mundo_plan : World :=
  despues (Coordinadora.crear_plan marta "Plan 2024" "plan.json") mundo_json.

(** ... Ana enrols in the degree (student 0), her id given as text ... *)
Definition mundo_ana : World :=
  despues (Estudiante.__init__ (PStr " ana ") (PStr "perez") (PStr "42") (PInt 2024) 0)
          mundo_plan.

(** ... and passes UC1S1. *)
Definition mundo_ana_aprobo : World :=
  despues (Coordinadora.agregar_uc_aprobada marta 0 "UC1S1") mundo_ana.

(** Ana after passing UC1S1. *)
Definition ana_aprobo : estudiante :=
  Estudiante_ "Ana" "Perez" (PStr "42") (PInt 2024) 0 [Some uc1s1] [] [] [].


(** Ana is regular in UC2S1 as well ... *)
Definition mundo_ana_regular : World :=
  despues (Coordinadora.agregar_uc_regular marta 0 "UC2S1") mundo_ana_aprobo.

(** ... and an exam sitting of UC2S1 is scheduled (exam 0). *)
Definition mundo_examen : World :=
  despues (Coordinadora.crear_instancia_examen marta "UC2S1" "2024-07-01" "09:00" 0)
          mundo_ana_regular.

(** Ana is put on the roster of that exam. *)
Definition mundo_examen_ana : World :=
  despues (InstanciaDeExamen.agregar_estudiante 0 0) mundo_examen.

(** A course of UC1S2 in 2024, term 2 (course 0). *)
Definition mundo_curso : World :=
  despues (Coordinadora.crear_curso marta (PStr "UC1S2") (PInt 2024) (PInt 2) 0)
          mundo_examen.

(** UC1S1 is taken out of the plan. *)
Definition mundo_sin_uc1s1 : World :=
  despues (PlanDeEstudio.quitar_materia 0 "UC1S1") mundo_plan.

(** Then a first-term unit is added by hand. *)
Definition mundo_manual : World :=
  despues (PlanDeEstudio.agregar_materia_manual 0 "quimica" (PInt 6) (PInt 1) None)
          mundo_sin_uc1s1.

(** The codes of the units of plan [r]. *)
Definition codigos_del_plan (w : World) (r : nat) : list string :=
  match w_planes w !! r with
  | Some p => uc_codigo <$> plan_materias p
  | None => []
  end.

(** The state the operations act on: everything but the console. *)
Definition mismo_estado (w w' : World) : Prop :=
  w_planes w = w_planes w' /\ w_estudiantes w = w_estudiantes w' /\
  w_cursos w = w_cursos w' /\ w_examenes w = w_examenes w' /\
  w_json w = w_json w' /\ w_archivos w = w_archivos w' /\ w_oid w = w_oid w'.


(** ** Rosters and snapshots *)

(** [f"{e.nombre} {e.apellido}"], the full name. *)
Definition nombre_y_apellido (e : estudiante) : string :=
  est_nombre e +:+ " " +:+ est_apellido e.

(** [str(e)] as [Estudiante.__str__] builds it: full name and id. *)
Definition str_estudiante (e : estudiante) : string :=
  est_nombre e +:+ " " +:+ est_apellido e +:+ " " +:+ py_str (est_cedula e).

(** Every reference of the roster is a student of [w]. *)
Definition todos_estudiantes (w : World) (roster : list nat) : Prop :=
  Forall (fun r => is_Some (w_estudiantes w !! r)) roster.

#[global] Instance todos_estudiantes_dec w roster : Decision (todos_estudiantes w roster).
Proof. unfold todos_estudiantes. apply _. Defined.

(** What [f] gives for each student of the roster, in roster order. *)
Definition de_cada_uno (f : estudiante -> string) (w : World) (roster : list nat)
    : list string :=
  omap (fun r => f <$> w_estudiantes w !! r) roster.

(** The roster of course [c] (empty when [c] is not a valid course). *)
Definition alumnos_curso (w : World) (c : nat) : list nat :=
  match w_cursos w !! c with
  | Some (CursoValido a) => cur_estudiantes a
  | _ => []
  end.

(** The roster of exam sitting [x]. *)
Definition alumnos_examen (w : World) (x : nat) : list nat :=
  match w_examenes w !! x with
  | Some ex => ex_estudiantes ex
  | None => []
  end.

(** The last field of the data row of a snapshot: the enrolled students. *)
Definition campo_inscritos (filas : list (list string)) : option string :=
  fila ← filas !! 1%nat; last fila.

(** The enrolled-students field of the snapshot file of course [c]. *)
Definition inscritos_csv_curso (w : World) (c : nat) : option string :=
  match w_cursos w !! c with
  | Some (CursoValido a) => w_archivos w !! cur_archivo_csv a ≫= campo_inscritos
  | _ => None
  end.

(** The enrolled-students field of the snapshot file of exam sitting [x]. *)
Definition inscritos_csv_examen (w : World) (x : nat) : option string :=
  ex ← w_examenes w !! x;
  w_archivos w !! InstanciaDeExamen.archivo_de ex ≫= campo_inscritos.

(** The first unit of the list with the given code. *)
Fixpoint primera_con_codigo (codigo : string) (l : list uc_o_None) : option unidad_curricular :=
  match l with
  | [] => None
  | Some u :: r => if String.eqb (uc_codigo u) codigo then Some u else primera_con_codigo codigo r
  | None :: r => primera_con_codigo codigo r
  end.

(** Course [c] with [s] appended to its roster. *)
Definition curso_con (a : curso_attrs) (s : nat) : curso :=
  CursoValido (CursoAttrs (cur_uc a) (cur_codigo_uc a) (cur_nombre_uc a) (cur_año a)
                 (cur_semestre a) (cur_estudiantes a ++ [s]) (cur_archivo_csv a)).

(** Exam sitting [ex] with [s] appended to its roster. *)
Definition examen_con (ex : instancia_de_examen) (s : nat) : instancia_de_examen :=
  InstanciaDeExamen_ (ex_codigo_uc ex) (ex_fecha ex) (ex_hora ex) (ex_estudiantes ex ++ [s]).


(** The data row written for a valid course. *)
Definition fila_curso (w : World) (a : curso_attrs) : list string :=
  [cur_codigo_uc a; cur_nombre_uc a; py_str (cur_año a); py_str (cur_semestre a);
   Py.join ", " (de_cada_uno nombre_y_apellido w (cur_estudiantes a))].

(** The data row written for an exam sitting. *)
Definition fila_examen (w : World) (ex : instancia_de_examen) : list string :=
  [ex_codigo_uc ex; ex_fecha ex +:+ " " +:+ ex_hora ex;
   Py.join ", " (de_cada_uno str_estudiante w (ex_estudiantes ex))].

(** The objects of a world, as opposed to its files and console. *)
Definition objetos (w : World) :=
  (w_planes w, w_estudiantes w, w_cursos w, w_examenes w).

(** Computations that leave every object as it is: they may only write
    files and print. *)
Definition conserva {A} (m : M A) : Prop := forall w, objetos (m w).2 = objetos w.


(** The loop [for uc in l: if uc.codigo == codigo: ...; break]: the first
    unit with the code, [None] when the list has none, or the
    [AttributeError] of reading [uc.codigo] on a [None] entry met before. *)
Fixpoint primera_o_error (codigo : string) (l : list uc_o_None)
    : Res (option unidad_curricular) :=
  match l with
  | [] => Ret None
  | Some u :: r =>
      if String.eqb (uc_codigo u) codigo then Ret (Some u) else primera_o_error codigo r
  | None :: _ => Raise (Exc AttributeError "'NoneType' object has no attribute 'codigo'")
  end.


(** Exam sittings of UC1S1 (exam 1), which Ana has passed, and of UC1S2
    (exam 2), in which she is neither regular nor approved. *)
Definition mundo_tres_examenes : World :=
  despues (Coordinadora.crear_instancia_examen marta "UC1S2" "2024-07-03" "09:00" 0)
    (despues (Coordinadora.crear_instancia_examen marta "UC1S1" "2024-07-02" "09:00" 0)
       mundo_curso).

(** The objects of [mundo_curso] and [mundo_tres_examenes]. *)
Definition ana_regular : estudiante :=
  Estudiante_ "Ana" "Perez" (PStr "42") (PInt 2024) 0 [Some uc1s1] [Some uc2s1] [] [].
Definition curso0 : curso :=
  CursoValido (CursoAttrs uc1s2 "UC1S2" "Calculo" (PInt 2024) (PInt 2) []
                 "curso_UC1S2_2024_sem2.csv").
Definition examen0 : instancia_de_examen :=
  InstanciaDeExamen_ "UC2S1" "2024-07-01" "09:00" [].
Definition examen1 : instancia_de_examen :=
  InstanciaDeExamen_ "UC1S1" "2024-07-02" "09:00" [].
Definition examen2 : instancia_de_examen :=
  InstanciaDeExamen_ "UC1S2" "2024-07-03" "09:00" [].


(** ** The checks of the construction of a course, one after the other

    The checks as the documentation of [Curso.__init__] lists them, with
    the bound on the year that the code applies ([año >= 2000]): the message
    of the first check that fails, or the unit the course is built for. *)
Definition validacion_en_orden (codigo_uc año semestre : PyVal)
    (plan : option plan_de_estudio) : string + unidad_curricular :=
  match codigo_uc with
  | PStr codigo =>
      if negb (es_int año && (2000 <=? valor_int año)%Z) then
        inl "El año debe ser un número entero válido (mayor a 2000)."
      else if negb (es_int semestre && (1 <=? valor_int semestre)%Z
                    && (valor_int semestre <=? 10)%Z) then
        inl "El semestre debe ser un entero entre 1 y 10."
      else
        match plan with
        | None => inl "Plan inexistente"
        | Some p =>
            match PlanDeEstudio.buscar (plan_materias p) codigo with
            | None => inl ("No se encontró la unidad curricular con código "
                           +:+ codigo +:+ " en el plan de estudios.")
            | Some uc =>
                match Py.search_S_digits (uc_codigo uc) with
                | Some grupo =>
                    if (valor_int semestre =? Py.Z_of_digits 0 grupo)%Z then inr uc
                    else inl ("El semestre proporcionado (" +:+ py_str semestre
                              +:+ ") no coincide con el código (" +:+ uc_codigo uc +:+ ").")
                | None => inr uc
                end
            end
        end
  | _ => inl "El código de unidad curricular debe ser un string."
  end.

(** The attributes [Curso.__init__] gives to a course of [uc]. *)
Definition attrs_iniciales (uc : unidad_curricular) (año semestre : PyVal) : curso_attrs :=
  CursoAttrs uc (uc_codigo uc) (uc_nombre uc) año semestre []
    ("curso_" +:+ uc_codigo uc +:+ "_" +:+ py_str año +:+ "_sem" +:+ py_str semestre +:+ ".csv").


(** ** class Persona (Persona.py): the variant that also takes the id *)

Record persona_con_cedula := PersonaConCedula_ {
  pc_nombre : string;
  pc_apellido : string;
  pc_cedula : Z
}.

Module PersonaPy.

(** [Persona.__init__] of Persona.py: the attributes it sets, or the
    [ValueError].  The id is stored after its conversion by [int()]. *)
Definition __init__ (nombre apellido cedula : PyVal) : Res persona_con_cedula :=
  match nombre with
  | PStr n =>
      if String.eqb (Py.strip n) "" then
        Raise (Exc ValueError "El nombre debe ser una cadena no vacía.")
      else
        match apellido with
        | PStr a =>
            if String.eqb (Py.strip a) "" then
              Raise (Exc ValueError "El apellido debe ser una cadena no vacía.")
            else
              match py_int cedula with
              | Ret z =>
                  Ret (PersonaConCedula_ (Py.title (Py.strip n)) (Py.title (Py.strip a)) z)
              | Raise _ => Raise (Exc ValueError "La cédula debe ser un número entero válido.")
              end
        | _ => Raise (Exc ValueError "El apellido debe ser una cadena no vacía.")
        end
  | _ => Raise (Exc ValueError "El nombre debe ser una cadena no vacía.")
  end.

(** The [cedula] property. *)
Definition cedula (self : persona_con_cedula) : Z := pc_cedula self.

Definition nombre_completo (self : persona_con_cedula) : string :=
  pc_nombre self +:+ " " +:+ pc_apellido self.

End PersonaPy.

(** ** Vocabulary of the further statements *)

(** The codes of the units of a plan, in plan order. *)
Definition codigos_de (materias : list unidad_curricular) : list string :=
  uc_codigo <$> materias.

(** No two different units of the list carry the same identity: what the
    interpreter guarantees for objects that are alive together. *)
Definition identidades_distintas (materias : list unidad_curricular) : Prop :=
  NoDup (uc_oid <$> materias).

#[global] Instance identidades_distintas_dec materias : Decision (identidades_distintas materias).
Proof. unfold identidades_distintas. apply _. Defined.

(** Some character of the text is not blank. *)
Definition no_en_blanco (s : string) : Prop := Py.strip s <> "".

(** The value is a string with a character that is not blank. *)
Definition nombre_valido (v : PyVal) : Prop :=
  match v with
  | PStr s => no_en_blanco s
  | _ => False
  end.


(** The plan of [mundo_sin_uc1s1]. *)
Definition plan_sin_uc1s1 : plan_de_estudio :=
  PlanDeEstudio_ "Plan 2024" [uc2s1; uc1s2; uc2s2].


(** Student [e] with another list of approved, regular or in-progress
    units. *)
Definition con_aprobadas (e : estudiante) (l : list uc_o_None) : estudiante :=
  Estudiante_ (est_nombre e) (est_apellido e) (est_cedula e) (est_año_ingreso e) (est_plan e)
    l (est_ucs_regulares e) (est_ucs_a_examen e) (est_ucs_cursando e).
Definition con_regulares (e : estudiante) (l : list uc_o_None) : estudiante :=
  Estudiante_ (est_nombre e) (est_apellido e) (est_cedula e) (est_año_ingreso e) (est_plan e)
    (est_ucs_aprobadas e) l (est_ucs_a_examen e) (est_ucs_cursando e).
Definition con_cursando (e : estudiante) (l : list uc_o_None) : estudiante :=
  Estudiante_ (est_nombre e) (est_apellido e) (est_cedula e) (est_año_ingreso e) (est_plan e)
    (est_ucs_aprobadas e) (est_ucs_regulares e) (est_ucs_a_examen e) l.

(** What [_puede_inscribirse] answers for a unit with prerequisites
    [previas] and code [codigo], seen from the lists of a student. *)
Definition elegible (materias : list unidad_curricular) (e : estudiante)
    (previas : list string) (codigo : string) : bool :=
  bool_decide (faltantes materias (codigos (est_ucs_aprobadas e)) previas = [])
  && negb (bool_decide (codigo ∈ codigos (est_ucs_cursando e)))
  && negb (bool_decide (codigo ∈ codigos (est_ucs_aprobadas e))).


(** Ana as her construction leaves her. *)
Definition ana_inicial : estudiante :=
  Estudiante_ "Ana" "Perez" (PStr "42") (PInt 2024) 0 [] [] [] [].

(** The attributes of course 0 of [mundo_curso]. *)
Definition attrs_curso0 : curso_attrs :=
  CursoAttrs uc1s2 "UC1S2" "Calculo" (PInt 2024) (PInt 2) [] "curso_UC1S2_2024_sem2.csv".


(** A second course, of UC2S2 (course 1), for which Ana lacks UC2S1. *)
Definition mundo_dos_cursos : World :=
  despues (Coordinadora.crear_curso marta (PStr "UC2S2") (PInt 2024) (PInt 2) 0) mundo_curso.

Definition attrs_curso1 : curso_attrs :=
  CursoAttrs uc2s2 "UC2S2" "Mecanica" (PInt 2024) (PInt 2) [] "curso_UC2S2_2024_sem2.csv".

(** A course whose construction fails on the year (course 1). *)
Definition mundo_curso_invalido : World :=
  despues (Curso.__init__ (PStr "UC1S1") (PInt 1999) (PInt 1) 0) mundo_curso.


(** Ana's world after UC1S1, the prerequisite of UC1S2, was taken out of
    her plan. *)
Definition mundo_previa_ausente : World :=
  despues (PlanDeEstudio.quitar_materia 0 "UC1S1") mundo_ana.


(** The unit objects that loading builds for the entries [l] of a plan file,
    identities counted up from [oid]. *)
Fixpoint numerar (oid : nat) (l : list (string * materia_json)) : list unidad_curricular :=
  match l with
  | [] => []
  | (codigo, materia) :: r =>
      UnidadCurricular oid codigo (mj_nombre materia) (mj_creditos materia) (mj_previas materia)
        :: numerar (S oid) r
  end.

(** The entries of a plan file, term after term. *)
Definition entradas (datos : plan_json) : list (string * materia_json) :=
  flat_map snd datos.

(** The world [w] where plan [self] is [p] and the next identity is [oid]. *)
Definition con_plan (w : World) (self : nat) (p : plan_de_estudio) (oid : nat) : World :=
  mkWorld (<[self := p]> (w_planes w)) (w_estudiantes w) (w_cursos w) (w_examenes w)
          (w_json w) (w_archivos w) oid (w_stdout w).


(** Every character of the text is a decimal digit. *)
Fixpoint solo_digitos (s : string) : bool :=
  match s with
  | String c r => Py.isdigit c && solo_digitos r
  | EmptyString => true
  end.

(** The codes "UC1S<t>", ..., "UC<n>S<t>". *)
Definition codigos_numerados (n : nat) (t : Z) : list string :=
  (fun k : nat => "UC" +:+ Py.str_of_Z (Z.of_nat k) +:+ "S" +:+ Py.str_of_Z t) <$> seq 1 n.

(** The units of term [t] are numbered without gaps: every code of the
    list that ends in "S<t>" is one of "UC1S<t>", ..., "UC<n>S<t>", where [n]
    is how many codes end in "S<t>". *)
Definition numeradas_sin_huecos (materias : list unidad_curricular) (t : Z) : Prop :=
  Forall (fun c => Py.endswith c ("S" +:+ Py.str_of_Z t) = true ->
                   c ∈ codigos_numerados
                         (PlanDeEstudio.contar_sufijo materias ("S" +:+ Py.str_of_Z t)) t)
         (codigos_de materias).

#[global] Instance numeradas_sin_huecos_dec materias t : Decision (numeradas_sin_huecos materias t).
Proof. unfold numeradas_sin_huecos. apply _. Defined.



(** ** States with [None] in a list of a student *)

(** Marta records UC9S9, a code Ana's plan does not have, as approved: the
    call raises, and leaves [None] in Ana's approved list. *)
Definition mundo_aprobada_None : World :=
  despues (Coordinadora.agregar_uc_aprobada marta 0 "UC9S9") mundo_ana.

(** Ana as that call leaves her. *)
Definition ana_aprobada_None : estudiante :=
  Estudiante_ "Ana" "Perez" (PStr "42") (PInt 2024) 0 [None] [] [] [].

(** Marta records UC9S9 and then UC2S1 as regular, so that Ana's regular
    list is [None] followed by UC2S1; then an exam sitting of UC2S1 is
    scheduled (exam 0). *)
Definition mundo_regular_None : World :=
  despues (Coordinadora.crear_instancia_examen marta "UC2S1" "2024-07-01" "09:00" 0)
    (despues (Coordinadora.agregar_uc_regular marta 0 "UC2S1")
       (despues (Coordinadora.agregar_uc_regular marta 0 "UC9S9") mundo_ana)).

(** Ana is on the roster of the exam of UC2S1; then UC2S1 is taken out of
    her regular list, UC9S9 is recorded as regular (which leaves [None]) and
    UC2S1 is recorded again. *)
Definition mundo_segunda_vez : World :=
  despues (Coordinadora.agregar_uc_regular marta 0 "UC2S1")
    (despues (Coordinadora.agregar_uc_regular marta 0 "UC9S9")
       (despues (Coordinadora.quitar_uc_regular marta 0 "UC2S1") mundo_examen_ana)).

(** ** ASCII text *)

Definition ascii_c (c : ascii) : bool := (Py.ord c <? 128)%nat.

(** Every character of the text is below 128.  On such text the helpers
    of [Py] answer as the interpreter does. *)
Fixpoint es_ascii (s : string) : bool :=
  match s with
  | String c r => ascii_c c && es_ascii r
  | EmptyString => true
  end.

(** * Properties *)

Lemma impreso_nil w : impreso [] w = w.
Proof. destruct w; unfold impreso; simpl. by rewrite app_nil_r. Qed.

Lemma impreso_impreso o1 o2 w : impreso o2 (impreso o1 w) = impreso (o1 ++ o2) w.
Proof. unfold impreso; simpl. by rewrite app_assoc. Qed.

Lemma bind_ret {A B} (m : M A) (f : A -> M B) w a w' :
  m w = (Ret a, w') -> (m ≫= f) w = f a w'.
Proof. intros H. unfold mbind, M_bind. by rewrite H. Qed.

Lemma bind_raise {A B} (m : M A) (f : A -> M B) w e w' :
  m w = (Raise e, w') -> (m ≫= f) w = (Raise e, w').
Proof. intros H. unfold mbind, M_bind. by rewrite H. Qed.

Lemma sin_None_cons o l : sin_None (o :: l) <-> is_Some o /\ sin_None l.
Proof. apply Forall_cons. Qed.

Lemma comprehension_codigo_de l w :
  sin_None l -> comprehension l codigo_de w = (Ret (codigos l), w).
Proof.
  induction l as [|o l IH]; intros Hl; [done|].
  apply sin_None_cons in Hl as [[uc ->] Hl].
  cbn [comprehension]. erewrite bind_ret by reflexivity.
  erewrite bind_ret by (apply IH, Hl). done.
Qed.

Lemma buscar_codigo materias codigo uc :
  PlanDeEstudio.buscar materias codigo = Some uc -> uc_codigo uc = codigo.
Proof.
  induction materias as [|m r IH]; [done|]. cbn.
  destruct (String.eqb_spec (uc_codigo m) codigo) as [E|E]; [|done].
  by intros [= <-].
Qed.

Lemma buscar_elem materias codigo uc :
  PlanDeEstudio.buscar materias codigo = Some uc -> uc ∈ materias.
Proof.
  induction materias as [|m r IH]; [done|]. cbn.
  destruct (String.eqb (uc_codigo m) codigo).
  - intros [= <-]. left.
  - intros H. right. auto.
Qed.

Lemma buscar_None materias codigo :
  PlanDeEstudio.buscar materias codigo = None <->
  forall uc, uc ∈ materias -> uc_codigo uc <> codigo.
Proof.
  induction materias as [|m r IH]; cbn.
  - split; [|done]. intros _ uc Huc. by apply elem_of_nil in Huc.
  - destruct (String.eqb_spec (uc_codigo m) codigo) as [E|E].
    + split; [done|]. intros H. exfalso. apply (H m); [left | done].
    + rewrite IH. split.
      * intros H uc Huc. apply elem_of_cons in Huc as [-> | Huc]; auto.
      * intros H uc Huc. apply H. by right.
Qed.

Lemma plan_de_Some r attr w p :
  w_planes w !! r = Some p -> plan_de r attr w = (Ret p, w).
Proof. intros H. unfold plan_de. by rewrite H. Qed.

Lemma estudiante_de_Some r attr w e :
  w_estudiantes w !! r = Some e -> estudiante_de r attr w = (Ret e, w).
Proof. intros H. unfold estudiante_de. by rewrite H. Qed.

Lemma curso_de_Some r attr w c :
  w_cursos w !! r = Some c -> curso_de r attr w = (Ret c, w).
Proof. intros H. unfold curso_de. by rewrite H. Qed.

Lemma examen_de_Some r attr w x :
  w_examenes w !! r = Some x -> examen_de r attr w = (Ret x, w).
Proof. intros H. unfold examen_de. by rewrite H. Qed.

Lemma buscar_uc_por_codigo_Some plan p codigo w :
  w_planes w !! plan = Some p ->
  PlanDeEstudio.buscar_uc_por_codigo plan codigo w
  = (Ret (PlanDeEstudio.buscar (plan_materias p) codigo), w).
Proof.
  intros H. unfold PlanDeEstudio.buscar_uc_por_codigo.
  by erewrite bind_ret by (by apply plan_de_Some).
Qed.

Lemma for_acc_faltantes (plan : nat) (p : plan_de_estudio) aprobadas previas acc w :
  w_planes w !! plan = Some p ->
  resuelven (plan_materias p) previas ->
  for_acc previas acc (fun faltantes previa_codigo =>
    previa ← PlanDeEstudio.buscar_uc_por_codigo plan previa_codigo;
    c ← codigo_de previa;
    if negb (bool_decide (c ∈ aprobadas))
    then mret (faltantes ++ [previa]) else mret faltantes) w
  = (Ret (acc ++ faltantes (plan_materias p) aprobadas previas), w).
Proof.
  intros Hp. revert acc. induction previas as [|c r IH]; intros acc Hres.
  - cbn. unfold faltantes. cbn. by rewrite app_nil_r.
  - apply Forall_cons in Hres as [[uc Huc] Hres].
    cbn [for_acc].
    assert (Hstep : forall acc',
      (PlanDeEstudio.buscar_uc_por_codigo plan c ≫= fun previa : uc_o_None =>
         codigo_de previa ≫= fun c0 : string =>
           if negb (bool_decide (c0 ∈ aprobadas))
           then mret (acc' ++ [previa]) else mret acc') w
      = (Ret (acc' ++ faltantes (plan_materias p) aprobadas [c]), w)).
    { intros acc'.
      erewrite bind_ret by (by apply buscar_uc_por_codigo_Some).
      rewrite Huc. cbn [codigo_de].
      erewrite bind_ret by reflexivity.
      rewrite (buscar_codigo _ _ _ Huc).
      unfold faltantes. rewrite filter_cons, filter_nil.
      destruct (decide (c ∉ aprobadas)) as [Hn|Hn].
      - rewrite bool_decide_eq_false_2 by done. cbn. by rewrite Huc.
      - rewrite bool_decide_eq_true_2 by (by apply dec_stable). cbn.
        by rewrite app_nil_r. }
    erewrite bind_ret by apply Hstep.
    rewrite IH by done.
    rewrite <- app_assoc. do 3 f_equal.
    unfold faltantes. rewrite <- fmap_app. f_equal.
    by rewrite <- filter_app.
Qed.

Lemma faltantes_sin_None materias aprobadas previas :
  resuelven materias previas ->
  sin_None (faltantes materias aprobadas previas).
Proof.
  intros H. apply Forall_forall. intros o Ho. unfold faltantes in Ho.
  apply list_elem_of_fmap in Ho as (c & -> & Hc).
  apply list_elem_of_filter in Hc as [_ Hc].
  by apply (proj1 (Forall_forall _ _) H).
Qed.

Lemma faltantes_nil materias aprobadas previas :
  faltantes materias aprobadas previas = [] <-> forall c, c ∈ previas -> c ∈ aprobadas.
Proof.
  unfold faltantes. induction previas as [|c r IH].
  - split; [|done]. intros _ c Hc. by apply elem_of_nil in Hc.
  - rewrite filter_cons. destruct (decide (c ∉ aprobadas)) as [Hn|Hn].
    + split; [done|]. intros H. exfalso. apply Hn, H. left.
    + rewrite IH. apply dec_stable in Hn. split.
      * intros H c' Hc'. apply elem_of_cons in Hc' as [-> | Hc']; auto.
      * intros H c' Hc'. apply H. by right.
Qed.

Lemma for_each_nombres (l : list uc_o_None) w :
  sin_None l ->
  exists out,
    for_each l (fun previa => n ← nombre_de previa; print ("- " +:+ n)) w
    = (Ret tt, impreso out w).
Proof.
  revert w. induction l as [|o l IH]; intros w Hl.
  - exists []. cbn. by rewrite impreso_nil.
  - apply sin_None_cons in Hl as [[uc ->] Hl].
    destruct (IH (impreso ["- " +:+ uc_nombre uc] w) Hl) as [out Hout].
    exists (("- " +:+ uc_nombre uc) :: out).
    cbn [for_each]. erewrite bind_ret; cycle 1.
    { cbn [nombre_de]. erewrite bind_ret by reflexivity. reflexivity. }
    rewrite Hout. by rewrite impreso_impreso.
Qed.

(** C1, as stated, fails for a student with [None] in the approved list,
    which is what recording an unknown code as approved leaves behind.  Ana's
    approved list is [None]; UC1S1 resolves in her plan and has no
    prerequisite, and it is a code of none of her units: the three conditions
    hold.  The check does not answer [True]: reading [.codigo] of the [None]
    raises [AttributeError]. *)
Lemma puede_inscribirse_con_None_en_aprobadas :
  w_estudiantes mundo_aprobada_None !! 0%nat = Some ana_aprobada_None /\
  w_planes mundo_aprobada_None !! est_plan ana_aprobada_None = Some plan0 /\
  PlanDeEstudio.buscar (plan_materias plan0) "UC1S1" = Some uc1s1 /\
  resuelven (plan_materias plan0) (uc_previas uc1s1) /\
  ((forall c, c ∈ uc_previas uc1s1 -> c ∈ codigos (est_ucs_aprobadas ana_aprobada_None)) /\
   ("UC1S1" ∉ codigos (est_ucs_cursando ana_aprobada_None)) /\
   ("UC1S1" ∉ codigos (est_ucs_aprobadas ana_aprobada_None))) /\
  Estudiante._puede_inscribirse 0 "UC1S1" mundo_aprobada_None
  = (Raise (Exc AttributeError "'NoneType' object has no attribute 'codigo'"),
     mundo_aprobada_None) /\
  ~ (exists (b : bool) w',
       Estudiante._puede_inscribirse 0 "UC1S1" mundo_aprobada_None = (Ret b, w')).
Proof.
  split; [by vm_compute|]. split; [by vm_compute|]. split; [by vm_compute|].
  split; [apply (bool_decide_unpack _); by vm_compute|].
  split.
  { split; [|split].
    - intros c Hc. by apply elem_of_nil in Hc.
    - apply not_elem_of_nil.
    - apply not_elem_of_nil. }
  assert (E : Estudiante._puede_inscribirse 0 "UC1S1" mundo_aprobada_None
              = (Raise (Exc AttributeError "'NoneType' object has no attribute 'codigo'"),
                 mundo_aprobada_None)) by (by vm_compute).
  split; [exact E|]. intros (b & w' & H). rewrite E in H. discriminate H.
Qed.

(** C1, amended: let the code [U] resolve, in the plan of student [s], to a unit
    whose prerequisite codes all resolve in that plan, and let the approved
    and the in-progress lists of [s] hold units.  Then [_puede_inscribirse]
    returns a boolean, which is [True] exactly when every prerequisite code
    of the unit is among the codes of the approved units, [U] is not among
    the codes of the units in progress, and [U] is not among the codes of
    the approved units; the world it leaves is the one it started from, up
    to the lines it printed. *)
Theorem puede_inscribirse_iff (w : World) (s : nat) (e : estudiante) (p : plan_de_estudio)
    (U : string) (uc : unidad_curricular) :
  w_estudiantes w !! s = Some e ->
  w_planes w !! est_plan e = Some p ->
  PlanDeEstudio.buscar (plan_materias p) U = Some uc ->
  resuelven (plan_materias p) (uc_previas uc) ->
  sin_None (est_ucs_aprobadas e) ->
  sin_None (est_ucs_cursando e) ->
  exists (b : bool) (out : list string),
    Estudiante._puede_inscribirse s U w = (Ret b, impreso out w) /\
    (b = true <->
       (forall c, c ∈ uc_previas uc -> c ∈ codigos (est_ucs_aprobadas e)) /\
       (U ∉ codigos (est_ucs_cursando e)) /\
       (U ∉ codigos (est_ucs_aprobadas e))).
Proof.
  intros He Hp Huc Hprev Hap Hcu.
  unfold Estudiante._puede_inscribirse.
  erewrite bind_ret by (by apply estudiante_de_Some).
  erewrite bind_ret by (by apply buscar_uc_por_codigo_Some).
  erewrite bind_ret by (by apply comprehension_codigo_de).
  erewrite bind_ret by (by apply comprehension_codigo_de).
  rewrite Huc. cbn [Estudiante.previas_de].
  erewrite bind_ret by reflexivity.
  erewrite bind_ret by (by apply for_acc_faltantes).
  cbn [app].
  pose proof (faltantes_nil (plan_materias p) (codigos (est_ucs_aprobadas e)) (uc_previas uc)) as Hnil.
  pose proof (faltantes_sin_None (plan_materias p) (codigos (est_ucs_aprobadas e)) (uc_previas uc) Hprev) as Hsn.
  destruct (faltantes (plan_materias p) (codigos (est_ucs_aprobadas e)) (uc_previas uc))
    as [|f fs] eqn:Ef.
  - cbn [codigo_de]. erewrite bind_ret by reflexivity.
    destruct (decide (uc_codigo uc ∈ codigos (est_ucs_cursando e))) as [Hc|Hc].
    + rewrite bool_decide_eq_true_2 by done.
      exists false, ["Ya está cursando esta UC."]. split; [reflexivity|].
      rewrite (buscar_codigo _ _ _ Huc) in Hc.
      split; [done|]. by intros (_ & ? & _).
    + rewrite bool_decide_eq_false_2 by done.
      destruct (decide (uc_codigo uc ∈ codigos (est_ucs_aprobadas e))) as [Ha|Ha].
      * rewrite bool_decide_eq_true_2 by done.
        exists false, ["Ya aprobó esta UC."]. split; [reflexivity|].
        rewrite (buscar_codigo _ _ _ Huc) in Ha.
        split; [done|]. by intros (_ & _ & ?).
      * rewrite bool_decide_eq_false_2 by done.
        exists true, []. split; [by rewrite impreso_nil|].
        rewrite (buscar_codigo _ _ _ Huc) in Ha, Hc.
        split; [|done]. intros _. split; [|done]. by apply Hnil.
  - cbn [nombre_de]. erewrite bind_ret by reflexivity.
    destruct (for_each_nombres (f :: fs)
                (impreso ["No puedes inscribirte en la UC " +:+ uc_nombre uc
                          +:+ " porque te faltan las siguientes previas:"] w) Hsn)
      as [out Hout].
    exists false, (("No puedes inscribirte en la UC " +:+ uc_nombre uc
                    +:+ " porque te faltan las siguientes previas:") :: out).
    split.
    + erewrite bind_ret by reflexivity.
      erewrite bind_ret by apply Hout.
      cbn. by rewrite impreso_impreso.
    + split; [done|]. intros (H & _). apply Hnil in H. done.
Qed.

Lemma puede_inscribirse_iff_witness :
  exists (b : bool) (out : list string),
    Estudiante._puede_inscribirse 0 "UC1S2" mundo_ana_aprobo
      = (Ret b, impreso out mundo_ana_aprobo) /\
    (b = true <->
       (forall c, c ∈ uc_previas uc1s2 -> c ∈ codigos (est_ucs_aprobadas ana_aprobo)) /\
       ("UC1S2" ∉ codigos (est_ucs_cursando ana_aprobo)) /\
       ("UC1S2" ∉ codigos (est_ucs_aprobadas ana_aprobo))).
Proof.
  apply (puede_inscribirse_iff mundo_ana_aprobo 0 ana_aprobo plan0 "UC1S2" uc1s2).
  - vm_compute. reflexivity.
  - vm_compute. reflexivity.
  - vm_compute. reflexivity.
  - apply (bool_decide_unpack _). vm_compute. exact I.
  - apply (bool_decide_unpack _). vm_compute. exact I.
  - apply (bool_decide_unpack _). vm_compute. exact I.
Defined.

(** C10: when the construction of a student succeeds, the [cedula]
    property of the new object returns the very value that was passed, of
    whatever type, and [int()] of that value had succeeded; when [int()] of
    the value fails, the construction raises [ValueError] and the world is
    unchanged. *)
Theorem cedula_tal_como_se_paso (nombre apellido cedula año_ingreso : PyVal) (plan : nat)
    (w : World) :
  (forall self w',
     Estudiante.__init__ nombre apellido cedula año_ingreso plan w = (Ret self, w') ->
     Estudiante.cedula self w' = (Ret cedula, w') /\ exists z, py_int cedula = Ret z) /\
  (forall e,
     py_int cedula = Raise e ->
     exists e', Estudiante.__init__ nombre apellido cedula año_ingreso plan w = (Raise e', w)
                /\ exc_clase e' = ValueError).
Proof.
  unfold Estudiante.__init__, lift. split.
  - intros self w' H.
    destruct (Persona.__init__ nombre apellido) as [p|e] eqn:Ep; [|done].
    destruct (py_int cedula) as [z|e] eqn:Ez; [|done].
    cbv [mbind M_bind mret M_ret get modify] in H. injection H as <- <-.
    split; [|by eauto].
    unfold Estudiante.cedula, estudiante_de, mbind, M_bind. cbn.
    by rewrite lookup_insert_eq.
  - intros e He. rewrite He.
    unfold mbind, M_bind.
    destruct (Persona.__init__ nombre apellido) as [p|e0] eqn:Ep.
    + eexists. split; [reflexivity|done].
    + exists e0. split; [reflexivity|].
      unfold Persona.__init__ in Ep.
      repeat case_match; by simplify_eq.
Qed.

Lemma cedula_tal_como_se_paso_witness :
  (Estudiante.cedula 0 mundo_ana = (Ret (PStr "42"), mundo_ana)
   /\ exists z, py_int (PStr "42") = Ret z) /\
  (exists e', Estudiante.__init__ (PStr "ana") (PStr "perez") (PStr "4x") (PInt 2024) 0 mundo_plan
              = (Raise e', mundo_plan)
              /\ exc_clase e' = ValueError).
Proof.
  split.
  - apply (proj1 (cedula_tal_como_se_paso (PStr " ana ") (PStr "perez") (PStr "42")
                    (PInt 2024) 0 mundo_plan) 0 mundo_ana).
    vm_compute. reflexivity.
  - apply (proj2 (cedula_tal_como_se_paso (PStr "ana") (PStr "perez") (PStr "4x")
                    (PInt 2024) 0 mundo_plan)
                 (Exc ValueError "invalid literal for int() with base 10: 4x")).
    vm_compute. reflexivity.
Defined.

(** ** Lookups that miss *)

Lemma previas_faltan_None w s e p codigo :
  w_estudiantes w !! s = Some e ->
  w_planes w !! est_plan e = Some p ->
  sin_None (est_ucs_aprobadas e) ->
  sin_None (est_ucs_cursando e) ->
  PlanDeEstudio.buscar (plan_materias p) codigo = None ->
  Estudiante._puede_inscribirse s codigo w
  = (Raise (Exc AttributeError "'NoneType' object has no attribute 'previas'"), w).
Proof.
  intros He Hp Hap Hcu Hb. unfold Estudiante._puede_inscribirse.
  erewrite bind_ret by (by apply estudiante_de_Some).
  erewrite bind_ret by (by apply buscar_uc_por_codigo_Some).
  erewrite bind_ret by (by apply comprehension_codigo_de).
  erewrite bind_ret by (by apply comprehension_codigo_de).
  rewrite Hb. reflexivity.
Qed.

(** C2, on the code: Ana asks for UC9S9, a code her plan does not have.
    The check does not print and return [False]: [uc] is [None] and
    reading [uc.previas] raises [AttributeError]. *)
Theorem puede_inscribirse_codigo_desconocido :
  PlanDeEstudio.buscar_uc_por_codigo 0 "UC9S9" mundo_ana_aprobo = (Ret None, mundo_ana_aprobo) /\
  Estudiante._puede_inscribirse 0 "UC9S9" mundo_ana_aprobo
  = (Raise (Exc AttributeError "'NoneType' object has no attribute 'previas'"),
     mundo_ana_aprobo).
Proof.
  split; [by vm_compute|].
  apply (previas_faltan_None mundo_ana_aprobo 0 ana_aprobo plan0 "UC9S9").
  - by vm_compute.
  - by vm_compute.
  - apply (bool_decide_unpack _). by vm_compute.
  - apply (bool_decide_unpack _). by vm_compute.
  - by vm_compute.
Qed.

Lemma quitar_materia_no_encontrada w r p codigo :
  w_planes w !! r = Some p ->
  PlanDeEstudio.buscar (plan_materias p) codigo = None ->
  PlanDeEstudio.quitar_materia r codigo w
  = (Ret tt, impreso ["Materia con el código " +:+ codigo +:+ " no encontrada."] w).
Proof.
  intros Hp Hb. unfold PlanDeEstudio.quitar_materia.
  erewrite bind_ret by (by apply buscar_uc_por_codigo_Some).
  by rewrite Hb.
Qed.

(** C4, on the code: Marta records UC9S9, a code Ana's plan does not have,
    as approved.  The miss is not reported: [None] is appended to Ana's
    approved units and then [uc.nombre] raises [AttributeError].  Removing
    it from the regular units raises as well, that time without a change. *)
Theorem agregar_uc_aprobada_codigo_desconocido :
  PlanDeEstudio.buscar_uc_por_codigo 0 "UC9S9" mundo_ana = (Ret None, mundo_ana) /\
  resultado (Coordinadora.agregar_uc_aprobada marta 0 "UC9S9") mundo_ana
  = Raise (Exc AttributeError "'NoneType' object has no attribute 'nombre'") /\
  est_ucs_aprobadas <$> w_estudiantes mundo_ana !! 0 = Some [] /\
  est_ucs_aprobadas
    <$> w_estudiantes (despues (Coordinadora.agregar_uc_aprobada marta 0 "UC9S9") mundo_ana) !! 0
  = Some [None] /\
  Coordinadora.quitar_uc_regular marta 0 "UC9S9" mundo_ana
  = (Raise (Exc AttributeError "'NoneType' object has no attribute 'nombre'"), mundo_ana).
Proof. repeat split; by vm_compute. Qed.

(** C3, on the code: a course of UC1S1 for the year 2000 is built as a
    valid course, although 2000 is not greater than 2000. *)
Theorem curso_del_anio_2000_es_valido :
  resultado (curso ← Curso.__init__ (PStr "UC1S1") (PInt 2000) (PInt 1) 0;
             Curso.curso_valido curso) mundo_plan
  = Ret true.
Proof. by vm_compute. Qed.

(** C8, on the code: with UC1S1 removed, the plan has one unit left whose
    code ends in S1, namely UC2S1; the unit added by hand to term 1 gets the
    code UC2S1 again. *)
Theorem agregar_materia_manual_repite_codigo :
  codigos_del_plan mundo_sin_uc1s1 0 = ["UC2S1"; "UC1S2"; "UC2S2"] /\
  resultado (PlanDeEstudio.agregar_materia_manual 0 "quimica" (PInt 6) (PInt 1) None)
            mundo_sin_uc1s1 = Ret tt /\
  codigos_del_plan mundo_manual 0 = ["UC2S1"; "UC1S2"; "UC2S2"; "UC2S1"] /\
  ~ NoDup (codigos_del_plan mundo_manual 0).
Proof.
  split; [by vm_compute|]. split; [by vm_compute|].
  assert (E : codigos_del_plan mundo_manual 0 = ["UC2S1"; "UC1S2"; "UC2S2"; "UC2S1"])
    by (by vm_compute).
  split; [exact E|]. rewrite E. intros H.
  apply NoDup_cons in H as [H _]. apply H. set_solver.
Qed.

(** ** The two staff roles *)

(** C9, as stated: the two classes do not define the same methods;
    [crear_curso] is one that only Coordinadora has. *)
Lemma roles_con_distintos_metodos :
  ~ (forall m : string, m ∈ Coordinadora.metodos <-> m ∈ Secretaria.metodos).
Proof.
  intros H. assert (Hc : "crear_curso" ∈ Secretaria.metodos).
  { apply H. apply (bool_decide_unpack _). by vm_compute. }
  revert Hc. apply (bool_decide_unpack _). by vm_compute.
Qed.

(** C9, amended: every method of Secretaria is a method of Coordinadora;
    Coordinadora has three more ([crear_plan], [crear_curso],
    [crear_instancia_examen]); the shared methods are exactly those a
    [Llamada] can name, and on each of them the two roles, whoever the staff
    members are, return the same and leave the same world from the same
    arguments and world. *)
Theorem secretaria_hace_lo_mismo_que_coordinadora :
  (forall m : string, m ∈ Secretaria.metodos -> m ∈ Coordinadora.metodos) /\
  (forall m : string,
     m ∈ Coordinadora.metodos ->
     m ∈ Secretaria.metodos \/ m ∈ ["crear_plan"; "crear_curso"; "crear_instancia_examen"]) /\
  (forall m : string, m ∈ Secretaria.metodos <-> exists l, metodo_de l = m) /\
  (forall (coordinadora secretaria : persona) (l : Llamada) (w : World),
     Coordinadora.llamar coordinadora l w = Secretaria.llamar secretaria l w).
Proof.
  split; [|split; [|split]].
  - apply (proj1 (Forall_forall _ _)). apply (bool_decide_unpack _). by vm_compute.
  - apply (proj1 (Forall_forall _ _)). apply (bool_decide_unpack _). by vm_compute.
  - intros m. split.
    + intros Hm. unfold Secretaria.metodos in Hm.
      repeat (apply elem_of_cons in Hm as [-> | Hm]);
        [ by exists (L_inscribir_a_examen 0 0) | by exists (L_inscribir_a_curso 0 0)
        | by exists (L_ver_plan 0) | by exists (L_ver_estudiantes_curso 0)
        | by exists (L_ver_estudiantes_examen 0) | by exists (L_quitar_uc_regular 0 "")
        | by exists (L_quitar_uc_aprobada 0 "") | by exists (L_agregar_uc_aprobada 0 "")
        | by exists (L_agregar_uc_regular 0 "") | by apply elem_of_nil in Hm ].
    + intros [l <-]. destruct l; apply (bool_decide_unpack _); by vm_compute.
  - intros c s l w. destruct l; reflexivity.
Qed.

(** ** Rosters *)

Lemma comprehension_estudiantes (f : estudiante -> string) attr w roster :
  todos_estudiantes w roster ->
  comprehension roster (fun r => e ← estudiante_de r attr; mret (f e)) w
  = (Ret (de_cada_uno f w roster), w).
Proof.
  induction roster as [|r l IH]; intros H; [done|].
  apply Forall_cons in H as [[e He] Hl].
  cbn [comprehension].
  erewrite bind_ret; cycle 1.
  { erewrite bind_ret by (by apply estudiante_de_Some). reflexivity. }
  erewrite bind_ret by (by apply IH).
  unfold de_cada_uno. cbn [omap list_omap]. rewrite He. reflexivity.
Qed.

Lemma try_except_ret {A} (m : M A) cs h w a w' :
  m w = (Ret a, w') -> try_except m cs h w = (Ret a, w').
Proof. intros H. unfold try_except. by rewrite H. Qed.

Lemma try_except_caught {A} (m : M A) cs h w e w' :
  m w = (Raise e, w') -> exc_clase e ∈ cs -> try_except m cs h w = h e w'.
Proof.
  intros H Hin. unfold try_except. rewrite H.
  by rewrite bool_decide_eq_true_2.
Qed.

Lemma curso_valido_Some w c cu :
  w_cursos w !! c = Some cu ->
  Curso.curso_valido c w
  = (Ret (match cu with CursoValido _ => true | CursoInvalido => false end), w).
Proof.
  intros H. unfold Curso.curso_valido.
  by erewrite bind_ret by (by apply curso_de_Some).
Qed.

Lemma curso_attrs_Some w c a attr :
  w_cursos w !! c = Some (CursoValido a) -> Curso.attrs c attr w = (Ret a, w).
Proof.
  intros H. unfold Curso.attrs.
  by erewrite bind_ret by (by apply curso_de_Some).
Qed.

Lemma curso_actualizar_csv_ok w c a :
  w_cursos w !! c = Some (CursoValido a) ->
  todos_estudiantes w (cur_estudiantes a) ->
  Curso.actualizar_csv c w
  = (Ret tt, set_archivos <[cur_archivo_csv a := [Curso.encabezado; fila_curso w a]]> w).
Proof.
  intros Hc Hr. unfold Curso.actualizar_csv.
  apply try_except_ret.
  erewrite bind_ret by (by apply curso_attrs_Some).
  erewrite bind_ret by reflexivity.
  erewrite bind_ret by (by apply (comprehension_estudiantes nombre_y_apellido)).
  cbv [modify set_archivos]. cbn. rewrite insert_insert_eq. reflexivity.
Qed.

Lemma conserva_bind {A B} (m : M A) (f : A -> M B) :
  conserva m -> (forall a, conserva (f a)) -> conserva (m ≫= f).
Proof.
  intros Hm Hf w. unfold mbind, M_bind. specialize (Hm w).
  destruct (m w) as [[a|e] w1]; cbn in *; [|done].
  by rewrite Hf.
Qed.

Lemma conserva_try_except {A} (m : M A) cs h :
  conserva m -> (forall e, conserva (h e)) -> conserva (try_except m cs h).
Proof.
  intros Hm Hh w. unfold try_except. specialize (Hm w).
  destruct (m w) as [[a|e] w1]; cbn in *; [done|].
  case_bool_decide; [|done]. by rewrite Hh.
Qed.

Lemma conserva_comprehension {A B} (l : list A) (f : A -> M B) :
  (forall x, conserva (f x)) -> conserva (comprehension l f).
Proof.
  intros Hf. induction l as [|x l IH]; [done|].
  cbn [comprehension]. apply conserva_bind; [done|]. intros y.
  apply conserva_bind; [done|]. done.
Qed.

Lemma conserva_estudiante_de r attr : conserva (estudiante_de r attr).
Proof. intros w. unfold estudiante_de. by destruct (w_estudiantes w !! r). Qed.

Lemma conserva_curso_attrs c attr : conserva (Curso.attrs c attr).
Proof.
  intros w. unfold Curso.attrs, curso_de, mbind, M_bind.
  by destruct (w_cursos w !! c) as [[]|].
Qed.

Lemma conserva_actualizar_csv c : conserva (Curso.actualizar_csv c).
Proof.
  unfold Curso.actualizar_csv.
  apply conserva_try_except; [|done].
  apply conserva_bind; [apply conserva_curso_attrs|]. intros a.
  apply conserva_bind; [done|]. intros _.
  apply conserva_bind; [|done].
  apply conserva_comprehension. intros r.
  apply conserva_bind; [apply conserva_estudiante_de|done].
Qed.

Lemma en_Exception e : exc_clase e ∈ Exception.
Proof. destruct e as [[] ?]; apply (bool_decide_unpack _); by vm_compute. Qed.

(** [actualizar_csv] of a course never raises. *)
Lemma curso_actualizar_csv_total c w :
  exists w', Curso.actualizar_csv c w = (Ret tt, w') /\ objetos w' = objetos w.
Proof.
  pose proof (conserva_actualizar_csv c w) as Hc.
  unfold Curso.actualizar_csv, try_except in *.
  match goal with |- context [match ?m w with _ => _ end] =>
    destruct (m w) as [[[]|e] w1] eqn:E end.
  - eauto.
  - rewrite bool_decide_eq_true_2 in * by apply en_Exception.
    eexists. split; [reflexivity|]. exact Hc.
Qed.

Lemma es_estudiante_eq s w :
  es_estudiante s w = (Ret (bool_decide (is_Some (w_estudiantes w !! s))), w).
Proof. reflexivity. Qed.

Lemma curso_agregar_invalido w c s :
  w_cursos w !! c = Some CursoInvalido ->
  Curso.agregar_estudiante c s w
  = (Ret tt, impreso ["✖ Este curso no es válido. No se puede agregar estudiantes."] w).
Proof.
  intros Hc. unfold Curso.agregar_estudiante.
  by erewrite bind_ret by (by apply curso_valido_Some).
Qed.


Lemma curso_agregar_ya_inscrito w c a s :
  w_cursos w !! c = Some (CursoValido a) ->
  is_Some (w_estudiantes w !! s) ->
  s ∈ cur_estudiantes a ->
  Curso.agregar_estudiante c s w
  = (Ret tt, impreso ["⚠ El estudiante ya está inscrito en este curso."] w).
Proof.
  intros Hc Hs Hin. unfold Curso.agregar_estudiante.
  erewrite bind_ret by (by apply curso_valido_Some). cbn [negb].
  apply try_except_ret.
  erewrite bind_ret by apply es_estudiante_eq.
  rewrite bool_decide_eq_true_2 by done. cbn [negb].
  erewrite bind_ret by (by apply curso_attrs_Some).
  by rewrite bool_decide_eq_true_2 by done.
Qed.

Lemma curso_agregar_nuevo w c a s e :
  w_cursos w !! c = Some (CursoValido a) ->
  w_estudiantes w !! s = Some e ->
  s ∉ cur_estudiantes a ->
  exists w1,
    Curso.agregar_estudiante c s w = (Ret tt, w1) /\
    w_cursos w1 = <[c := curso_con a s]> (w_cursos w) /\
    w_estudiantes w1 = w_estudiantes w /\
    w_examenes w1 = w_examenes w /\
    w_planes w1 = w_planes w.
Proof.
  intros Hc Hs Hin. unfold Curso.agregar_estudiante.
  erewrite bind_ret by (by apply curso_valido_Some). cbn [negb].
  destruct (curso_actualizar_csv_total c (set_cursos <[c := curso_con a s]> w))
    as (w' & Hw' & Hobj).
  injection Hobj as Hpl Hes Hcu Hex.
  eexists. split.
  - apply try_except_ret.
    erewrite bind_ret by apply es_estudiante_eq.
    rewrite bool_decide_eq_true_2 by (by eexists). cbn [negb].
    erewrite bind_ret by (by apply curso_attrs_Some).
    rewrite bool_decide_eq_false_2 by done. cbn [negb].
    erewrite bind_ret by reflexivity.
    erewrite bind_ret by apply Hw'.
    erewrite bind_ret.
    2:{ apply estudiante_de_Some. rewrite Hes. exact Hs. }
    reflexivity.
  - cbn. by rewrite Hpl, Hes, Hcu, Hex.
Qed.

Lemma for_return_regulares w x ex (l : list uc_o_None) :
  w_examenes w !! x = Some ex ->
  for_return l (fun uc : uc_o_None =>
      c ← codigo_de uc;
      x' ← examen_de x "codigo_uc";
      if String.eqb c (ex_codigo_uc x') then mret (Some uc) else mret None) w
  = (match primera_o_error (ex_codigo_uc ex) l with
     | Ret o => Ret ((fun u => Some u) <$> o)
     | Raise err => Raise err
     end, w).
Proof.
  intros Hx. induction l as [|[u|] l IH]; [done| |done].
  cbn [for_return primera_o_error codigo_de].
  destruct (String.eqb (uc_codigo u) (ex_codigo_uc ex)) eqn:E.
  - erewrite bind_ret; cycle 1.
    { erewrite bind_ret by reflexivity.
      erewrite bind_ret by (by apply examen_de_Some).
      by rewrite E. }
    reflexivity.
  - erewrite bind_ret; cycle 1.
    { erewrite bind_ret by reflexivity.
      erewrite bind_ret by (by apply examen_de_Some).
      by rewrite E. }
    by apply IH.
Qed.

Lemma for_return_regulares_Ret w x ex (l : list uc_o_None) o :
  w_examenes w !! x = Some ex ->
  primera_o_error (ex_codigo_uc ex) l = Ret o ->
  for_return l (fun uc : uc_o_None =>
      c ← codigo_de uc;
      x' ← examen_de x "codigo_uc";
      if String.eqb c (ex_codigo_uc x') then mret (Some uc) else mret None) w
  = (Ret ((fun u => Some u) <$> o), w).
Proof. intros Hx Ho. erewrite for_return_regulares by done. by rewrite Ho. Qed.

Lemma primera_o_error_sin_None codigo l :
  sin_None l -> primera_o_error codigo l = Ret (primera_con_codigo codigo l).
Proof.
  induction l as [|o l IH]; intros Hl; [done|].
  apply sin_None_cons in Hl as [[u ->] Hl]. cbn.
  destruct (String.eqb (uc_codigo u) codigo); [done|]. by apply IH.
Qed.

Lemma primera_con_codigo_Some codigo l :
  is_Some (primera_con_codigo codigo l) <-> codigo ∈ codigos l.
Proof.
  induction l as [|[u|] l IH]; cbn.
  - split; [by intros [? ?]|]. intros H. by apply elem_of_nil in H.
  - unfold codigos. cbn. fold (codigos l).
    destruct (String.eqb_spec (uc_codigo u) codigo) as [E|E].
    + split; [|by eauto]. intros _. rewrite E. left.
    + rewrite IH. split; [by right|].
      intros H. apply elem_of_cons in H as [H|H]; [by subst|done].
  - done.
Qed.

Lemma primera_con_codigo_codigo codigo l u :
  primera_con_codigo codigo l = Some u -> uc_codigo u = codigo.
Proof.
  induction l as [|[v|] l IH]; cbn; [done| |done].
  destruct (String.eqb_spec (uc_codigo v) codigo) as [E|E]; [|done].
  by intros [= <-].
Qed.

Lemma examen_escribir_csv_ok w x ex :
  w_examenes w !! x = Some ex ->
  todos_estudiantes w (ex_estudiantes ex) ->
  InstanciaDeExamen.escribir_csv x w
  = (Ret (InstanciaDeExamen.archivo_de ex),
     set_archivos <[InstanciaDeExamen.archivo_de ex :=
                      [InstanciaDeExamen.encabezado; fila_examen w ex]]> w).
Proof.
  intros Hx Hr. unfold InstanciaDeExamen.escribir_csv.
  erewrite bind_ret by (by apply examen_de_Some).
  erewrite bind_ret by reflexivity.
  erewrite bind_ret by (by apply (comprehension_estudiantes str_estudiante)).
  cbv [modify set_archivos mbind M_bind mret M_ret]. cbn.
  rewrite insert_insert_eq. reflexivity.
Qed.


Lemma examen_agregar_no_regular w x ex s e :
  w_examenes w !! x = Some ex ->
  w_estudiantes w !! s = Some e ->
  primera_o_error (ex_codigo_uc ex) (est_ucs_regulares e) = Ret None ->
  InstanciaDeExamen.agregar_estudiante x s w
  = (Ret tt, impreso ["El estudiante " +:+ est_nombre e +:+ " " +:+ est_apellido e
                      +:+ " no está regular en la UC " +:+ ex_codigo_uc ex
                      +:+ ". No puede inscribirse al examen."] w).
Proof.
  intros Hx Hs Hp. unfold InstanciaDeExamen.agregar_estudiante.
  erewrite bind_ret by apply es_estudiante_eq.
  rewrite bool_decide_eq_true_2 by (by eexists).
  erewrite bind_ret by (by apply estudiante_de_Some).
  erewrite bind_ret by (by eapply for_return_regulares_Ret).
  cbn [fmap option_fmap option_map].
  by erewrite bind_ret by (by apply examen_de_Some).
Qed.

Lemma examen_agregar_ya_inscrito w x ex s e u :
  w_examenes w !! x = Some ex ->
  w_estudiantes w !! s = Some e ->
  primera_o_error (ex_codigo_uc ex) (est_ucs_regulares e) = Ret (Some u) ->
  s ∈ ex_estudiantes ex ->
  InstanciaDeExamen.agregar_estudiante x s w
  = (Ret tt, impreso ["El estudiante " +:+ est_nombre e +:+ " " +:+ est_apellido e
                      +:+ " ya está inscrito en el examen."] w).
Proof.
  intros Hx Hs Hp Hin. unfold InstanciaDeExamen.agregar_estudiante.
  erewrite bind_ret by apply es_estudiante_eq.
  rewrite bool_decide_eq_true_2 by (by eexists).
  erewrite bind_ret by (by apply estudiante_de_Some).
  erewrite bind_ret by (by eapply for_return_regulares_Ret).
  cbn [fmap option_fmap option_map].
  erewrite bind_ret by (by apply examen_de_Some).
  by rewrite bool_decide_eq_true_2 by done.
Qed.

Lemma examen_agregar_nuevo w x ex s e u :
  w_examenes w !! x = Some ex ->
  w_estudiantes w !! s = Some e ->
  primera_o_error (ex_codigo_uc ex) (est_ucs_regulares e) = Ret (Some u) ->
  s ∉ ex_estudiantes ex ->
  todos_estudiantes w (ex_estudiantes ex) ->
  InstanciaDeExamen.agregar_estudiante x s w
  = (Ret tt,
     impreso ["Archivo CSV actualizado con los estudiantes inscritos en "
              +:+ InstanciaDeExamen.archivo_de ex +:+ ".";
              "Estudiante " +:+ est_nombre e +:+ " " +:+ est_apellido e
              +:+ " inscrito al examen de " +:+ uc_nombre u +:+ " con éxito."]
       (set_archivos <[InstanciaDeExamen.archivo_de ex :=
                         [InstanciaDeExamen.encabezado; fila_examen w (examen_con ex s)]]>
          (set_examenes <[x := examen_con ex s]> w))).
Proof.
  intros Hx Hs Hp Hin Hr. unfold InstanciaDeExamen.agregar_estudiante.
  erewrite bind_ret by apply es_estudiante_eq.
  rewrite bool_decide_eq_true_2 by (by eexists).
  erewrite bind_ret by (by apply estudiante_de_Some).
  erewrite bind_ret by (by eapply for_return_regulares_Ret).
  cbn [fmap option_fmap option_map].
  erewrite bind_ret by (by apply examen_de_Some).
  rewrite bool_decide_eq_false_2 by done. cbn [negb].
  erewrite bind_ret by reflexivity.
  erewrite bind_ret; cycle 1.
  { unfold InstanciaDeExamen.actualizar_csv.
    erewrite bind_ret; cycle 1.
    { apply (examen_escribir_csv_ok _ x (examen_con ex s)).
      - cbn. apply lookup_insert_eq.
      - cbn. apply Forall_app. split; [done|]. apply Forall_singleton. by eexists. }
    reflexivity. }
  cbn [nombre_de]. erewrite bind_ret by reflexivity.
  cbv [print impreso set_archivos set_examenes]. cbn.
  rewrite <- app_assoc. reflexivity.
Qed.


(** C6, as stated, fails on exam sittings for a student with [None] in the
    regular list.  Ana is on the roster of the exam of UC2S1 and her regular
    list is [None] followed by UC2S1: adding her again raises
    [AttributeError], where the claim has a reported no-op.  With the same
    regular list and an empty roster, the first call raises already. *)
Lemma examen_agregar_con_None_en_regulares :
  alumnos_examen mundo_segunda_vez 0 = [0] /\
  est_ucs_regulares <$> w_estudiantes mundo_segunda_vez !! 0%nat = Some [None; Some uc2s1] /\
  InstanciaDeExamen.agregar_estudiante 0 0 mundo_segunda_vez
  = (Raise (Exc AttributeError "'NoneType' object has no attribute 'codigo'"),
     mundo_segunda_vez) /\
  alumnos_examen mundo_regular_None 0 = [] /\
  InstanciaDeExamen.agregar_estudiante 0 0 mundo_regular_None
  = (Raise (Exc AttributeError "'NoneType' object has no attribute 'codigo'"),
     mundo_regular_None).
Proof. repeat split; by vm_compute. Qed.

(** C6, amended: adding a student to a course and then adding it again
    returns both times; the second call prints one line and changes nothing
    else, so the roster keeps its entries and its size; and a roster without
    repeated entries has none after the calls.  The same holds on an exam
    sitting whose roster holds students, for a student whose regular list
    holds units only. *)
Theorem agregar_estudiante_dos_veces (w : World) (c x s : nat) (cu : curso)
    (ex : instancia_de_examen) (e : estudiante) :
  w_estudiantes w !! s = Some e ->
  (w_cursos w !! c = Some cu ->
   exists w1 linea,
     Curso.agregar_estudiante c s w = (Ret tt, w1) /\
     Curso.agregar_estudiante c s w1 = (Ret tt, impreso [linea] w1) /\
     (NoDup (alumnos_curso w c) -> NoDup (alumnos_curso w1 c))) /\
  (w_examenes w !! x = Some ex ->
   sin_None (est_ucs_regulares e) ->
   todos_estudiantes w (ex_estudiantes ex) ->
   exists w1 linea,
     InstanciaDeExamen.agregar_estudiante x s w = (Ret tt, w1) /\
     InstanciaDeExamen.agregar_estudiante x s w1 = (Ret tt, impreso [linea] w1) /\
     (NoDup (alumnos_examen w x) -> NoDup (alumnos_examen w1 x))).
Proof.
  intros Hs. split.
  - intros Hc. destruct cu as [a|].
    + destruct (decide (s ∈ cur_estudiantes a)) as [Hin|Hin].
      * eexists _, _. split; [by apply (curso_agregar_ya_inscrito w c a s)|].
        split; [by apply (curso_agregar_ya_inscrito _ c a s)|].
        unfold alumnos_curso. cbn. by rewrite Hc.
      * destruct (curso_agregar_nuevo w c a s e Hc Hs Hin)
          as (w1 & H1 & Hcu & Hes & _).
        exists w1. eexists. split; [exact H1|]. split.
        -- apply (curso_agregar_ya_inscrito w1 c
                    (CursoAttrs (cur_uc a) (cur_codigo_uc a) (cur_nombre_uc a) (cur_año a)
                       (cur_semestre a) (cur_estudiantes a ++ [s]) (cur_archivo_csv a)) s).
           ++ rewrite Hcu. apply lookup_insert_eq.
           ++ rewrite Hes. by eexists.
           ++ cbn. apply elem_of_app. right. left.
        -- unfold alumnos_curso. rewrite Hc, Hcu, lookup_insert_eq. cbn.
           intros Hnd. apply NoDup_app. split; [done|]. split.
           ++ intros y Hy Hy'. apply list_elem_of_singleton in Hy'. by subst.
           ++ apply NoDup_singleton.
    + eexists _, _. split; [by apply curso_agregar_invalido|].
      split; [by apply curso_agregar_invalido|].
      unfold alumnos_curso. cbn. by rewrite Hc.
  - intros Hx Hreg Hros.
    pose proof (primera_o_error_sin_None (ex_codigo_uc ex) _ Hreg) as Hpe.
    destruct (primera_con_codigo (ex_codigo_uc ex) (est_ucs_regulares e)) as [u|].
    + destruct (decide (s ∈ ex_estudiantes ex)) as [Hin|Hin].
      * eexists _, _. split; [by apply (examen_agregar_ya_inscrito w x ex s e u)|].
        split; [by apply (examen_agregar_ya_inscrito _ x ex s e u)|].
        unfold alumnos_examen. cbn. by rewrite Hx.
      * eexists _, _. split; [by apply (examen_agregar_nuevo w x ex s e u)|].
        split.
        -- apply (examen_agregar_ya_inscrito _ x (examen_con ex s) s e u); try done.
           ++ cbn. apply lookup_insert_eq.
           ++ cbn. apply elem_of_app. right. left.
        -- unfold alumnos_examen. cbn. rewrite Hx, lookup_insert_eq. cbn.
           intros Hnd. apply NoDup_app. split; [done|]. split.
           ++ intros y Hy Hy'. apply list_elem_of_singleton in Hy'. by subst.
           ++ apply NoDup_singleton.
    + eexists _, _. split; [by apply (examen_agregar_no_regular w x ex s e)|].
      split; [by apply (examen_agregar_no_regular _ x ex s e)|].
      unfold alumnos_examen. cbn. by rewrite Hx.
Qed.

(** ** Exam registration *)

(** A loop that leaves the function at the first unit with the wanted
    code. *)
Lemma for_return_primera {B} (codigo : string) (K : uc_o_None -> M (option B))
    (l : list uc_o_None) w :
  sin_None l ->
  (forall u w0, (K (Some u) w0).1 <> Ret None) ->
  for_return l (fun uc : uc_o_None =>
      c ← codigo_de uc;
      if String.eqb c codigo then K uc else mret None) w
  = match primera_con_codigo codigo l with
    | Some u => K (Some u) w
    | None => (Ret None, w)
    end.
Proof.
  intros Hl HK. induction l as [|o l IH]; [done|].
  apply sin_None_cons in Hl as [[u ->] Hl].
  cbn [for_return primera_con_codigo codigo_de].
  destruct (String.eqb (uc_codigo u) codigo) eqn:E.
  - unfold mbind at 1. unfold M_bind at 1.
    erewrite bind_ret by reflexivity. rewrite E.
    specialize (HK u w).
    destruct (K (Some u) w) as [[[v|]|e] w1]; cbn in *; done.
  - erewrite bind_ret; cycle 1.
    { erewrite bind_ret by reflexivity. by rewrite E. }
    by apply IH.
Qed.

(** C7, as stated, fails for a student with [None] in the regular list,
    which is what recording an unknown code as regular leaves behind.  Ana's
    regular list is [None] followed by UC2S1, so the code of the exam of
    UC2S1 is among the codes of her regular units; the registration raises
    [AttributeError] and she is not on the roster. *)
Lemma inscribirse_a_examen_con_None_en_regulares :
  est_ucs_regulares <$> w_estudiantes mundo_regular_None !! 0%nat
  = Some [None; Some uc2s1] /\
  ex_codigo_uc <$> w_examenes mundo_regular_None !! 0%nat = Some "UC2S1" /\
  "UC2S1" ∈ codigos [None; Some uc2s1] /\
  EstudianteInscripcion.inscribirse_a_examen 0 0 mundo_regular_None
  = (Raise (Exc AttributeError "'NoneType' object has no attribute 'codigo'"),
     mundo_regular_None) /\
  alumnos_examen mundo_regular_None 0 = [].
Proof.
  split; [by vm_compute|]. split; [by vm_compute|].
  split; [apply (bool_decide_unpack _); by vm_compute|].
  split; by vm_compute.
Qed.

(** C7, amended: a student whose regular and approved lists hold units calls
    [inscribirse_a_examen] on an exam sitting whose roster holds students.
    If the code of the exam is among the codes of the regular units, the call
    returns and the student is on the roster of the exam afterwards.  If it
    is not, but is among the codes of the approved units, the call only
    prints the already-passed line.  If it is among neither, the call only
    prints the does-not-meet-the-requirements line.  In the two refusals
    every object and file is as before. *)
Theorem inscribirse_a_examen_casos (w : World) (s x : nat) (e : estudiante)
    (ex : instancia_de_examen) :
  w_estudiantes w !! s = Some e ->
  w_examenes w !! x = Some ex ->
  sin_None (est_ucs_regulares e) ->
  sin_None (est_ucs_aprobadas e) ->
  todos_estudiantes w (ex_estudiantes ex) ->
  (ex_codigo_uc ex ∈ codigos (est_ucs_regulares e) ->
   exists w', EstudianteInscripcion.inscribirse_a_examen s x w = (Ret tt, w') /\
              s ∈ alumnos_examen w' x) /\
  (ex_codigo_uc ex ∉ codigos (est_ucs_regulares e) ->
   ex_codigo_uc ex ∈ codigos (est_ucs_aprobadas e) ->
   EstudianteInscripcion.inscribirse_a_examen s x w
   = (Ret tt, impreso ["Esa materia ya la aprobaste naboleti"] w)) /\
  (ex_codigo_uc ex ∉ codigos (est_ucs_regulares e) ->
   ex_codigo_uc ex ∉ codigos (est_ucs_aprobadas e) ->
   EstudianteInscripcion.inscribirse_a_examen s x w
   = (Ret tt, impreso ["No cumple con los requisitos para inscribirse a "
                       +:+ ex_codigo_uc ex] w)).
Proof.
  intros Hs Hx Hreg Hap Hros.
  pose proof (primera_o_error_sin_None (ex_codigo_uc ex) _ Hreg) as Hpe.
  assert (Hini : forall k : option instancia_de_examen -> M unit,
            (get (fun w0 => w_examenes w0 !! x) ≫= k) w = k (Some ex) w).
  { intros k. erewrite bind_ret by reflexivity. by rewrite Hx. }
  unfold EstudianteInscripcion.inscribirse_a_examen. rewrite Hini. clear Hini.
  erewrite bind_ret by (by apply estudiante_de_Some).
  assert (Hnone : ex_codigo_uc ex ∉ codigos (est_ucs_regulares e) ->
                  primera_con_codigo (ex_codigo_uc ex) (est_ucs_regulares e) = None).
  { intros Hn. apply eq_None_not_Some. by rewrite primera_con_codigo_Some. }
  assert (Hnone' : ex_codigo_uc ex ∉ codigos (est_ucs_aprobadas e) ->
                   primera_con_codigo (ex_codigo_uc ex) (est_ucs_aprobadas e) = None).
  { intros Hn. apply eq_None_not_Some. by rewrite primera_con_codigo_Some. }
  split; [|split].
  - intros Hin. apply primera_con_codigo_Some in Hin as [u Hu]. rewrite Hu in Hpe.
    assert (Hag : exists w1, InstanciaDeExamen.agregar_estudiante x s w = (Ret tt, w1)
                             /\ s ∈ alumnos_examen w1 x).
    { destruct (decide (s ∈ ex_estudiantes ex)) as [Hi|Hi].
      - eexists. split; [by apply (examen_agregar_ya_inscrito w x ex s e u)|].
        unfold alumnos_examen. cbn. by rewrite Hx.
      - eexists. split; [by apply (examen_agregar_nuevo w x ex s e u)|].
        unfold alumnos_examen. cbn. rewrite lookup_insert_eq. cbn.
        apply elem_of_app. right. left. }
    destruct Hag as (w1 & Hw1 & Hin1).
    exists (impreso ["Estas inscripto al examen de " +:+ uc_nombre u] w1). split.
    + erewrite bind_ret; cycle 1.
      { rewrite for_return_primera; [rewrite Hu| done |].
        - erewrite bind_ret by exact Hw1. cbn [nombre_de].
          erewrite bind_ret by reflexivity. reflexivity.
        - intros u0 w0. unfold mbind, M_bind.
          destruct (InstanciaDeExamen.agregar_estudiante x s w0) as [[[]|?] ?]; done. }
      reflexivity.
    + exact Hin1.
  - intros Hn Hin. apply primera_con_codigo_Some in Hin as [u Hu].
    erewrite bind_ret; cycle 1.
    { rewrite for_return_primera; [by rewrite (Hnone Hn)| done |].
      intros u0 w0. unfold mbind, M_bind.
      destruct (InstanciaDeExamen.agregar_estudiante x s w0) as [[[]|?] ?]; done. }
    cbv beta iota.
    erewrite bind_ret by (by apply estudiante_de_Some).
    erewrite bind_ret; cycle 1.
    { rewrite for_return_primera; [by rewrite Hu| done |]. done. }
    reflexivity.
  - intros Hn Hn'.
    erewrite bind_ret; cycle 1.
    { rewrite for_return_primera; [by rewrite (Hnone Hn)| done |].
      intros u0 w0. unfold mbind, M_bind.
      destruct (InstanciaDeExamen.agregar_estudiante x s w0) as [[[]|?] ?]; done. }
    cbv beta iota.
    erewrite bind_ret by (by apply estudiante_de_Some).
    erewrite bind_ret; cycle 1.
    { rewrite for_return_primera; [by rewrite (Hnone' Hn')| done |]. done. }
    reflexivity.
Qed.

(** ** Snapshots *)

Lemma curso_agregar_nuevo_ok w c a s e :
  w_cursos w !! c = Some (CursoValido a) ->
  w_estudiantes w !! s = Some e ->
  s ∉ cur_estudiantes a ->
  todos_estudiantes w (cur_estudiantes a) ->
  Curso.agregar_estudiante c s w
  = (Ret tt,
     impreso ["✔ Estudiante " +:+ est_nombre e +:+ " " +:+ est_apellido e
              +:+ " agregado al curso."]
       (set_archivos
          <[cur_archivo_csv a :=
              [Curso.encabezado;
               [cur_codigo_uc a; cur_nombre_uc a; py_str (cur_año a); py_str (cur_semestre a);
                Py.join ", " (de_cada_uno nombre_y_apellido w (cur_estudiantes a ++ [s]))]]]>
          (set_cursos <[c := curso_con a s]> w))).
Proof.
  intros Hc Hs Hin Hr. unfold Curso.agregar_estudiante.
  erewrite bind_ret by (by apply curso_valido_Some). cbn [negb].
  apply try_except_ret.
  erewrite bind_ret by apply es_estudiante_eq.
  rewrite bool_decide_eq_true_2 by (by eexists). cbn [negb].
  erewrite bind_ret by (by apply curso_attrs_Some).
  rewrite bool_decide_eq_false_2 by done. cbn [negb].
  erewrite bind_ret by reflexivity.
  erewrite bind_ret; cycle 1.
  { eapply curso_actualizar_csv_ok.
    - cbn. apply lookup_insert_eq.
    - cbn. apply Forall_app. split; [done|]. apply Forall_singleton. by eexists. }
  erewrite bind_ret by (by apply estudiante_de_Some).
  reflexivity.
Qed.



(** ** The statements at work on the scenario *)

Lemma agregar_estudiante_dos_veces_witness :
  (exists w1 linea,
     Curso.agregar_estudiante 0 0 mundo_curso = (Ret tt, w1) /\
     Curso.agregar_estudiante 0 0 w1 = (Ret tt, impreso [linea] w1) /\
     (NoDup (alumnos_curso mundo_curso 0) -> NoDup (alumnos_curso w1 0))) /\
  (exists w1 linea,
     InstanciaDeExamen.agregar_estudiante 0 0 mundo_curso = (Ret tt, w1) /\
     InstanciaDeExamen.agregar_estudiante 0 0 w1 = (Ret tt, impreso [linea] w1) /\
     (NoDup (alumnos_examen mundo_curso 0) -> NoDup (alumnos_examen w1 0))).
Proof.
  destruct (agregar_estudiante_dos_veces mundo_curso 0 0 0 curso0 examen0 ana_regular)
    as [Hcurso Hexamen].
  { vm_compute. reflexivity. }
  split.
  - apply Hcurso. vm_compute. reflexivity.
  - apply Hexamen.
    + vm_compute. reflexivity.
    + apply (bool_decide_unpack _). vm_compute. exact I.
    + apply (bool_decide_unpack _). vm_compute. exact I.
Defined.

Lemma inscribirse_a_examen_casos_witness :
  (exists w', EstudianteInscripcion.inscribirse_a_examen 0 0 mundo_tres_examenes = (Ret tt, w')
              /\ 0 ∈ alumnos_examen w' 0) /\
  EstudianteInscripcion.inscribirse_a_examen 0 1 mundo_tres_examenes
  = (Ret tt, impreso ["Esa materia ya la aprobaste naboleti"] mundo_tres_examenes) /\
  EstudianteInscripcion.inscribirse_a_examen 0 2 mundo_tres_examenes
  = (Ret tt, impreso ["No cumple con los requisitos para inscribirse a UC1S2"]
               mundo_tres_examenes).
Proof.
  split; [|split].
  - apply (inscribirse_a_examen_casos mundo_tres_examenes 0 0 ana_regular examen0).
    + vm_compute. reflexivity.
    + vm_compute. reflexivity.
    + apply (bool_decide_unpack _). vm_compute. exact I.
    + apply (bool_decide_unpack _). vm_compute. exact I.
    + apply (bool_decide_unpack _). vm_compute. exact I.
    + apply (bool_decide_unpack _). vm_compute. exact I.
  - apply (inscribirse_a_examen_casos mundo_tres_examenes 0 1 ana_regular examen1).
    + vm_compute. reflexivity.
    + vm_compute. reflexivity.
    + apply (bool_decide_unpack _). vm_compute. exact I.
    + apply (bool_decide_unpack _). vm_compute. exact I.
    + apply (bool_decide_unpack _). vm_compute. exact I.
    + apply (bool_decide_unpack _). vm_compute. exact I.
    + apply (bool_decide_unpack _). vm_compute. exact I.
  - apply (inscribirse_a_examen_casos mundo_tres_examenes 0 2 ana_regular examen2).
    + vm_compute. reflexivity.
    + vm_compute. reflexivity.
    + apply (bool_decide_unpack _). vm_compute. exact I.
    + apply (bool_decide_unpack _). vm_compute. exact I.
    + apply (bool_decide_unpack _). vm_compute. exact I.
    + apply (bool_decide_unpack _). vm_compute. exact I.
    + apply (bool_decide_unpack _). vm_compute. exact I.
Defined.


(** ** Construction of a course *)

(** [Curso.__init__] never raises; it builds the invalid sentinel and
    prints the message of the first failing check, or builds the valid
    course, writes its first snapshot and prints the confirmation. *)
Lemma curso_init_en_orden (codigo_uc año semestre : PyVal) (plan : nat) (w : World) :
  let self := fresh (dom (w_cursos w)) in
  match validacion_en_orden codigo_uc año semestre (w_planes w !! plan) with
  | inl mensaje =>
      Curso.__init__ codigo_uc año semestre plan w
      = (Ret self,
         set_cursos <[self := CursoInvalido]>
           (impreso ["✖ Error al crear el curso: " +:+ mensaje]
              (set_cursos <[self := CursoInvalido]> w)))
  | inr uc =>
      exists w',
        Curso.__init__ codigo_uc año semestre plan w = (Ret self, w') /\
        w_cursos w' !! self = Some (CursoValido (attrs_iniciales uc año semestre)) /\
        w_archivos w' !! cur_archivo_csv (attrs_iniciales uc año semestre)
        = Some [Curso.encabezado;
                [uc_codigo uc; uc_nombre uc; py_str año; py_str semestre; ""]]
  end.
Proof.
  cbn zeta. unfold validacion_en_orden, Curso.__init__.
  erewrite bind_ret by reflexivity.
  erewrite bind_ret by reflexivity.
  set (self := fresh (dom (w_cursos w))).
  set (w0 := set_cursos <[self := CursoInvalido]> w).
  assert (Hfail : forall (m : M unit) c msg,
    c ∈ [ValueError; TypeError] ->
    m w0 = (Raise (Exc c msg), w0) ->
    (try_except m [ValueError; TypeError]
       (fun e => print ("✖ Error al crear el curso: " +:+ exc_msg e);;
                 modify (set_cursos <[self := CursoInvalido]>));; mret self) w0
    = (Ret self, set_cursos <[self := CursoInvalido]>
                   (impreso ["✖ Error al crear el curso: " +:+ msg] w0))).
  { intros m c msg Hc Hm. erewrite bind_ret; [reflexivity|].
    erewrite try_except_caught; [|exact Hm|exact Hc]. reflexivity. }
  destruct codigo_uc as [| | |codigo|];
    try (apply (Hfail _ TypeError); [set_solver|reflexivity]).
  destruct (es_int año && (2000 <=? valor_int año)%Z) eqn:Ea; cbn [negb]; cycle 1.
  { apply (Hfail _ ValueError); [set_solver|].
    erewrite bind_ret by reflexivity.
    apply andb_false_iff in Ea as [Ea|Ea].
    - rewrite Ea. reflexivity.
    - apply Z.leb_gt in Ea. apply Z.ltb_lt in Ea. rewrite Ea, orb_true_r. reflexivity. }
  apply andb_true_iff in Ea as [Ea1 Ea2]. apply Z.leb_le in Ea2.
  assert (Ea3 : (valor_int año <? 2000)%Z = false) by (apply Z.ltb_ge; lia).
  destruct (es_int semestre && (1 <=? valor_int semestre)%Z && (valor_int semestre <=? 10)%Z)
    eqn:Es; cbn [negb]; cycle 1.
  { apply (Hfail _ ValueError); [set_solver|].
    erewrite bind_ret by reflexivity. rewrite Ea1, Ea3. cbn [negb orb].
    erewrite bind_ret by reflexivity.
    rewrite <- andb_assoc in Es. apply andb_false_iff in Es as [Es|Es].
    - rewrite Es. reflexivity.
    - rewrite Es, orb_true_r. reflexivity. }
  rewrite <- andb_assoc in Es. apply andb_true_iff in Es as [Es1 Es2].
  assert (Hp0 : w_planes w0 !! plan = w_planes w !! plan) by reflexivity.
  destruct (w_planes w !! plan) as [p|] eqn:Hp.
  2:{ apply (Hfail _ TypeError); [set_solver|].
      erewrite bind_ret by reflexivity. rewrite Ea1, Ea3. cbn [negb orb].
      erewrite bind_ret by reflexivity. rewrite Es1, Es2. cbn [negb orb].
      erewrite bind_ret by reflexivity.
      erewrite bind_ret by reflexivity. rewrite Hp0. reflexivity. }
  destruct (PlanDeEstudio.buscar (plan_materias p) codigo) as [uc|] eqn:Hb.
  2:{ apply (Hfail _ ValueError); [set_solver|].
      erewrite bind_ret by reflexivity. rewrite Ea1, Ea3. cbn [negb orb].
      erewrite bind_ret by reflexivity. rewrite Es1, Es2. cbn [negb orb].
      erewrite bind_ret by reflexivity.
      erewrite bind_ret by reflexivity. rewrite Hp0.
      erewrite bind_ret by reflexivity. rewrite Hb. reflexivity. }
  assert (Hok :
    Py.search_S_digits (uc_codigo uc) = None \/
    (exists grupo, Py.search_S_digits (uc_codigo uc) = Some grupo /\
                   (valor_int semestre =? Py.Z_of_digits 0 grupo)%Z = true) ->
    exists w',
      Curso.__init__ (PStr codigo) año semestre plan w = (Ret self, w') /\
      w_cursos w' !! self = Some (CursoValido (attrs_iniciales uc año semestre)) /\
      w_archivos w' !! cur_archivo_csv (attrs_iniciales uc año semestre)
      = Some [Curso.encabezado;
              [uc_codigo uc; uc_nombre uc; py_str año; py_str semestre; ""]]).
  { intros Hsuf. eexists. split; [|split].
    - unfold Curso.__init__.
      erewrite bind_ret by reflexivity.
      erewrite bind_ret by reflexivity.
      erewrite bind_ret; [reflexivity|].
      apply try_except_ret.
      erewrite bind_ret by reflexivity. rewrite Ea1, Ea3. cbn [negb orb].
      erewrite bind_ret by reflexivity. rewrite Es1, Es2. cbn [negb orb].
      erewrite bind_ret by reflexivity.
      erewrite bind_ret by reflexivity. fold self. fold w0. rewrite Hp0.
      erewrite bind_ret by reflexivity. rewrite Hb.
      erewrite bind_ret by reflexivity.
      erewrite bind_ret; cycle 1.
      { destruct Hsuf as [-> | (grupo & -> & ->)]; reflexivity. }
      erewrite bind_ret by reflexivity.
      erewrite bind_ret; [reflexivity|].
      unfold Curso.generar_csv. apply try_except_ret.
      erewrite bind_ret; [reflexivity|].
      apply curso_attrs_Some. cbn. apply lookup_insert_eq.
    - cbn. apply lookup_insert_eq.
    - cbn. apply lookup_insert_eq. }
  destruct (Py.search_S_digits (uc_codigo uc)) as [grupo|] eqn:Hg; [|by auto].
  destruct (valor_int semestre =? Py.Z_of_digits 0 grupo)%Z eqn:Hv; [by eauto|].
  apply (Hfail _ ValueError); [set_solver|].
  erewrite bind_ret by reflexivity. rewrite Ea1, Ea3. cbn [negb orb].
  erewrite bind_ret by reflexivity. rewrite Es1, Es2. cbn [negb orb].
  erewrite bind_ret by reflexivity.
  erewrite bind_ret by reflexivity. rewrite Hp0.
  erewrite bind_ret by reflexivity. rewrite Hb.
  erewrite bind_ret by reflexivity. rewrite Hg, Hv. reflexivity.
Qed.

(** ** Manual addition of a unit *)

(** With a name, credits and a term between 1 and 10, the unit is appended
    with the code "UC" + (1 + number of codes ending in "S<term>") +
    "S<term>". *)
Lemma agregar_materia_manual_ok w r p nombre creditos (semestre : Z) previas :
  w_planes w !! r = Some p ->
  nombre <> "" ->
  es_None creditos = false ->
  (1 <= semestre <= 10)%Z ->
  let codigo := PlanDeEstudio.codigo_manual (plan_materias p) (PInt semestre) in
  let uc := UnidadCurricular (w_oid w) codigo (Py.capitalize (Py.lower nombre)) creditos
              (default [] previas) in
  PlanDeEstudio.agregar_materia_manual r nombre creditos (PInt semestre) previas w
  = (Ret tt,
     impreso ["Materia agregada manualmente: " +:+ codigo +:+ " - "
              +:+ Py.capitalize (Py.lower nombre)]
       (set_planes <[r := PlanDeEstudio_ (plan_nombre_plan p) (plan_materias p ++ [uc])]>
          (set_oid S w))).
Proof.
  intros Hp Hn Hc Hs. cbn zeta. unfold PlanDeEstudio.agregar_materia_manual.
  apply String.eqb_neq in Hn. rewrite Hn, Hc. cbn [es_None es_int negb orb valor_int].
  assert (E1 : (semestre <? 1)%Z = false) by (apply Z.ltb_ge; lia).
  assert (E2 : (semestre >? 10)%Z = false) by (rewrite Z.gtb_ltb; apply Z.ltb_ge; lia).
  rewrite E1, E2. cbn [orb].
  erewrite bind_ret by (by apply plan_de_Some).
  erewrite bind_ret by reflexivity.
  erewrite bind_ret; cycle 1.
  { unfold PlanDeEstudio._agregar_materia, PlanDeEstudio.set_materias.
    erewrite bind_ret by (by apply plan_de_Some).
    erewrite bind_ret by (by apply plan_de_Some).
    reflexivity. }
  destruct previas; reflexivity.
Qed.

(** ** The built-ins on examples, as the interpreter answers them *)

Example strip_ex : Py.strip (String "028" " a ") = "a".
Proof. reflexivity. Qed.
Example title_ex : Py.title "o'neil mc-donald 3ab aB" = "O'Neil Mc-Donald 3Ab Ab".
Proof. reflexivity. Qed.
Example capitalize_ex : Py.capitalize (Py.lower "hELLO wORLD") = "Hello world".
Proof. reflexivity. Qed.
Example int_ex1 : Py.int_of_string " 1_0 " = Some 10%Z.
Proof. reflexivity. Qed.
Example int_ex2 : Py.int_of_string "1__0" = None.
Proof. reflexivity. Qed.
Example int_ex3 : Py.int_of_string "-007" = Some (-7)%Z.
Proof. reflexivity. Qed.
Example int_ex4 : Py.int_of_string (String "028" "5") = None.
Proof. reflexivity. Qed.
Example search_ex1 : Py.search_S_digits "UC1S12" = Some "12".
Proof. reflexivity. Qed.
Example search_ex2 : Py.search_S_digits "S1S" = None.
Proof. reflexivity. Qed.
Example search_ex3 : Py.search_S_digits "SS3" = Some "3".
Proof. reflexivity. Qed.
Example search_ex4 : Py.search_S_digits (String "S" (String "1" (String "010" ""))) = Some "1".
Proof. reflexivity. Qed.
Example search_ex5 :
  Py.search_S_digits (String "S" (String "1" (String "010" (String "010" "")))) = None.
Proof. reflexivity. Qed.
Example endswith_ex : Py.endswith "UC1S10" "S1" = false.
Proof. reflexivity. Qed.
Example str_ex : Py.str_of_Z (-12) = "-12".
Proof. reflexivity. Qed.
Example ver_raya : String.length "----------------------------------------" = 40.
Proof. reflexivity. Qed.

(** * Further properties of the code *)

(** ** Study plans *)

Lemma buscar_primera materias codigo uc :
  PlanDeEstudio.buscar materias codigo = Some uc <->
  exists l1 l2, materias = l1 ++ uc :: l2 /\ uc_codigo uc = codigo /\
                codigo ∉ codigos_de l1.
Proof.
  unfold codigos_de. induction materias as [|m r IH]; cbn.
  - split; [done|]. intros (l1 & l2 & H & _). by destruct l1.
  - destruct (String.eqb_spec (uc_codigo m) codigo) as [E|E].
    + split.
      * intros [= <-]. exists [], r. repeat split; [done|]. cbn. apply not_elem_of_nil.
      * intros (l1 & l2 & H & Hc & Hn). destruct l1 as [|y l1].
        -- cbn in H. by injection H as -> _.
        -- cbn in H. injection H as -> _. exfalso. apply Hn. cbn. rewrite E. left.
    + rewrite IH. split.
      * intros (l1 & l2 & -> & Hc & Hn). exists (m :: l1), l2. repeat split; [done|].
        cbn. intros H. apply elem_of_cons in H as [H|H]; [by subst|done].
      * intros (l1 & l2 & H & Hc & Hn). destruct l1 as [|y l1].
        -- cbn in H. injection H as -> _. by subst.
        -- cbn in H. injection H as -> ->. exists l1, l2. repeat split; [done|].
           intros H. apply Hn. cbn. by right.
Qed.

Lemma buscar_None_codigos materias codigo :
  PlanDeEstudio.buscar materias codigo = None <-> codigo ∉ codigos_de materias.
Proof.
  rewrite buscar_None. unfold codigos_de. split.
  - intros H Hin. apply list_elem_of_fmap in Hin as (uc & -> & Huc). by apply (H uc).
  - intros H uc Huc E. apply H. apply list_elem_of_fmap. by exists uc.
Qed.

(** X1: looking a code up in a plan never raises and never changes
    anything; it answers [None] exactly when no unit of the plan has the
    code, and otherwise the first unit of the plan, in plan order, that has
    it. *)
Theorem buscar_uc_por_codigo_primera (w : World) (r : nat) (p : plan_de_estudio)
    (codigo : string) :
  w_planes w !! r = Some p ->
  exists o,
    PlanDeEstudio.buscar_uc_por_codigo r codigo w = (Ret o, w) /\
    (o = None <-> codigo ∉ codigos_de (plan_materias p)) /\
    (forall uc, o = Some uc <->
       exists l1 l2, plan_materias p = l1 ++ uc :: l2 /\ uc_codigo uc = codigo /\
                     codigo ∉ codigos_de l1).
Proof.
  intros Hp. exists (PlanDeEstudio.buscar (plan_materias p) codigo).
  split; [by apply buscar_uc_por_codigo_Some|]. split.
  - apply buscar_None_codigos.
  - intros uc. apply buscar_primera.
Qed.

Lemma buscar_uc_por_codigo_primera_witness :
  exists o,
    PlanDeEstudio.buscar_uc_por_codigo 0 "UC1S2" mundo_plan = (Ret o, mundo_plan) /\
    (o = None <-> "UC1S2" ∉ codigos_de (plan_materias plan0)) /\
    (forall uc, o = Some uc <->
       exists l1 l2, plan_materias plan0 = l1 ++ uc :: l2 /\ uc_codigo uc = "UC1S2" /\
                     "UC1S2" ∉ codigos_de l1).
Proof.
  apply (buscar_uc_por_codigo_primera mundo_plan 0 plan0 "UC1S2").
  vm_compute. reflexivity.
Defined.

Lemma remove_primera (m : unidad_curricular) l1 l2 :
  uc_oid m ∉ (uc_oid <$> l1) ->
  PlanDeEstudio.remove m (l1 ++ m :: l2) = l1 ++ l2.
Proof.
  induction l1 as [|y l1 IH]; cbn; intros Hn.
  - by rewrite Nat.eqb_refl.
  - destruct (Nat.eqb_spec (uc_oid y) (uc_oid m)) as [E|E].
    + exfalso. apply Hn. rewrite E. left.
    + rewrite IH; [done|]. intros H. apply Hn. by right.
Qed.

(** X2: removing a code that the plan has takes out exactly one unit, the
    first one with that code, and keeps the others in their order; it prints
    the confirmation and touches nothing else.  Looking the code up
    afterwards finds what is left behind that unit: [None] when the codes of
    the plan were all different. *)
Theorem quitar_materia_quita_la_primera (w : World) (r : nat) (p : plan_de_estudio)
    (codigo : string) (l1 l2 : list unidad_curricular) (uc : unidad_curricular) :
  w_planes w !! r = Some p ->
  identidades_distintas (plan_materias p) ->
  plan_materias p = l1 ++ uc :: l2 ->
  uc_codigo uc = codigo ->
  codigo ∉ codigos_de l1 ->
  let w' := set_planes <[r := PlanDeEstudio_ (plan_nombre_plan p) (l1 ++ l2)]> w in
  PlanDeEstudio.quitar_materia r codigo w
  = (Ret tt, impreso ["✔ Materia eliminada: " +:+ codigo +:+ " - " +:+ uc_nombre uc] w') /\
  PlanDeEstudio.buscar_uc_por_codigo r codigo w'
  = (Ret (PlanDeEstudio.buscar l2 codigo), w') /\
  (NoDup (codigos_de (plan_materias p)) ->
   PlanDeEstudio.buscar_uc_por_codigo r codigo w' = (Ret None, w')).
Proof.
  intros Hp Hid Hl Hc Hn. cbn zeta.
  assert (Hb : PlanDeEstudio.buscar (plan_materias p) codigo = Some uc).
  { apply buscar_primera. by exists l1, l2. }
  assert (Hb1 : PlanDeEstudio.buscar l1 codigo = None) by (by apply buscar_None_codigos).
  assert (Happ : forall l, PlanDeEstudio.buscar (l1 ++ l) codigo = PlanDeEstudio.buscar l codigo).
  { intros l. clear -Hb1. induction l1 as [|y l1 IH]; [done|]. cbn in *.
    destruct (String.eqb (uc_codigo y) codigo); [done|]. by apply IH. }
  assert (Hlook : PlanDeEstudio.buscar_uc_por_codigo r codigo
            (set_planes <[r := PlanDeEstudio_ (plan_nombre_plan p) (l1 ++ l2)]> w)
          = (Ret (PlanDeEstudio.buscar l2 codigo),
             set_planes <[r := PlanDeEstudio_ (plan_nombre_plan p) (l1 ++ l2)]> w)).
  { erewrite buscar_uc_por_codigo_Some by (cbn; apply lookup_insert_eq).
    cbn. by rewrite Happ. }
  split; [|split].
  - unfold PlanDeEstudio.quitar_materia.
    erewrite bind_ret by (by apply buscar_uc_por_codigo_Some). rewrite Hb.
    erewrite bind_ret by (by apply plan_de_Some).
    erewrite bind_ret; cycle 1.
    { unfold PlanDeEstudio.set_materias.
      erewrite bind_ret by (by apply plan_de_Some). reflexivity. }
    rewrite Hl, remove_primera; [reflexivity|].
    unfold identidades_distintas in Hid. rewrite Hl, fmap_app in Hid.
    apply NoDup_app in Hid as (_ & Hd & _). intros Hin.
    apply (Hd _ Hin). cbn. left.
  - exact Hlook.
  - intros Hnd. rewrite Hlook. f_equal. f_equal.
    apply buscar_None_codigos. unfold codigos_de in *.
    rewrite Hl, fmap_app in Hnd. apply NoDup_app in Hnd as (_ & _ & Hnd).
    cbn in Hnd. apply NoDup_cons in Hnd as [Hnd _]. by rewrite Hc in Hnd.
Qed.

Lemma quitar_materia_quita_la_primera_witness :
  let w' := set_planes <[0%nat := PlanDeEstudio_ "Plan 2024" ([uc1s1] ++ [uc1s2; uc2s2])]>
              mundo_plan in
  PlanDeEstudio.quitar_materia 0 "UC2S1" mundo_plan
  = (Ret tt, impreso ["✔ Materia eliminada: " +:+ "UC2S1" +:+ " - " +:+ uc_nombre uc2s1] w') /\
  PlanDeEstudio.buscar_uc_por_codigo 0 "UC2S1" w'
  = (Ret (PlanDeEstudio.buscar [uc1s2; uc2s2] "UC2S1"), w') /\
  (NoDup (codigos_de (plan_materias plan0)) ->
   PlanDeEstudio.buscar_uc_por_codigo 0 "UC2S1" w' = (Ret None, w')).
Proof.
  apply (quitar_materia_quita_la_primera mundo_plan 0 plan0 "UC2S1" [uc1s1] [uc1s2; uc2s2] uc2s1).
  - vm_compute. reflexivity.
  - apply (bool_decide_unpack _). vm_compute. exact I.
  - reflexivity.
  - reflexivity.
  - apply (bool_decide_unpack _). vm_compute. exact I.
Defined.

(** X3: removing a code that the plan does not have prints the not-found
    line and leaves every object and file as it was; it does not raise. *)
Theorem quitar_materia_codigo_ausente (w : World) (r : nat) (p : plan_de_estudio)
    (codigo : string) :
  w_planes w !! r = Some p ->
  codigo ∉ codigos_de (plan_materias p) ->
  PlanDeEstudio.quitar_materia r codigo w
  = (Ret tt, impreso ["Materia con el código " +:+ codigo +:+ " no encontrada."] w).
Proof.
  intros Hp Hn. apply (quitar_materia_no_encontrada w r p codigo Hp).
  by apply buscar_None_codigos.
Qed.

Lemma quitar_materia_codigo_ausente_witness :
  PlanDeEstudio.quitar_materia 0 "UC9S9" mundo_plan
  = (Ret tt, impreso ["Materia con el código " +:+ "UC9S9" +:+ " no encontrada."] mundo_plan).
Proof.
  apply (quitar_materia_codigo_ausente mundo_plan 0 plan0 "UC9S9").
  - vm_compute. reflexivity.
  - apply (bool_decide_unpack _). vm_compute. exact I.
Defined.

(** X4: adding a unit by hand, with an integer (or missing) term, succeeds
    exactly when the name is not empty, the credits and the term are not
    [None] and the term is between 1 and 10; otherwise it raises
    [ValueError] and nothing is added, identified or printed. *)
Theorem agregar_materia_manual_valida (w : World) (r : nat) (p : plan_de_estudio)
    (nombre : string) (creditos semestre : PyVal) (previas : option (list string)) :
  w_planes w !! r = Some p ->
  es_int semestre = true \/ semestre = PNone ->
  let ok := nombre <> "" /\ creditos <> PNone /\ semestre <> PNone /\
            (1 <= valor_int semestre <= 10)%Z in
  (ok -> resultado (PlanDeEstudio.agregar_materia_manual r nombre creditos semestre previas) w
         = Ret tt) /\
  (~ ok -> exists msg,
     PlanDeEstudio.agregar_materia_manual r nombre creditos semestre previas w
     = (Raise (Exc ValueError msg), w)).
Proof.
  intros Hp Hs. cbn zeta. unfold PlanDeEstudio.agregar_materia_manual, resultado.
  destruct (String.eqb_spec nombre "") as [En|En]; cbn [orb].
  { split; [by intros (? & _)|]. intros _. by eexists. }
  destruct creditos; cbn [es_None orb];
    try (split; [by intros (_ & ? & _)|]; intros _; by eexists).
  all: destruct Hs as [Hs| ->];
    [|split; [by intros (_ & _ & ? & _)|]; intros _; by eexists].
  all: assert (Hn : es_None semestre = false) by (by destruct semestre).
  all: rewrite Hn, Hs; cbn [negb].
  all: destruct (valor_int semestre <? 1)%Z eqn:E1; cbn [orb];
    [ apply Z.ltb_lt in E1; split; [intros (_ & _ & _ & ?); lia|]; intros _; by eexists |].
  all: destruct (valor_int semestre >? 10)%Z eqn:E2;
    [ rewrite Z.gtb_ltb in E2; apply Z.ltb_lt in E2;
      split; [intros (_ & _ & _ & ?); lia|]; intros _; by eexists |].
  all: apply Z.ltb_ge in E1; rewrite Z.gtb_ltb in E2; apply Z.ltb_ge in E2.
  all: split; [intros _|intros H; exfalso; apply H; repeat split;
                          try done; try lia; by destruct semestre].
  all: erewrite bind_ret by (by apply plan_de_Some).
  all: erewrite bind_ret by reflexivity.
  all: erewrite bind_ret; [reflexivity|].
  all: unfold PlanDeEstudio._agregar_materia, PlanDeEstudio.set_materias.
  all: erewrite bind_ret by (by apply plan_de_Some).
  all: erewrite bind_ret by (by apply plan_de_Some).
  all: reflexivity.
Qed.

Lemma agregar_materia_manual_valida_witness :
  (("quimica" <> "" /\ PInt 6 <> PNone /\ PInt 1 <> PNone /\ (1 <= valor_int (PInt 1) <= 10)%Z) ->
   resultado (PlanDeEstudio.agregar_materia_manual 0 "quimica" (PInt 6) (PInt 1) None) mundo_plan
   = Ret tt) /\
  (~ ("quimica" <> "" /\ PInt 6 <> PNone /\ PInt 11 <> PNone
      /\ (1 <= valor_int (PInt 11) <= 10)%Z) ->
   exists msg,
     PlanDeEstudio.agregar_materia_manual 0 "quimica" (PInt 6) (PInt 11) None mundo_plan
     = (Raise (Exc ValueError msg), mundo_plan)).
Proof.
  split.
  - apply (agregar_materia_manual_valida mundo_plan 0 plan0 "quimica" (PInt 6) (PInt 1) None).
    + vm_compute. reflexivity.
    + left. reflexivity.
  - apply (agregar_materia_manual_valida mundo_plan 0 plan0 "quimica" (PInt 6) (PInt 11) None).
    + vm_compute. reflexivity.
    + left. reflexivity.
Defined.

Lemma buscar_app l1 l2 codigo :
  PlanDeEstudio.buscar (l1 ++ l2) codigo
  = match PlanDeEstudio.buscar l1 codigo with
    | Some uc => Some uc
    | None => PlanDeEstudio.buscar l2 codigo
    end.
Proof.
  induction l1 as [|y l1 IH]; [done|]. cbn.
  by destruct (String.eqb (uc_codigo y) codigo).
Qed.

(** X5: after a unit was added by hand, the plan holds the former units
    followed by the new one; the other codes are looked up as before; the
    code given to the new unit is found, but what the lookup returns is the
    new unit only when no former unit had that code: otherwise it is the
    former unit, and the new one cannot be reached by its code. *)
Theorem agregar_materia_manual_y_buscar (w : World) (r : nat) (p : plan_de_estudio)
    (nombre : string) (creditos : PyVal) (semestre : Z) (previas : option (list string)) :
  w_planes w !! r = Some p ->
  nombre <> "" ->
  es_None creditos = false ->
  (1 <= semestre <= 10)%Z ->
  let codigo := PlanDeEstudio.codigo_manual (plan_materias p) (PInt semestre) in
  let uc := UnidadCurricular (w_oid w) codigo (Py.capitalize (Py.lower nombre)) creditos
              (default [] previas) in
  let w' := despues (PlanDeEstudio.agregar_materia_manual r nombre creditos (PInt semestre)
                       previas) w in
  w_planes w' !! r = Some (PlanDeEstudio_ (plan_nombre_plan p) (plan_materias p ++ [uc])) /\
  PlanDeEstudio.buscar_uc_por_codigo r codigo w'
  = (Ret (Some (default uc (PlanDeEstudio.buscar (plan_materias p) codigo))), w') /\
  (forall c, c <> codigo ->
     PlanDeEstudio.buscar_uc_por_codigo r c w'
     = (Ret (PlanDeEstudio.buscar (plan_materias p) c), w')).
Proof.
  intros Hp Hn Hc Hs. cbn zeta. unfold despues.
  rewrite (agregar_materia_manual_ok w r p nombre creditos semestre previas Hp Hn Hc Hs).
  cbn [snd].
  set (uc := UnidadCurricular _ _ _ _ _).
  set (w' := impreso _ _).
  assert (Hp' : w_planes w' !! r
                = Some (PlanDeEstudio_ (plan_nombre_plan p) (plan_materias p ++ [uc]))).
  { cbn. apply lookup_insert_eq. }
  split; [exact Hp'|]. split.
  - erewrite buscar_uc_por_codigo_Some by exact Hp'. cbn [plan_materias].
    rewrite buscar_app. cbn.
    destruct (PlanDeEstudio.buscar (plan_materias p) _); [done|].
    by rewrite String.eqb_refl.
  - intros c Hne. erewrite buscar_uc_por_codigo_Some by exact Hp'. cbn [plan_materias].
    rewrite buscar_app. cbn.
    destruct (PlanDeEstudio.buscar (plan_materias p) c); [done|].
    destruct (String.eqb_spec (PlanDeEstudio.codigo_manual (plan_materias p) (PInt semestre)) c);
      [by subst|done].
Qed.

Lemma agregar_materia_manual_y_buscar_witness :
  let codigo := PlanDeEstudio.codigo_manual (plan_materias plan_sin_uc1s1) (PInt 1) in
  let uc := UnidadCurricular (w_oid mundo_sin_uc1s1) codigo (Py.capitalize (Py.lower "quimica"))
              (PInt 6) (default [] None) in
  let w' := despues (PlanDeEstudio.agregar_materia_manual 0 "quimica" (PInt 6) (PInt 1) None)
              mundo_sin_uc1s1 in
  w_planes w' !! 0%nat
  = Some (PlanDeEstudio_ (plan_nombre_plan plan_sin_uc1s1)
            (plan_materias plan_sin_uc1s1 ++ [uc])) /\
  PlanDeEstudio.buscar_uc_por_codigo 0 codigo w'
  = (Ret (Some (default uc (PlanDeEstudio.buscar (plan_materias plan_sin_uc1s1) codigo))), w') /\
  (forall c, c <> codigo ->
     PlanDeEstudio.buscar_uc_por_codigo 0 c w'
     = (Ret (PlanDeEstudio.buscar (plan_materias plan_sin_uc1s1) c), w')).
Proof.
  apply (agregar_materia_manual_y_buscar mundo_sin_uc1s1 0 plan_sin_uc1s1 "quimica" (PInt 6) 1 None).
  - vm_compute. reflexivity.
  - discriminate.
  - reflexivity.
  - lia.
Defined.

(** ** Students and their units *)

Lemma puede_inscribirse_valor w s e p U uc :
  w_estudiantes w !! s = Some e ->
  w_planes w !! est_plan e = Some p ->
  PlanDeEstudio.buscar (plan_materias p) U = Some uc ->
  resuelven (plan_materias p) (uc_previas uc) ->
  sin_None (est_ucs_aprobadas e) ->
  sin_None (est_ucs_cursando e) ->
  exists out,
    Estudiante._puede_inscribirse s U w
    = (Ret (elegible (plan_materias p) e (uc_previas uc) U), impreso out w) /\
    (elegible (plan_materias p) e (uc_previas uc) U = true -> out = []) /\
    (elegible (plan_materias p) e (uc_previas uc) U = false -> out <> []) /\
    (faltantes (plan_materias p) (codigos (est_ucs_aprobadas e)) (uc_previas uc) = [] ->
     U ∈ codigos (est_ucs_cursando e) -> out = ["Ya está cursando esta UC."]).
Proof.
  intros He Hp Huc Hprev Hap Hcu.
  unfold Estudiante._puede_inscribirse.
  erewrite bind_ret by (by apply estudiante_de_Some).
  erewrite bind_ret by (by apply buscar_uc_por_codigo_Some).
  erewrite bind_ret by (by apply comprehension_codigo_de).
  erewrite bind_ret by (by apply comprehension_codigo_de).
  rewrite Huc. cbn [Estudiante.previas_de].
  erewrite bind_ret by reflexivity.
  erewrite bind_ret by (by apply for_acc_faltantes).
  cbn [app].
  pose proof (faltantes_sin_None (plan_materias p) (codigos (est_ucs_aprobadas e))
                (uc_previas uc) Hprev) as Hsn.
  unfold elegible.
  destruct (faltantes (plan_materias p) (codigos (est_ucs_aprobadas e)) (uc_previas uc))
    as [|f fs] eqn:Ef.
  - cbn [codigo_de]. erewrite bind_ret by reflexivity.
    rewrite (buscar_codigo _ _ _ Huc).
    replace (bool_decide (@nil uc_o_None = [])) with true
      by (symmetry; by apply bool_decide_eq_true_2).
    cbn [andb].
    destruct (decide (U ∈ codigos (est_ucs_cursando e))) as [Hc|Hc].
    + rewrite !(bool_decide_eq_true_2 _ Hc). cbn [negb andb].
      exists ["Ya está cursando esta UC."]. by repeat split.
    + rewrite !(bool_decide_eq_false_2 _ Hc). cbn [negb andb].
      destruct (decide (U ∈ codigos (est_ucs_aprobadas e))) as [Ha|Ha].
      * rewrite !(bool_decide_eq_true_2 _ Ha). cbn [negb].
        exists ["Ya aprobó esta UC."]. by repeat split.
      * rewrite !(bool_decide_eq_false_2 _ Ha). cbn [negb].
        exists []. rewrite impreso_nil. by repeat split.
  - cbn [nombre_de]. erewrite bind_ret by reflexivity.
    replace (bool_decide (f :: fs = [])) with false
      by (symmetry; by apply bool_decide_eq_false_2).
    cbn [andb].
    destruct (for_each_nombres (f :: fs)
                (impreso ["No puedes inscribirte en la UC " +:+ uc_nombre uc
                          +:+ " porque te faltan las siguientes previas:"] w) Hsn)
      as [out Hout].
    eexists. split; [|split; [|split]].
    + erewrite bind_ret by reflexivity.
      erewrite bind_ret by apply Hout.
      cbn. rewrite impreso_impreso. reflexivity.
    + done.
    + done.
    + done.
Qed.

Lemma py_in_elem (o : uc_o_None) l : o ∈ l -> py_in o l = true.
Proof.
  intros H. unfold py_in. apply existsb_exists. exists o. split.
  - by apply list_elem_of_In.
  - destruct o; cbn; [apply Nat.eqb_refl|done].
Qed.

Lemma py_remove_app_ultimo (o : uc_o_None) l :
  py_in o l = false -> py_remove o (l ++ [o]) = l.
Proof.
  induction l as [|y l IH]; cbn.
  - intros _. by destruct o; cbn; rewrite ?Nat.eqb_refl.
  - intros H. apply orb_false_iff in H as [H1 H2].
    assert (E : mismo_objeto y o = false).
    { destruct o, y; cbn in *; try done. by rewrite Nat.eqb_sym. }
    rewrite E. by rewrite IH.
Qed.

Lemma py_in_app_ultimo (o : uc_o_None) l : py_in o (l ++ [o]) = true.
Proof. apply py_in_elem. apply elem_of_app. right. left. Qed.

Lemma set_ucs_aprobadas_Some w s e l :
  w_estudiantes w !! s = Some e ->
  set_ucs_aprobadas s l w = (Ret tt, set_estudiantes <[s := con_aprobadas e l]> w).
Proof.
  intros H. unfold set_ucs_aprobadas.
  by erewrite bind_ret by (by apply estudiante_de_Some).
Qed.

Lemma set_ucs_regulares_Some w s e l :
  w_estudiantes w !! s = Some e ->
  set_ucs_regulares s l w = (Ret tt, set_estudiantes <[s := con_regulares e l]> w).
Proof.
  intros H. unfold set_ucs_regulares.
  by erewrite bind_ret by (by apply estudiante_de_Some).
Qed.

Lemma set_ucs_cursando_Some w s e l :
  w_estudiantes w !! s = Some e ->
  set_ucs_cursando s l w = (Ret tt, set_estudiantes <[s := con_cursando e l]> w).
Proof.
  intros H. unfold set_ucs_cursando.
  by erewrite bind_ret by (by apply estudiante_de_Some).
Qed.

Lemma restaurar_estudiante w s e e' out :
  w_estudiantes w !! s = Some e ->
  impreso out (set_estudiantes <[s := e]> (set_estudiantes <[s := e']> w)) = impreso out w.
Proof.
  intros H. destruct w. unfold impreso, set_estudiantes. cbn in *.
  by rewrite insert_insert_eq, insert_id.
Qed.

(** X6: a staff member records a unit of the student's plan as approved.
    When the unit was not in the approved list, it is appended to it, the
    confirmation is printed, and no other list, student, course, exam or file
    changes; no prerequisite is looked at.  Recording it again is refused
    with one line and changes nothing.  Removing it then gives back the
    world before the first call, up to the printed lines. *)
Theorem agregar_uc_aprobada_y_quitar (w : World) (quien : persona) (s : nat) (e : estudiante)
    (p : plan_de_estudio) (codigo : string) (uc : unidad_curricular) :
  w_estudiantes w !! s = Some e ->
  w_planes w !! est_plan e = Some p ->
  PlanDeEstudio.buscar (plan_materias p) codigo = Some uc ->
  py_in (Some uc) (est_ucs_aprobadas e) = false ->
  let linea := "✔ " +:+ uc_nombre uc +:+ " fue agregada correctamente a las UCs aprobadas de "
               +:+ est_nombre e +:+ "." in
  let w1 := impreso [linea]
              (set_estudiantes
                 <[s := con_aprobadas e (est_ucs_aprobadas e ++ [Some uc])]> w) in
  Coordinadora.agregar_uc_aprobada quien s codigo w = (Ret tt, w1) /\
  Coordinadora.agregar_uc_aprobada quien s codigo w1
  = (Ret tt, impreso ["✖ " +:+ est_nombre e +:+ " ya había aprobado la UC "
                      +:+ uc_nombre uc +:+ "."] w1) /\
  Coordinadora.quitar_uc_aprobada quien s codigo w1
  = (Ret tt, impreso [linea; "✔ " +:+ uc_nombre uc
                             +:+ " fue removida de las UCs aprobadas de "
                             +:+ est_nombre e +:+ "."] w).
Proof.
  intros He Hp Huc Hin. cbn zeta.
  set (e1 := con_aprobadas e (est_ucs_aprobadas e ++ [Some uc])).
  assert (He1 : forall out,
            w_estudiantes (impreso out (set_estudiantes <[s := e1]> w)) !! s = Some e1).
  { intros out. cbn. apply lookup_insert_eq. }
  split; [|split].
  - unfold Coordinadora.agregar_uc_aprobada.
    erewrite bind_ret by (by apply estudiante_de_Some).
    erewrite bind_ret by (by apply buscar_uc_por_codigo_Some).
    rewrite Huc, Hin. cbn [negb].
    erewrite bind_ret by (by apply set_ucs_aprobadas_Some).
    cbn [nombre_de]. erewrite bind_ret by reflexivity. reflexivity.
  - unfold Coordinadora.agregar_uc_aprobada.
    erewrite bind_ret by (apply estudiante_de_Some, He1).
    erewrite bind_ret by (by apply buscar_uc_por_codigo_Some).
    rewrite Huc. cbn [est_ucs_aprobadas e1 con_aprobadas].
    rewrite py_in_app_ultimo. cbn [negb nombre_de].
    erewrite bind_ret by reflexivity. reflexivity.
  - unfold Coordinadora.quitar_uc_aprobada.
    erewrite bind_ret by (apply estudiante_de_Some, He1).
    erewrite bind_ret by (by apply buscar_uc_por_codigo_Some).
    rewrite Huc. cbn [est_ucs_aprobadas e1 con_aprobadas].
    rewrite py_in_app_ultimo.
    erewrite bind_ret by (apply set_ucs_aprobadas_Some, He1).
    cbn [nombre_de]. erewrite bind_ret by reflexivity.
    rewrite py_remove_app_ultimo by done.
    unfold print. f_equal.
    destruct w, e. unfold impreso, set_estudiantes, e1, con_aprobadas. cbn in *.
    rewrite insert_insert_eq, insert_id by done. by rewrite <- app_assoc.
Qed.

Lemma agregar_uc_aprobada_y_quitar_witness :
  let linea := "✔ " +:+ uc_nombre uc1s1 +:+ " fue agregada correctamente a las UCs aprobadas de "
               +:+ est_nombre ana_inicial +:+ "." in
  let w1 := impreso [linea]
              (set_estudiantes
                 <[0%nat := con_aprobadas ana_inicial
                              (est_ucs_aprobadas ana_inicial ++ [Some uc1s1])]> mundo_ana) in
  Coordinadora.agregar_uc_aprobada marta 0 "UC1S1" mundo_ana = (Ret tt, w1) /\
  Coordinadora.agregar_uc_aprobada marta 0 "UC1S1" w1
  = (Ret tt, impreso ["✖ " +:+ est_nombre ana_inicial +:+ " ya había aprobado la UC "
                      +:+ uc_nombre uc1s1 +:+ "."] w1) /\
  Coordinadora.quitar_uc_aprobada marta 0 "UC1S1" w1
  = (Ret tt, impreso [linea; "✔ " +:+ uc_nombre uc1s1
                             +:+ " fue removida de las UCs aprobadas de "
                             +:+ est_nombre ana_inicial +:+ "."] mundo_ana).
Proof.
  apply (agregar_uc_aprobada_y_quitar mundo_ana marta 0 ana_inicial plan0 "UC1S1" uc1s1).
  - vm_compute. reflexivity.
  - vm_compute. reflexivity.
  - vm_compute. reflexivity.
  - vm_compute. reflexivity.
Defined.

(** ** Enrolment in a course *)

Lemma curso_valido_true w c a :
  w_cursos w !! c = Some (CursoValido a) -> Curso.curso_valido c w = (Ret true, w).
Proof. intros H. by rewrite (curso_valido_Some w c (CursoValido a)). Qed.

Lemma append_cursando_Some w s e o :
  w_estudiantes w !! s = Some e ->
  append_cursando s o w
  = (Ret tt, set_estudiantes <[s := con_cursando e (est_ucs_cursando e ++ [o])]> w).
Proof.
  intros H. unfold append_cursando.
  erewrite bind_ret by (by apply estudiante_de_Some).
  by apply set_ucs_cursando_Some.
Qed.

Lemma todos_estudiantes_insert w s e roster :
  todos_estudiantes w roster ->
  todos_estudiantes (set_estudiantes <[s := e]> w) roster.
Proof.
  unfold todos_estudiantes. intros H. eapply Forall_impl; [exact H|].
  intros r Hr. cbn.
  destruct (decide (s = r)) as [->|Hne].
  - rewrite lookup_insert_eq. by eexists.
  - by rewrite lookup_insert_ne.
Qed.

Lemma codigos_app l1 l2 : codigos (l1 ++ l2) = codigos l1 ++ codigos l2.
Proof. unfold codigos. apply omap_app. Qed.

(** X7: a student who may enrol (the unit of the course and its
    prerequisites resolve in the student's plan, [_puede_inscribirse] holds)
    enrols in a valid course on whose roster the student is not.  The unit of
    the course is appended to the units in progress, the student to the
    roster, and the snapshot of the course is rewritten with the new roster.
    Enrolling again only prints that the unit is already in progress. *)
Theorem inscribirse_a_curso_inscribe (w : World) (s c : nat) (e : estudiante)
    (p : plan_de_estudio) (a : curso_attrs) (uc : unidad_curricular) :
  w_estudiantes w !! s = Some e ->
  w_planes w !! est_plan e = Some p ->
  w_cursos w !! c = Some (CursoValido a) ->
  cur_codigo_uc a = uc_codigo (cur_uc a) ->
  PlanDeEstudio.buscar (plan_materias p) (cur_codigo_uc a) = Some uc ->
  resuelven (plan_materias p) (uc_previas uc) ->
  sin_None (est_ucs_aprobadas e) ->
  sin_None (est_ucs_cursando e) ->
  elegible (plan_materias p) e (uc_previas uc) (cur_codigo_uc a) = true ->
  s ∉ cur_estudiantes a ->
  todos_estudiantes w (cur_estudiantes a) ->
  exists w1,
    EstudianteInscripcion.inscribirse_a_curso s c w = (Ret tt, w1) /\
    w_estudiantes w1
    = <[s := con_cursando e (est_ucs_cursando e ++ [Some (cur_uc a)])]> (w_estudiantes w) /\
    w_cursos w1 = <[c := curso_con a s]> (w_cursos w) /\
    inscritos_csv_curso w1 c
    = Some (Py.join ", " (de_cada_uno nombre_y_apellido w1 (cur_estudiantes a ++ [s]))) /\
    EstudianteInscripcion.inscribirse_a_curso s c w1
    = (Ret tt, impreso ["Ya está cursando esta UC."] w1).
Proof.
  intros He Hp Hc Hcoh Hb Hprev Hap Hcu Hel Hin Hros.
  set (e1 := con_cursando e (est_ucs_cursando e ++ [Some (cur_uc a)])).
  set (w0 := set_estudiantes <[s := e1]> w).
  assert (He1 : w_estudiantes w0 !! s = Some e1) by (cbn; apply lookup_insert_eq).
  pose proof (curso_agregar_nuevo_ok w0 c a s e1 Hc He1 Hin
                (todos_estudiantes_insert w s e1 _ Hros)) as Hag.
  eexists. split; [|split; [|split; [|split]]].
  - unfold EstudianteInscripcion.inscribirse_a_curso.
    erewrite bind_ret by (by eapply curso_valido_true). cbn [negb].
    erewrite bind_ret by (by apply curso_attrs_Some).
    destruct (puede_inscribirse_valor w s e p _ uc He Hp Hb Hprev Hap Hcu)
      as (out & Hpu & Hout & _ & _).
    rewrite (Hout Hel), impreso_nil, Hel in Hpu.
    erewrite bind_ret by exact Hpu. cbv beta iota.
    erewrite bind_ret by (by apply curso_attrs_Some).
    erewrite bind_ret by (by apply append_cursando_Some).
    exact Hag.
  - reflexivity.
  - reflexivity.
  - unfold inscritos_csv_curso. cbn. rewrite !lookup_insert_eq. cbn.
    rewrite lookup_insert_eq. reflexivity.
  - match goal with |- _ ?w1 = _ => set (w1' := w1) end.
    assert (Hc1 : w_cursos w1' !! c = Some (curso_con a s)) by (cbn; apply lookup_insert_eq).
    assert (He1' : w_estudiantes w1' !! s = Some e1) by (cbn; apply lookup_insert_eq).
    assert (Hp1 : w_planes w1' !! est_plan e1 = Some p) by exact Hp.
    unfold EstudianteInscripcion.inscribirse_a_curso.
    erewrite bind_ret by (by eapply curso_valido_true). cbn [negb].
    erewrite bind_ret by (by apply curso_attrs_Some).
    cbn [cur_codigo_uc].
    assert (Hcu1 : sin_None (est_ucs_cursando e1)).
    { cbn. apply Forall_app. split; [done|]. apply Forall_singleton. by eexists. }
    destruct (puede_inscribirse_valor w1' s e1 p _ uc He1' Hp1 Hb Hprev Hap Hcu1)
      as (out & Hpu & _ & _ & Hout).
    assert (Hf : faltantes (plan_materias p) (codigos (est_ucs_aprobadas e1)) (uc_previas uc)
                 = []).
    { unfold elegible in Hel. apply andb_true_iff in Hel as [Hel _].
      apply andb_true_iff in Hel as [Hel _]. by apply bool_decide_eq_true_1 in Hel. }
    assert (Hen : cur_codigo_uc a ∈ codigos (est_ucs_cursando e1)).
    { cbn. rewrite codigos_app. apply elem_of_app. right. cbn. rewrite Hcoh. left. }
    rewrite (Hout Hf Hen) in Hpu.
    assert (Hfalse : elegible (plan_materias p) e1 (uc_previas uc) (cur_codigo_uc a) = false).
    { unfold elegible. rewrite (bool_decide_eq_true_2 _ Hen). cbn.
      by rewrite andb_false_r. }
    rewrite Hfalse in Hpu.
    erewrite bind_ret by exact Hpu. reflexivity.
Qed.

Lemma inscribirse_a_curso_inscribe_witness :
  exists w1,
    EstudianteInscripcion.inscribirse_a_curso 0 0 mundo_curso = (Ret tt, w1) /\
    w_estudiantes w1
    = <[0%nat := con_cursando ana_regular
                   (est_ucs_cursando ana_regular ++ [Some (cur_uc attrs_curso0)])]>
        (w_estudiantes mundo_curso) /\
    w_cursos w1 = <[0%nat := curso_con attrs_curso0 0]> (w_cursos mundo_curso) /\
    inscritos_csv_curso w1 0
    = Some (Py.join ", " (de_cada_uno nombre_y_apellido w1 (cur_estudiantes attrs_curso0 ++ [0%nat])))
    /\
    EstudianteInscripcion.inscribirse_a_curso 0 0 w1
    = (Ret tt, impreso ["Ya está cursando esta UC."] w1).
Proof.
  apply (inscribirse_a_curso_inscribe mundo_curso 0 0 ana_regular plan0 attrs_curso0 uc1s2).
  - vm_compute. reflexivity.
  - vm_compute. reflexivity.
  - vm_compute. reflexivity.
  - reflexivity.
  - vm_compute. reflexivity.
  - apply (bool_decide_unpack _). vm_compute. exact I.
  - apply (bool_decide_unpack _). vm_compute. exact I.
  - apply (bool_decide_unpack _). vm_compute. exact I.
  - vm_compute. reflexivity.
  - apply (bool_decide_unpack _). vm_compute. exact I.
  - apply (bool_decide_unpack _). vm_compute. exact I.
Defined.

(** X8: for a student whose approved and in-progress lists hold units
    only, and a valid course whose unit and prerequisites resolve in the
    student's plan, the enrolment made by a staff member is
    the student's own enrolment when the student may enrol; when not, the
    student's own call prints the reason (at least one line) and changes
    nothing, and the staff member's call prints the same lines followed by one
    more that names the student and the course, and changes nothing either. *)
Theorem inscribir_a_curso_es_inscribirse (w : World) (quien : persona) (s c : nat)
    (e : estudiante) (p : plan_de_estudio) (a : curso_attrs) (uc : unidad_curricular) :
  w_estudiantes w !! s = Some e ->
  w_planes w !! est_plan e = Some p ->
  w_cursos w !! c = Some (CursoValido a) ->
  PlanDeEstudio.buscar (plan_materias p) (cur_codigo_uc a) = Some uc ->
  resuelven (plan_materias p) (uc_previas uc) ->
  sin_None (est_ucs_aprobadas e) ->
  sin_None (est_ucs_cursando e) ->
  (elegible (plan_materias p) e (uc_previas uc) (cur_codigo_uc a) = true ->
   Coordinadora.inscribir_a_curso quien s c w
   = EstudianteInscripcion.inscribirse_a_curso s c w) /\
  (elegible (plan_materias p) e (uc_previas uc) (cur_codigo_uc a) = false ->
   exists out,
     out <> [] /\
     EstudianteInscripcion.inscribirse_a_curso s c w = (Ret tt, impreso out w) /\
     Coordinadora.inscribir_a_curso quien s c w
     = (Ret tt, impreso (out ++ [est_nombre e +:+ " no puede inscribirse al curso "
                                 +:+ cur_codigo_uc a]) w)).
Proof.
  intros He Hp Hc Hb Hprev Hap Hcu.
  destruct (puede_inscribirse_valor w s e p _ uc He Hp Hb Hprev Hap Hcu)
    as (out & Hpu & Ht & Hf & _).
  assert (Hpre :
    Coordinadora.inscribir_a_curso quien s c w
    = (a' ← Curso.attrs c "codigo_uc";
       puede ← Estudiante._puede_inscribirse s (cur_codigo_uc a');
       if (puede : bool) then
         a'' ← Curso.attrs c "uc";
         append_cursando s (Some (cur_uc a''));;
         Curso.agregar_estudiante c s
       else
         e' ← estudiante_de s "nombre";
         a'' ← Curso.attrs c "codigo_uc";
         print (est_nombre e' +:+ " no puede inscribirse al curso " +:+ cur_codigo_uc a'')) w).
  { unfold Coordinadora.inscribir_a_curso.
    erewrite bind_ret by apply es_estudiante_eq.
    rewrite bool_decide_eq_true_2 by (by eexists). cbn [negb].
    erewrite bind_ret by reflexivity.
    rewrite bool_decide_eq_true_2 by (by eexists).
    erewrite bind_ret by (by eapply curso_valido_true). reflexivity. }
  rewrite Hpre. clear Hpre.
  unfold EstudianteInscripcion.inscribirse_a_curso.
  erewrite (bind_ret (Curso.curso_valido c)) by (by eapply curso_valido_true). cbn [negb].
  erewrite !(bind_ret (Curso.attrs c "codigo_uc")) by (by apply curso_attrs_Some).
  erewrite !bind_ret by exact Hpu.
  split; intros Hel; rewrite Hel.
  - reflexivity.
  - exists out. split; [by apply Hf|]. split; [reflexivity|].
    erewrite bind_ret; cycle 1.
    { apply estudiante_de_Some. exact He. }
    erewrite bind_ret; cycle 1.
    { apply curso_attrs_Some. exact Hc. }
    unfold print. by rewrite impreso_impreso.
Qed.

(** X9: a course object whose construction failed takes no student: the
    roster operation of the course, the student's own enrolment and the
    enrolment by a staff member each print one line and change no object and
    no file. *)
Theorem curso_invalido_no_inscribe (w : World) (quien : persona) (s c : nat) (e : estudiante) :
  w_cursos w !! c = Some CursoInvalido ->
  w_estudiantes w !! s = Some e ->
  Curso.agregar_estudiante c s w
  = (Ret tt, impreso ["✖ Este curso no es válido. No se puede agregar estudiantes."] w) /\
  EstudianteInscripcion.inscribirse_a_curso s c w
  = (Ret tt, impreso ["Curso no válido."] w) /\
  Coordinadora.inscribir_a_curso quien s c w
  = (Ret tt, impreso ["El curso no es válido."] w) /\
  Curso.mostrar_estudiantes c w
  = (Ret tt, impreso ["✖ Este curso no es válido. No hay estudiantes que mostrar."] w).
Proof.
  intros Hc He. split; [by apply curso_agregar_invalido|]. split; [|split].
  - unfold EstudianteInscripcion.inscribirse_a_curso.
    by erewrite bind_ret by (by apply curso_valido_Some).
  - unfold Coordinadora.inscribir_a_curso.
    erewrite bind_ret by apply es_estudiante_eq.
    rewrite bool_decide_eq_true_2 by (by eexists). cbn [negb].
    erewrite bind_ret by reflexivity.
    rewrite bool_decide_eq_true_2 by (by eexists).
    by erewrite bind_ret by (by apply curso_valido_Some).
  - unfold Curso.mostrar_estudiantes.
    by erewrite bind_ret by (by apply curso_valido_Some).
Qed.

Lemma inscribir_a_curso_es_inscribirse_witness :
  Coordinadora.inscribir_a_curso marta 0 0 mundo_dos_cursos
  = EstudianteInscripcion.inscribirse_a_curso 0 0 mundo_dos_cursos /\
  exists out,
    out <> [] /\
    EstudianteInscripcion.inscribirse_a_curso 0 1 mundo_dos_cursos
    = (Ret tt, impreso out mundo_dos_cursos) /\
    Coordinadora.inscribir_a_curso marta 0 1 mundo_dos_cursos
    = (Ret tt, impreso (out ++ [est_nombre ana_regular +:+ " no puede inscribirse al curso "
                                +:+ cur_codigo_uc attrs_curso1]) mundo_dos_cursos).
Proof.
  split.
  - apply (inscribir_a_curso_es_inscribirse mundo_dos_cursos marta 0 0 ana_regular plan0
             attrs_curso0 uc1s2).
    + vm_compute. reflexivity.
    + vm_compute. reflexivity.
    + vm_compute. reflexivity.
    + vm_compute. reflexivity.
    + apply (bool_decide_unpack _). vm_compute. exact I.
    + apply (bool_decide_unpack _). vm_compute. exact I.
    + apply (bool_decide_unpack _). vm_compute. exact I.
    + vm_compute. reflexivity.
  - apply (inscribir_a_curso_es_inscribirse mundo_dos_cursos marta 0 1 ana_regular plan0
             attrs_curso1 uc2s2).
    + vm_compute. reflexivity.
    + vm_compute. reflexivity.
    + vm_compute. reflexivity.
    + vm_compute. reflexivity.
    + apply (bool_decide_unpack _). vm_compute. exact I.
    + apply (bool_decide_unpack _). vm_compute. exact I.
    + apply (bool_decide_unpack _). vm_compute. exact I.
    + vm_compute. reflexivity.
Defined.

Lemma curso_invalido_no_inscribe_witness :
  Curso.agregar_estudiante 1 0 mundo_curso_invalido
  = (Ret tt, impreso ["✖ Este curso no es válido. No se puede agregar estudiantes."]
               mundo_curso_invalido) /\
  EstudianteInscripcion.inscribirse_a_curso 0 1 mundo_curso_invalido
  = (Ret tt, impreso ["Curso no válido."] mundo_curso_invalido) /\
  Coordinadora.inscribir_a_curso marta 0 1 mundo_curso_invalido
  = (Ret tt, impreso ["El curso no es válido."] mundo_curso_invalido) /\
  Curso.mostrar_estudiantes 1 mundo_curso_invalido
  = (Ret tt, impreso ["✖ Este curso no es válido. No hay estudiantes que mostrar."]
               mundo_curso_invalido).
Proof.
  apply (curso_invalido_no_inscribe mundo_curso_invalido marta 0 1 ana_regular).
  - vm_compute. reflexivity.
  - vm_compute. reflexivity.
Defined.

(** ** Prerequisites that the plan does not have *)

Lemma for_acc_previa_ausente (plan : nat) (p : plan_de_estudio) (aprobadas previas : list string)
    (acc : list uc_o_None) w :
  w_planes w !! plan = Some p ->
  ~ resuelven (plan_materias p) previas ->
  for_acc previas acc (fun faltantes previa_codigo =>
    previa ← PlanDeEstudio.buscar_uc_por_codigo plan previa_codigo;
    c ← codigo_de previa;
    if negb (bool_decide (c ∈ aprobadas))
    then mret (faltantes ++ [previa]) else mret faltantes) w
  = (Raise (Exc AttributeError "'NoneType' object has no attribute 'codigo'"), w).
Proof.
  intros Hp. revert acc. induction previas as [|c r IH]; intros acc Hn.
  - exfalso. apply Hn. constructor.
  - cbn [for_acc].
    destruct (PlanDeEstudio.buscar (plan_materias p) c) as [uc|] eqn:Hb.
    + pose proof (for_acc_faltantes plan p aprobadas [c] acc w Hp) as H1.
      cbn [for_acc] in H1. unfold mbind at 1, M_bind at 1 in H1.
      unfold mbind at 1. unfold M_bind at 1.
      match type of H1 with _ -> match ?m with _ => _ end = _ =>
        destruct m as [[acc'|err] w1] eqn:Em end.
      2:{ assert (Hr1 : resuelven (plan_materias p) [c])
            by (apply Forall_singleton; by eexists).
          by specialize (H1 Hr1). }
      assert (w1 = w) as ->.
      { assert (Hr1 : resuelven (plan_materias p) [c])
          by (apply Forall_singleton; by eexists).
        specialize (H1 Hr1). cbn in H1. by injection H1. }
      apply IH. intros Hr. apply Hn. apply Forall_cons. split; [by eexists|done].
    + erewrite bind_raise; [reflexivity|].
      erewrite bind_ret by (by apply buscar_uc_por_codigo_Some).
      rewrite Hb. reflexivity.
Qed.

(** X10: when some prerequisite code of the wanted unit is not a code of
    the student's plan, the eligibility check raises [AttributeError] (it
    reads [.codigo] of the [None] the lookup returned); it prints nothing and
    changes nothing. *)
Theorem puede_inscribirse_previa_ausente (w : World) (s : nat) (e : estudiante)
    (p : plan_de_estudio) (U : string) (uc : unidad_curricular) :
  w_estudiantes w !! s = Some e ->
  w_planes w !! est_plan e = Some p ->
  PlanDeEstudio.buscar (plan_materias p) U = Some uc ->
  sin_None (est_ucs_aprobadas e) ->
  sin_None (est_ucs_cursando e) ->
  ~ resuelven (plan_materias p) (uc_previas uc) ->
  Estudiante._puede_inscribirse s U w
  = (Raise (Exc AttributeError "'NoneType' object has no attribute 'codigo'"), w).
Proof.
  intros He Hp Huc Hap Hcu Hn. unfold Estudiante._puede_inscribirse.
  erewrite bind_ret by (by apply estudiante_de_Some).
  erewrite bind_ret by (by apply buscar_uc_por_codigo_Some).
  erewrite bind_ret by (by apply comprehension_codigo_de).
  erewrite bind_ret by (by apply comprehension_codigo_de).
  rewrite Huc. cbn [Estudiante.previas_de].
  erewrite bind_ret by reflexivity.
  erewrite bind_raise; [reflexivity|].
  by apply (for_acc_previa_ausente (est_plan e) p).
Qed.

Lemma puede_inscribirse_previa_ausente_witness :
  Estudiante._puede_inscribirse 0 "UC1S2" mundo_previa_ausente
  = (Raise (Exc AttributeError "'NoneType' object has no attribute 'codigo'"),
     mundo_previa_ausente).
Proof.
  apply (puede_inscribirse_previa_ausente mundo_previa_ausente 0 ana_inicial plan_sin_uc1s1
           "UC1S2" uc1s2).
  - vm_compute. reflexivity.
  - vm_compute. reflexivity.
  - vm_compute. reflexivity.
  - apply (bool_decide_unpack _). vm_compute. exact I.
  - apply (bool_decide_unpack _). vm_compute. exact I.
  - apply (bool_decide_unpack _). vm_compute. exact I.
Defined.

(** ** Exam registration by a staff member *)

Lemma inscribirse_a_examen_regular w s x e ex :
  w_estudiantes w !! s = Some e ->
  w_examenes w !! x = Some ex ->
  sin_None (est_ucs_regulares e) ->
  todos_estudiantes w (ex_estudiantes ex) ->
  ex_codigo_uc ex ∈ codigos (est_ucs_regulares e) ->
  exists w', EstudianteInscripcion.inscribirse_a_examen s x w = (Ret tt, w') /\
             s ∈ alumnos_examen w' x.
Proof.
  intros Hs Hx Hreg Hros Hin.
  pose proof (primera_o_error_sin_None (ex_codigo_uc ex) _ Hreg) as Hpe.
  apply primera_con_codigo_Some in Hin as [u Hu]. rewrite Hu in Hpe.
  unfold EstudianteInscripcion.inscribirse_a_examen.
  erewrite bind_ret by reflexivity. rewrite Hx.
  erewrite bind_ret by (by apply estudiante_de_Some).
  assert (Hag : exists w1, InstanciaDeExamen.agregar_estudiante x s w = (Ret tt, w1)
                           /\ s ∈ alumnos_examen w1 x).
  { destruct (decide (s ∈ ex_estudiantes ex)) as [Hi|Hi].
    - eexists. split; [by apply (examen_agregar_ya_inscrito w x ex s e u)|].
      unfold alumnos_examen. cbn. by rewrite Hx.
    - eexists. split; [by apply (examen_agregar_nuevo w x ex s e u)|].
      unfold alumnos_examen. cbn. rewrite lookup_insert_eq. cbn.
      apply elem_of_app. right. left. }
  destruct Hag as (w1 & Hw1 & Hin1).
  exists (impreso ["Estas inscripto al examen de " +:+ uc_nombre u] w1). split; [|exact Hin1].
  erewrite bind_ret; cycle 1.
  { rewrite for_return_primera; [rewrite Hu| done |].
    - erewrite bind_ret by exact Hw1. cbn [nombre_de].
      erewrite bind_ret by reflexivity. reflexivity.
    - intros u0 w0. unfold mbind, M_bind.
      destruct (InstanciaDeExamen.agregar_estudiante x s w0) as [[[]|?] ?]; done. }
  reflexivity.
Qed.

(** X11: a staff member registers a student for an exam sitting.  When
    the unit code of the exam is not in the student's plan, the call raises
    [AttributeError] and changes nothing.  When the code resolves to a unit
    that is not, as an object, in the student's regular list, the call prints
    the not-regular line and changes nothing.  When that unit is in the
    regular list, the call is the student's own registration; for a student
    whose regular list holds units only and an exam whose roster holds
    students, that registration returns and leaves the student on the roster
    of the exam. *)
Theorem inscribir_a_examen_del_personal (w : World) (quien : persona) (s x : nat)
    (e : estudiante) (ex : instancia_de_examen) (p : plan_de_estudio) :
  w_estudiantes w !! s = Some e ->
  w_examenes w !! x = Some ex ->
  w_planes w !! est_plan e = Some p ->
  (PlanDeEstudio.buscar (plan_materias p) (ex_codigo_uc ex) = None ->
   Coordinadora.inscribir_a_examen quien s x w
   = (Raise (Exc AttributeError "'NoneType' object has no attribute 'codigo'"), w)) /\
  (forall uc,
     PlanDeEstudio.buscar (plan_materias p) (ex_codigo_uc ex) = Some uc ->
     py_in (Some uc) (est_ucs_regulares e) = false ->
     Coordinadora.inscribir_a_examen quien s x w
     = (Ret tt, impreso [est_nombre e +:+ " no está regular en la UC " +:+ ex_codigo_uc ex
                         +:+ ", no puede inscribirse al examen."] w)) /\
  (forall uc,
     PlanDeEstudio.buscar (plan_materias p) (ex_codigo_uc ex) = Some uc ->
     Some uc ∈ est_ucs_regulares e ->
     Coordinadora.inscribir_a_examen quien s x w
     = EstudianteInscripcion.inscribirse_a_examen s x w /\
     (sin_None (est_ucs_regulares e) ->
      todos_estudiantes w (ex_estudiantes ex) ->
      exists w', EstudianteInscripcion.inscribirse_a_examen s x w = (Ret tt, w') /\
                 s ∈ alumnos_examen w' x)).
Proof.
  intros He Hx Hp.
  assert (Hpre : Coordinadora.inscribir_a_examen quien s x w
    = (let uc := PlanDeEstudio.buscar (plan_materias p) (ex_codigo_uc ex) in
       if bool_decide (is_Some uc) && py_in uc (est_ucs_regulares e) then
         EstudianteInscripcion.inscribirse_a_examen s x
       else
         c ← codigo_de uc;
         print (est_nombre e +:+ " no está regular en la UC " +:+ c
                +:+ ", no puede inscribirse al examen.")) w).
  { unfold Coordinadora.inscribir_a_examen.
    erewrite bind_ret by apply es_estudiante_eq.
    rewrite bool_decide_eq_true_2 by (by eexists).
    erewrite bind_ret by (by apply estudiante_de_Some).
    erewrite bind_ret by (by apply examen_de_Some).
    erewrite bind_ret by (by apply buscar_uc_por_codigo_Some). reflexivity. }
  rewrite Hpre. clear Hpre. cbn zeta. split; [|split].
  - intros ->. reflexivity.
  - intros uc Hb Hin. rewrite Hb, Hin, andb_false_r. cbn [codigo_de].
    erewrite bind_ret by reflexivity. by rewrite (buscar_codigo _ _ _ Hb).
  - intros uc Hb Hin. rewrite Hb, (py_in_elem _ _ Hin).
    rewrite bool_decide_eq_true_2 by (by eexists). cbn [andb]. split; [done|].
    intros Hreg Hros.
    apply (inscribirse_a_examen_regular w s x e ex); try done.
    rewrite <- (buscar_codigo _ _ _ Hb). unfold codigos.
    apply list_elem_of_omap. exists (Some uc). by split.
Qed.

Lemma inscribir_a_examen_del_personal_witness :
  Coordinadora.inscribir_a_examen marta 0 2 mundo_tres_examenes
  = (Ret tt, impreso [est_nombre ana_regular +:+ " no está regular en la UC "
                      +:+ ex_codigo_uc examen2 +:+ ", no puede inscribirse al examen."]
               mundo_tres_examenes) /\
  (Coordinadora.inscribir_a_examen marta 0 0 mundo_tres_examenes
   = EstudianteInscripcion.inscribirse_a_examen 0 0 mundo_tres_examenes /\
   exists w', EstudianteInscripcion.inscribirse_a_examen 0 0 mundo_tres_examenes = (Ret tt, w')
              /\ 0 ∈ alumnos_examen w' 0).
Proof.
  split.
  - apply (inscribir_a_examen_del_personal mundo_tres_examenes marta 0 2 ana_regular examen2
             plan0) with (uc := uc1s2).
    + vm_compute. reflexivity.
    + vm_compute. reflexivity.
    + vm_compute. reflexivity.
    + vm_compute. reflexivity.
    + vm_compute. reflexivity.
  - destruct (inscribir_a_examen_del_personal mundo_tres_examenes marta 0 0 ana_regular examen0
                plan0) as (_ & _ & Hreg).
    + vm_compute. reflexivity.
    + vm_compute. reflexivity.
    + vm_compute. reflexivity.
    + destruct (Hreg uc2s1) as [Higual Hdentro].
      * vm_compute. reflexivity.
      * left.
      * split; [exact Higual|]. apply Hdentro.
        -- apply (bool_decide_unpack _). vm_compute. exact I.
        -- apply (bool_decide_unpack _). vm_compute. exact I.
Defined.

(** ** Creation of courses and exam sittings *)

(** X12: [crear_curso] returns [None] exactly when one of the checks of
    the construction fails: it then prints the message of the first failing
    check and the could-not-create line, writes no file and leaves in the
    store only the unusable course object.  Otherwise it returns the new
    course, valid, with an empty roster and its first snapshot written. *)
Theorem crear_curso_resultado (w : World) (quien : persona)
    (codigo_uc año semestre : PyVal) (plan : nat) :
  let self := fresh (dom (w_cursos w)) in
  match validacion_en_orden codigo_uc año semestre (w_planes w !! plan) with
  | inl mensaje =>
      Coordinadora.crear_curso quien codigo_uc año semestre plan w
      = (Ret None,
         impreso ["✖ Error al crear el curso: " +:+ mensaje; "No se pudo crear el curso."]
           (set_cursos <[self := CursoInvalido]> w))
  | inr uc =>
      exists w',
        Coordinadora.crear_curso quien codigo_uc año semestre plan w = (Ret (Some self), w') /\
        w_cursos w' !! self = Some (CursoValido (attrs_iniciales uc año semestre)) /\
        alumnos_curso w' self = [] /\
        inscritos_csv_curso w' self = Some ""
  end.
Proof.
  cbn zeta. pose proof (curso_init_en_orden codigo_uc año semestre plan w) as H.
  cbn zeta in H. unfold Coordinadora.crear_curso.
  destruct (validacion_en_orden codigo_uc año semestre (w_planes w !! plan)) as [msg|uc].
  - erewrite bind_ret by exact H.
    erewrite bind_ret; cycle 1.
    { apply (curso_valido_Some _ _ CursoInvalido). cbn. apply lookup_insert_eq. }
    cbv beta iota. erewrite bind_ret by reflexivity.
    unfold mret, M_ret. f_equal.
    destruct w. unfold impreso, set_cursos. cbn.
    rewrite insert_insert_eq. by rewrite <- app_assoc.
  - destruct H as (w' & Hi & Hc & Hf). exists w'.
    split; [|split; [exact Hc|split]].
    + erewrite bind_ret by exact Hi.
      erewrite bind_ret by (by eapply curso_valido_true). reflexivity.
    + unfold alumnos_curso. by rewrite Hc.
    + unfold inscritos_csv_curso. rewrite Hc, Hf. reflexivity.
Qed.

Lemma examen_init_mundo w codigo_uc fecha hora :
  let self := fresh (dom (w_examenes w)) in
  let ex := InstanciaDeExamen_ codigo_uc fecha hora [] in
  InstanciaDeExamen.__init__ codigo_uc fecha hora w
  = (Ret self,
     impreso ["Examen para UC " +:+ codigo_uc +:+ " creado en el archivo "
              +:+ InstanciaDeExamen.archivo_de ex +:+ " con éxito."]
       (set_archivos
          <[InstanciaDeExamen.archivo_de ex :=
              [InstanciaDeExamen.encabezado; [codigo_uc; fecha +:+ " " +:+ hora; ""]]]>
          (set_examenes <[self := ex]> w))).
Proof.
  cbn zeta. unfold InstanciaDeExamen.__init__.
  erewrite bind_ret by reflexivity.
  erewrite bind_ret by reflexivity.
  set (self := fresh (dom (w_examenes w))).
  set (ex := InstanciaDeExamen_ codigo_uc fecha hora []).
  assert (Hx : w_examenes (set_examenes <[self := ex]> w) !! self = Some ex)
    by (cbn; apply lookup_insert_eq).
  erewrite bind_ret; [reflexivity|].
  unfold InstanciaDeExamen.generar_csv.
  erewrite bind_ret; cycle 1.
  { apply (examen_escribir_csv_ok _ self ex Hx). constructor. }
  erewrite bind_ret; cycle 1.
  { apply examen_de_Some. exact Hx. }
  reflexivity.
Qed.


Lemma crear_instancia_examen_mundo w quien plan p codigo_uc fecha hora :
  w_planes w !! plan = Some p ->
  codigo_uc ∈ codigos_de (plan_materias p) ->
  Coordinadora.crear_instancia_examen quien codigo_uc fecha hora plan w
  = (Ret (Some (fresh (dom (w_examenes w)))),
     impreso ["Examen para UC " +:+ codigo_uc +:+ " creado en el archivo "
              +:+ InstanciaDeExamen.archivo_de (InstanciaDeExamen_ codigo_uc fecha hora [])
              +:+ " con éxito."]
       (set_archivos
          <[InstanciaDeExamen.archivo_de (InstanciaDeExamen_ codigo_uc fecha hora []) :=
              [InstanciaDeExamen.encabezado; [codigo_uc; fecha +:+ " " +:+ hora; ""]]]>
          (set_examenes
             <[fresh (dom (w_examenes w)) := InstanciaDeExamen_ codigo_uc fecha hora []]> w))).
Proof.
  intros Hp Hin. unfold Coordinadora.crear_instancia_examen.
  destruct (PlanDeEstudio.buscar (plan_materias p) codigo_uc) as [uc|] eqn:Hb.
  2:{ apply buscar_None_codigos in Hb. done. }
  erewrite bind_ret by (by apply buscar_uc_por_codigo_Some). rewrite Hb.
  erewrite bind_ret by apply examen_init_mundo. reflexivity.
Qed.

(** X14: the snapshot file of an exam sitting is named after the unit code
    and the date only.  Creating a sitting of a unit on a date for which a
    sitting already exists, at whatever hour, rewrites the file they share:
    the roster of the earlier sitting is kept in memory, but the
    enrolled-students field of its snapshot is empty afterwards. *)
Theorem examenes_comparten_archivo (w : World) (quien : persona) (plan : nat)
    (p : plan_de_estudio) (codigo_uc fecha hora : string) (x1 : nat)
    (ex1 : instancia_de_examen) :
  w_planes w !! plan = Some p ->
  codigo_uc ∈ codigos_de (plan_materias p) ->
  w_examenes w !! x1 = Some ex1 ->
  ex_codigo_uc ex1 = codigo_uc ->
  ex_fecha ex1 = fecha ->
  let w' := despues (Coordinadora.crear_instancia_examen quien codigo_uc fecha hora plan) w in
  alumnos_examen w' x1 = ex_estudiantes ex1 /\
  inscritos_csv_examen w' x1 = Some "".
Proof.
  intros Hp Hin Hx Hc Hf. cbn zeta. unfold despues.
  rewrite (crear_instancia_examen_mundo w quien plan p codigo_uc fecha hora Hp Hin).
  cbn [snd].
  assert (Hne : fresh (dom (w_examenes w)) <> x1).
  { intros E. pose proof (is_fresh (dom (w_examenes w))) as Hfr. rewrite E in Hfr.
    apply Hfr. apply elem_of_dom. by eexists. }
  unfold alumnos_examen, inscritos_csv_examen. cbn.
  rewrite lookup_insert_ne by done. rewrite Hx. cbn. split; [done|].
  unfold InstanciaDeExamen.archivo_de. cbn. rewrite Hc, Hf.
  rewrite lookup_insert_eq. reflexivity.
Qed.

(** ** Rosters only grow, and by whom *)




Lemma examenes_comparten_archivo_witness :
  let w' := despues (Coordinadora.crear_instancia_examen marta "UC2S1" "2024-07-01" "15:00" 0)
              mundo_examen_ana in
  alumnos_examen w' 0 = ex_estudiantes (examen_con examen0 0) /\
  inscritos_csv_examen w' 0 = Some "".
Proof.
  apply (examenes_comparten_archivo mundo_examen_ana marta 0 plan0 "UC2S1" "2024-07-01" "15:00"
           0 (examen_con examen0 0)).
  - vm_compute. reflexivity.
  - apply (bool_decide_unpack _). vm_compute. exact I.
  - vm_compute. reflexivity.
  - reflexivity.
  - reflexivity.
Defined.

(** ** Names *)

Lemma isspace_upper_c c : Py.isspace (Py.upper_c c) = Py.isspace c.
Proof. destruct c as [[] [] [] [] [] [] [] []]; reflexivity. Qed.

Lemma isspace_lower_c c : Py.isspace (Py.lower_c c) = Py.isspace c.
Proof. destruct c as [[] [] [] [] [] [] [] []]; reflexivity. Qed.

Lemma iscased_upper_c c : Py.iscased (Py.upper_c c) = Py.iscased c.
Proof. destruct c as [[] [] [] [] [] [] [] []]; reflexivity. Qed.

Lemma iscased_lower_c c : Py.iscased (Py.lower_c c) = Py.iscased c.
Proof. destruct c as [[] [] [] [] [] [] [] []]; reflexivity. Qed.

Lemma upper_c_upper_c c : Py.upper_c (Py.upper_c c) = Py.upper_c c.
Proof. destruct c as [[] [] [] [] [] [] [] []]; reflexivity. Qed.

Lemma lower_c_lower_c c : Py.lower_c (Py.lower_c c) = Py.lower_c c.
Proof. destruct c as [[] [] [] [] [] [] [] []]; reflexivity. Qed.

Lemma title_from_idem b s : Py.title_from b (Py.title_from b s) = Py.title_from b s.
Proof.
  revert b. induction s as [|c r IH]; intros b; [done|]. cbn.
  destruct (Py.iscased c) eqn:Ec; cbn.
  - destruct b.
    + by rewrite iscased_lower_c, Ec, lower_c_lower_c, IH.
    + by rewrite iscased_upper_c, Ec, upper_c_upper_c, IH.
  - by rewrite Ec, IH.
Qed.

Lemma title_from_nil b s : Py.title_from b s = "" <-> s = "".
Proof. destruct s as [|c r]; cbn; [done|]. by destruct (Py.iscased c). Qed.

Lemma lstrip_title_from s :
  Py.lstrip_by Py.isspace (Py.title_from false s)
  = Py.title_from false (Py.lstrip_by Py.isspace s).
Proof.
  induction s as [|c r IH]; [done|]. cbn.
  destruct (Py.iscased c) eqn:Ec; cbn.
  - rewrite isspace_upper_c.
    destruct (Py.isspace c) eqn:Es.
    + exfalso. clear -Ec Es. by destruct c as [[] [] [] [] [] [] [] []].
    + cbn. by rewrite Ec.
  - destruct (Py.isspace c) eqn:Es; [done|]. cbn. by rewrite Ec.
Qed.

Lemma rstrip_title_from b s :
  Py.rstrip_by Py.isspace (Py.title_from b s)
  = Py.title_from b (Py.rstrip_by Py.isspace s).
Proof.
  revert b. induction s as [|c r IH]; intros b; [done|]. cbn.
  destruct (Py.iscased c) eqn:Ec; cbn.
  - rewrite IH.
    assert (Es : Py.isspace c = false).
    { clear -Ec. by destruct c as [[] [] [] [] [] [] [] []]. }
    destruct (Py.rstrip_by Py.isspace r) as [|c' r'] eqn:Er; cbn.
    + destruct b; rewrite ?isspace_lower_c, ?isspace_upper_c, Es; cbn; by rewrite Ec.
    + rewrite Ec. by destruct (Py.iscased c').
  - rewrite IH.
    destruct (Py.rstrip_by Py.isspace r) as [|c' r'] eqn:Er; cbn.
    + destruct (Py.isspace c); [done|]. cbn. by rewrite Ec.
    + rewrite Ec. by destruct (Py.iscased c').
Qed.

Lemma strip_title s : Py.strip (Py.title s) = Py.title (Py.strip s).
Proof. unfold Py.strip, Py.title. by rewrite lstrip_title_from, rstrip_title_from. Qed.

Lemma lstrip_idem sp s : Py.lstrip_by sp (Py.lstrip_by sp s) = Py.lstrip_by sp s.
Proof.
  induction s as [|c r IH]; [done|]. cbn.
  destruct (sp c) eqn:E; [done|]. cbn. by rewrite E.
Qed.

Lemma rstrip_idem sp s : Py.rstrip_by sp (Py.rstrip_by sp s) = Py.rstrip_by sp s.
Proof.
  induction s as [|c r IH]; [done|]. cbn.
  destruct (Py.rstrip_by sp r) as [|c' r'] eqn:Er.
  - destruct (sp c) eqn:E; [done|]. cbn. by rewrite E.
  - change (Py.rstrip_by sp (String c (String c' r')))
      with (match Py.rstrip_by sp (String c' r') with
            | EmptyString => if sp c then EmptyString else String c EmptyString
            | String c2 r2 => String c (String c2 r2)
            end).
    by rewrite IH.
Qed.

Lemma lstrip_rstrip sp s :
  Py.lstrip_by sp (Py.rstrip_by sp s) = Py.rstrip_by sp (Py.lstrip_by sp s).
Proof.
  induction s as [|c r IH]; [done|]. cbn.
  destruct (sp c) eqn:E.
  - destruct (Py.rstrip_by sp r) as [|c' r'] eqn:Er.
    + rewrite <- IH. done.
    + cbn. rewrite E. by rewrite <- IH.
  - cbn. destruct (Py.rstrip_by sp r) as [|c' r'] eqn:Er; cbn; by rewrite E.
Qed.

Lemma strip_idem s : Py.strip (Py.strip s) = Py.strip s.
Proof.
  unfold Py.strip. by rewrite lstrip_rstrip, lstrip_idem, rstrip_idem.
Qed.

Lemma normalizado_estable s :
  Py.strip s <> "" ->
  Py.strip (Py.title (Py.strip s)) = Py.title (Py.strip s) /\
  Py.title (Py.strip s) <> "" /\
  Py.title (Py.strip (Py.title (Py.strip s))) = Py.title (Py.strip s).
Proof.
  intros Hs. rewrite strip_title, strip_idem. split; [done|]. split.
  - unfold Py.title. by rewrite title_from_nil.
  - unfold Py.title. apply title_from_idem.
Qed.

Lemma ascii_upper_c c : ascii_c c = true -> ascii_c (Py.upper_c c) = true.
Proof. destruct c as [[] [] [] [] [] [] [] []]; by vm_compute. Qed.

Lemma ascii_lower_c c : ascii_c c = true -> ascii_c (Py.lower_c c) = true.
Proof. destruct c as [[] [] [] [] [] [] [] []]; by vm_compute. Qed.

Lemma es_ascii_lstrip sp s : es_ascii s = true -> es_ascii (Py.lstrip_by sp s) = true.
Proof.
  induction s as [|c r IH]; [done|]. intros H. cbn [Py.lstrip_by].
  destruct (sp c); [|done]. apply IH.
  cbn [es_ascii] in H. by apply andb_true_iff in H as [_ H].
Qed.

Lemma es_ascii_rstrip sp s : es_ascii s = true -> es_ascii (Py.rstrip_by sp s) = true.
Proof.
  induction s as [|c r IH]; [done|]. intros H.
  cbn [es_ascii] in H. apply andb_true_iff in H as [Hc Hr].
  specialize (IH Hr). cbn [Py.rstrip_by].
  destruct (Py.rstrip_by sp r) as [|c' r'].
  - destruct (sp c); [done|]. cbn [es_ascii]. by rewrite Hc.
  - cbn [es_ascii] in *. by rewrite Hc, IH.
Qed.

Lemma es_ascii_strip s : es_ascii s = true -> es_ascii (Py.strip s) = true.
Proof. intros H. unfold Py.strip. by apply es_ascii_rstrip, es_ascii_lstrip. Qed.

Lemma es_ascii_title_from b s : es_ascii s = true -> es_ascii (Py.title_from b s) = true.
Proof.
  revert b. induction s as [|c r IH]; [done|]. intros b H.
  cbn [es_ascii] in H. apply andb_true_iff in H as [Hc Hr].
  cbn [Py.title_from]. destruct (Py.iscased c); cbn [es_ascii].
  - rewrite (IH _ Hr), andb_true_r.
    destruct b; [by apply ascii_lower_c | by apply ascii_upper_c].
  - by rewrite Hc, (IH _ Hr).
Qed.

(** X16: for names of ASCII characters, the names that the construction
    of a person stores are normalised for good: they are ASCII again, neither
    is empty, neither begins or ends with a blank, and building a person again
    from the stored names gives the same names. *)
Theorem persona_nombres_normalizados (nombre apellido : string) (p : persona) :
  es_ascii nombre = true ->
  es_ascii apellido = true ->
  Persona.__init__ (PStr nombre) (PStr apellido) = Ret p ->
  es_ascii (per_nombre p) = true /\ es_ascii (per_apellido p) = true /\
  per_nombre p <> "" /\ Py.strip (per_nombre p) = per_nombre p /\
  per_apellido p <> "" /\ Py.strip (per_apellido p) = per_apellido p /\
  Persona.__init__ (PStr (per_nombre p)) (PStr (per_apellido p)) = Ret p.
Proof.
  unfold Persona.__init__. intros Hna Haa H.
  destruct (String.eqb_spec (Py.strip nombre) "") as [En|En]; [done|].
  destruct (String.eqb_spec (Py.strip apellido) "") as [Ea|Ea]; [done|].
  injection H as <-. cbn [per_nombre per_apellido].
  destruct (normalizado_estable nombre En) as (Hn1 & Hn2 & Hn3).
  destruct (normalizado_estable apellido Ea) as (Ha1 & Ha2 & Ha3).
  split; [by apply es_ascii_title_from, es_ascii_strip|].
  split; [by apply es_ascii_title_from, es_ascii_strip|].
  repeat split; try done.
  rewrite Hn1, Ha1.
  destruct (String.eqb_spec (Py.title (Py.strip nombre)) "") as [E|_]; [done|].
  destruct (String.eqb_spec (Py.title (Py.strip apellido)) "") as [E|_]; [done|].
  f_equal. f_equal.
  - rewrite <- Hn1 at 1. exact Hn3.
  - rewrite <- Ha1 at 1. exact Ha3.
Qed.

Lemma persona_nombres_normalizados_witness :
  es_ascii (per_nombre marta) = true /\ es_ascii (per_apellido marta) = true /\
  per_nombre marta <> "" /\ Py.strip (per_nombre marta) = per_nombre marta /\
  per_apellido marta <> "" /\ Py.strip (per_apellido marta) = per_apellido marta /\
  Persona.__init__ (PStr (per_nombre marta)) (PStr (per_apellido marta)) = Ret marta.
Proof.
  apply (persona_nombres_normalizados "  mARTA " "gomez").
  - vm_compute. reflexivity.
  - vm_compute. reflexivity.
  - vm_compute. reflexivity.
Defined.

(** ** Construction of persons and students *)

(** X17: the constructor of Persona.py and the constructor of a student
    accept the same names and ids and fail with the same [ValueError]; when
    they succeed they store the same names, but Persona.py stores the integer
    that [int()] gives for the id, where the student keeps the value that was
    passed. *)
Theorem persona_py_y_estudiante (nombre apellido cedula año_ingreso : PyVal) (plan : nat)
    (w : World) :
  match PersonaPy.__init__ nombre apellido cedula with
  | Ret pc =>
      exists self w' e,
        Estudiante.__init__ nombre apellido cedula año_ingreso plan w = (Ret self, w') /\
        w_estudiantes w' !! self = Some e /\
        est_nombre e = pc_nombre pc /\ est_apellido e = pc_apellido pc /\
        est_cedula e = cedula /\ py_int cedula = Ret (PersonaPy.cedula pc)
  | Raise err =>
      Estudiante.__init__ nombre apellido cedula año_ingreso plan w = (Raise err, w)
  end.
Proof.
  unfold PersonaPy.__init__, Estudiante.__init__, Persona.__init__, lift.
  destruct nombre as [| | |n|]; try reflexivity.
  destruct (String.eqb (Py.strip n) ""); [reflexivity|].
  destruct apellido as [| | |a|]; try reflexivity.
  destruct (String.eqb (Py.strip a) ""); [reflexivity|].
  erewrite bind_ret by reflexivity.
  destruct (py_int cedula) as [z|err]; [|reflexivity].
  eexists _, _, _. split; [reflexivity|]. cbn. rewrite lookup_insert_eq.
  by repeat split.
Qed.

(** X18: a student comes out of the constructor with a reference no
    student had, empty lists, and no other change to the world; such a
    student may enrol in a unit of the plan (whose prerequisites resolve)
    exactly when the unit has no prerequisites. *)
Theorem estudiante_nuevo (nombre apellido cedula año_ingreso : PyVal) (plan : nat)
    (w w' : World) (self : nat) (p : plan_de_estudio) (U : string) (uc : unidad_curricular) :
  Estudiante.__init__ nombre apellido cedula año_ingreso plan w = (Ret self, w') ->
  w_planes w !! plan = Some p ->
  PlanDeEstudio.buscar (plan_materias p) U = Some uc ->
  resuelven (plan_materias p) (uc_previas uc) ->
  w_estudiantes w !! self = None /\
  (exists n a, w' = set_estudiantes
                      <[self := Estudiante_ n a cedula año_ingreso plan [] [] [] []]> w) /\
  exists out,
    Estudiante._puede_inscribirse self U w'
    = (Ret (bool_decide (uc_previas uc = [])), impreso out w').
Proof.
  unfold Estudiante.__init__, lift. intros H Hp Hb Hr.
  destruct (Persona.__init__ nombre apellido) as [pe|err] eqn:Ep; [|done].
  erewrite bind_ret in H by reflexivity.
  destruct (py_int cedula) as [z|err]; [|done].
  cbv [mbind M_bind mret M_ret get modify] in H. injection H as <- <-.
  split; [apply not_elem_of_dom, is_fresh|]. split; [by eexists _, _|].
  set (self := fresh (dom (w_estudiantes w))).
  set (e := Estudiante_ (per_nombre pe) (per_apellido pe) cedula año_ingreso plan [] [] [] []).
  assert (He : w_estudiantes (set_estudiantes <[self := e]> w) !! self = Some e)
    by (cbn; apply lookup_insert_eq).
  destruct (puede_inscribirse_valor (set_estudiantes <[self := e]> w) self e p U uc He Hp Hb Hr)
    as (out & Hpu & _); [constructor|constructor|].
  exists out. rewrite Hpu. f_equal. f_equal.
  unfold elegible, faltantes. cbn.
  rewrite !(bool_decide_eq_false_2 (U ∈ [])) by apply not_elem_of_nil. cbn.
  rewrite andb_true_r.
  assert (Hf : filter (fun c : string => c ∉ []) (uc_previas uc) = uc_previas uc).
  { clear. induction (uc_previas uc) as [|c l IH]; [done|].
    rewrite filter_cons_True by apply not_elem_of_nil. by rewrite IH. }
  rewrite Hf. destruct (uc_previas uc); [done|].
  transitivity false.
  - rewrite andb_true_r. apply bool_decide_eq_false_2. by rewrite fmap_cons.
  - symmetry. by apply bool_decide_eq_false_2.
Qed.

Lemma estudiante_nuevo_witness :
  w_estudiantes mundo_plan !! 0%nat = None /\
  (exists n a, mundo_ana = set_estudiantes
                             <[0%nat := Estudiante_ n a (PStr "42") (PInt 2024) 0 [] [] [] []]>
                             mundo_plan) /\
  exists out,
    Estudiante._puede_inscribirse 0 "UC1S2" mundo_ana
    = (Ret (bool_decide (uc_previas uc1s2 = [])), impreso out mundo_ana).
Proof.
  apply (estudiante_nuevo (PStr " ana ") (PStr "perez") (PStr "42") (PInt 2024) 0 mundo_plan
           mundo_ana 0 plan0 "UC1S2" uc1s2).
  - vm_compute. reflexivity.
  - vm_compute. reflexivity.
  - vm_compute. reflexivity.
  - apply (bool_decide_unpack _). vm_compute. exact I.
Defined.

(** ** Loading a plan *)

Lemma con_plan_con_plan w self p1 o1 p2 o2 :
  con_plan (con_plan w self p1 o1) self p2 o2 = con_plan w self p2 o2.
Proof. unfold con_plan. cbn. by rewrite insert_insert_eq. Qed.

Lemma con_plan_id w self p :
  w_planes w !! self = Some p -> con_plan w self p (w_oid w) = w.
Proof. intros H. destruct w. unfold con_plan. cbn in *. by rewrite insert_id. Qed.

Lemma cargar_una w self nombre ms codigo materia :
  w_planes w !! self = Some (PlanDeEstudio_ nombre ms) ->
  (uc ← PlanDeEstudio.nueva_uc codigo (mj_nombre materia) (mj_creditos materia)
          (mj_previas materia);
   PlanDeEstudio._agregar_materia self uc) w
  = (Ret tt, con_plan w self (PlanDeEstudio_ nombre (ms ++ numerar (w_oid w) [(codigo, materia)]))
               (S (w_oid w))).
Proof.
  intros Hp. unfold PlanDeEstudio.nueva_uc.
  erewrite bind_ret; cycle 1.
  { erewrite bind_ret by reflexivity. erewrite bind_ret by reflexivity. reflexivity. }
  unfold PlanDeEstudio._agregar_materia, PlanDeEstudio.set_materias.
  erewrite bind_ret by (by apply plan_de_Some).
  erewrite bind_ret by (by apply plan_de_Some).
  reflexivity.
Qed.

Lemma numerar_app oid l1 l2 :
  numerar oid (l1 ++ l2) = numerar oid l1 ++ numerar (oid + length l1) l2.
Proof.
  revert oid. induction l1 as [|[c m] l1 IH]; intros oid; cbn.
  - by rewrite Nat.add_0_r.
  - rewrite IH. do 3 f_equal. lia.
Qed.

Lemma cargar_semestre w self nombre ms (materias : list (string * materia_json)) :
  w_planes w !! self = Some (PlanDeEstudio_ nombre ms) ->
  for_each materias (fun '(codigo, materia) =>
    uc ← PlanDeEstudio.nueva_uc codigo (mj_nombre materia) (mj_creditos materia)
           (mj_previas materia);
    PlanDeEstudio._agregar_materia self uc) w
  = (Ret tt, con_plan w self (PlanDeEstudio_ nombre (ms ++ numerar (w_oid w) materias))
               (w_oid w + length materias)).
Proof.
  revert w ms. induction materias as [|[c m] r IH]; intros w ms Hp.
  - cbn. rewrite app_nil_r, Nat.add_0_r. by rewrite con_plan_id.
  - cbn [for_each].
    erewrite bind_ret by (by apply (cargar_una w self nombre ms)).
    rewrite (IH _ (ms ++ numerar (w_oid w) [(c, m)])) by (cbn; apply lookup_insert_eq).
    rewrite con_plan_con_plan. cbn [w_oid con_plan numerar length].
    rewrite <- app_assoc. cbn. do 3 f_equal. lia.
Qed.

Lemma cargar_datos w self nombre ms (datos : plan_json) :
  w_planes w !! self = Some (PlanDeEstudio_ nombre ms) ->
  for_each datos (fun '(semestre, materias) =>
    for_each materias (fun '(codigo, materia) =>
      uc ← PlanDeEstudio.nueva_uc codigo (mj_nombre materia) (mj_creditos materia)
             (mj_previas materia);
      PlanDeEstudio._agregar_materia self uc)) w
  = (Ret tt, con_plan w self (PlanDeEstudio_ nombre (ms ++ numerar (w_oid w) (entradas datos)))
               (w_oid w + length (entradas datos))).
Proof.
  revert w ms. induction datos as [|[sem mats] r IH]; intros w ms Hp.
  - cbn. rewrite app_nil_r, Nat.add_0_r. by rewrite con_plan_id.
  - cbn [for_each].
    erewrite bind_ret by (by apply (cargar_semestre w self nombre ms)).
    rewrite (IH _ (ms ++ numerar (w_oid w) mats)) by (cbn; apply lookup_insert_eq).
    rewrite con_plan_con_plan. cbn [w_oid con_plan].
    unfold entradas. cbn [flat_map snd]. rewrite numerar_app, length_app.
    rewrite <- app_assoc. by rewrite Nat.add_assoc.
Qed.

Lemma numerar_codigos oid l : codigos_de (numerar oid l) = l.*1.
Proof.
  revert oid. induction l as [|[c m] l IH]; intros oid; [done|].
  cbn. f_equal. apply IH.
Qed.

Lemma numerar_oids oid l : uc_oid <$> numerar oid l = seq oid (length l).
Proof.
  revert oid. induction l as [|[c m] l IH]; intros oid; [done|].
  cbn. f_equal. apply IH.
Qed.

Lemma numerar_entrada oid l uc :
  uc ∈ numerar oid l ->
  (uc_codigo uc, MateriaJson (uc_nombre uc) (uc_creditos uc) (uc_previas uc)) ∈ l.
Proof.
  revert oid. induction l as [|[c [n cr pr]] l IH]; intros oid; cbn.
  - intros H. by apply elem_of_nil in H.
  - intros H. apply elem_of_cons in H as [-> | H]; [left|right; eauto].
Qed.

(** X19: creating a plan from a plan file that exists builds one unit per
    entry of the file, term after term and, within a term, in file order,
    each with the code, name, credits and prerequisites of its entry and with
    an identity of its own; it prints the confirmation and changes no other
    object.  So every code of the file is found by the lookup, and what is
    found carries the fields of an entry with that code. *)
Theorem crear_plan_carga (w : World) (quien : persona) (nombre_plan ruta_json : string)
    (datos : plan_json) :
  w_json w !! ruta_json = Some datos ->
  let self := fresh (dom (w_planes w)) in
  let materias := numerar (w_oid w) (entradas datos) in
  let w' := impreso [per_nombre quien +:+ " ha creado el plan '" +:+ nombre_plan +:+ "'."]
              (con_plan w self (PlanDeEstudio_ nombre_plan materias)
                 (w_oid w + length (entradas datos))) in
  Coordinadora.crear_plan quien nombre_plan ruta_json w = (Ret self, w') /\
  w_planes w !! self = None /\
  codigos_de materias = (entradas datos).*1 /\
  identidades_distintas materias /\
  (forall codigo, codigo ∈ (entradas datos).*1 ->
     exists uc, PlanDeEstudio.buscar_uc_por_codigo self codigo w' = (Ret (Some uc), w') /\
                uc_codigo uc = codigo /\
                (codigo, MateriaJson (uc_nombre uc) (uc_creditos uc) (uc_previas uc))
                ∈ entradas datos).
Proof.
  intros Hj. cbn zeta.
  set (self := fresh (dom (w_planes w))).
  split; [|split; [|split; [|split]]].
  - unfold Coordinadora.crear_plan, PlanDeEstudio.__init__.
    erewrite bind_ret; cycle 1.
    { erewrite bind_ret by reflexivity.
      erewrite bind_ret by reflexivity.
      erewrite bind_ret; cycle 1.
      { unfold PlanDeEstudio._cargar_desde_json.
        erewrite bind_ret by reflexivity. cbn [w_json set_planes]. rewrite Hj.
        apply (cargar_datos _ self nombre_plan []). cbn. apply lookup_insert_eq. }
      reflexivity. }
    erewrite bind_ret by reflexivity.
    unfold mret, M_ret. f_equal. unfold impreso, con_plan. cbn.
    by rewrite insert_insert_eq.
  - apply not_elem_of_dom, is_fresh.
  - apply numerar_codigos.
  - unfold identidades_distintas. rewrite numerar_oids. apply NoDup_seq.
  - intros codigo Hin. rewrite <- numerar_codigos with (oid := w_oid w) in Hin.
    destruct (PlanDeEstudio.buscar (numerar (w_oid w) (entradas datos)) codigo) as [uc|] eqn:Hb.
    2:{ apply buscar_None_codigos in Hb. exfalso. apply Hb, Hin. }
    exists uc. split; [|split].
    + erewrite buscar_uc_por_codigo_Some by (cbn; apply lookup_insert_eq).
      cbn [plan_materias]. by rewrite Hb.
    + by apply buscar_codigo in Hb.
    + rewrite <- (buscar_codigo _ _ _ Hb).
      apply buscar_elem in Hb. by apply numerar_entrada in Hb.
Qed.

Lemma crear_plan_carga_witness :
  let self := fresh (dom (w_planes mundo_json)) in
  let materias := numerar (w_oid mundo_json) (entradas plan_ejemplo) in
  let w' := impreso [per_nombre marta +:+ " ha creado el plan '" +:+ "Plan 2024" +:+ "'."]
              (con_plan mundo_json self (PlanDeEstudio_ "Plan 2024" materias)
                 (w_oid mundo_json + length (entradas plan_ejemplo))) in
  Coordinadora.crear_plan marta "Plan 2024" "plan.json" mundo_json = (Ret self, w') /\
  w_planes mundo_json !! self = None /\
  codigos_de materias = (entradas plan_ejemplo).*1 /\
  identidades_distintas materias /\
  (forall codigo, codigo ∈ (entradas plan_ejemplo).*1 ->
     exists uc, PlanDeEstudio.buscar_uc_por_codigo self codigo w' = (Ret (Some uc), w') /\
                uc_codigo uc = codigo /\
                (codigo, MateriaJson (uc_nombre uc) (uc_creditos uc) (uc_previas uc))
                ∈ entradas plan_ejemplo).
Proof.
  apply (crear_plan_carga mundo_json marta "Plan 2024" "plan.json" plan_ejemplo).
  vm_compute. reflexivity.
Defined.

(** ** The codes given to units added by hand *)

Lemma solo_digitos_string_of_uint d : solo_digitos (NilEmpty.string_of_uint d) = true.
Proof. induction d; cbn; done. Qed.

Lemma str_of_Z_digitos z : (0 <= z)%Z -> solo_digitos (Py.str_of_Z z) = true.
Proof.
  intros Hz. unfold Py.str_of_Z. destruct z as [|p|p]; [done| |lia].
  cbn. unfold NilZero.string_of_uint.
  destruct (Pos.to_uint p) eqn:E; try apply (solo_digitos_string_of_uint (Pos.to_uint p));
    rewrite ?E; try done; apply (solo_digitos_string_of_uint _).
Qed.

Lemma str_of_Z_no_vacio z : Py.str_of_Z z <> "".
Proof.
  unfold Py.str_of_Z. destruct z as [|p|p]; cbn; [done| |done].
  pose proof (Unsigned.to_uint_nonnil p) as Hn.
  unfold NilZero.string_of_uint. by destruct (Pos.to_uint p).
Qed.

Lemma str_of_Z_inj a b : Py.str_of_Z a = Py.str_of_Z b -> a = b.
Proof.
  unfold Py.str_of_Z. intros H.
  assert (Hi : forall z, NilZero.int_of_string (NilZero.string_of_int (Z.to_int z))
                         = Some (Z.to_int z)).
  { intros z. apply NilZero.isi; destruct z; cbn; try done;
      intros [= E]; by apply (Unsigned.to_uint_nonnil p). }
  pose proof (Hi a) as Ha. rewrite H, Hi in Ha. injection Ha as Ha.
  rewrite <- (DecimalZ.of_to a), <- (DecimalZ.of_to b). by rewrite Ha.
Qed.

Lemma length_append a c : String.length (a +:+ c) = String.length a + String.length c.
Proof. induction a as [|x a IH]; simpl; [done|]. by f_equal. Qed.

Lemma append_nil_inv a c : a +:+ c = c -> a = "".
Proof.
  intros H. destruct a as [|x a]; [done|]. exfalso.
  assert (L : String.length (String x a +:+ c) = String.length c) by (by rewrite H).
  rewrite length_append in L. cbn in L. lia.
Qed.

Lemma append_inj_r a b c : a +:+ c = b +:+ c -> a = b.
Proof.
  revert b. induction a as [|x a IH]; intros b H.
  - symmetry. apply (append_nil_inv b c). by rewrite <- H.
  - destruct b as [|y b].
    + apply (append_nil_inv (String x a) c). exact H.
    + cbn in H. injection H as -> H. f_equal. by apply IH.
Qed.

Lemma endswith_append a b : Py.endswith (a +:+ b) b = true.
Proof.
  induction a as [|x a IH].
  - change ("" +:+ b) with b.
    destruct b; cbn [Py.endswith]; by rewrite String.eqb_refl.
  - change (String x a +:+ b) with (String x (a +:+ b)). cbn [Py.endswith].
    destruct (String.eqb (String x (a +:+ b)) b); [done|]. exact IH.
Qed.

Lemma isdigit_no_S c : Py.isdigit c = true -> Ascii.eqb c "S" = false.
Proof. destruct c as [[] [] [] [] [] [] [] []]; cbn; done. Qed.

Lemma isdigit_no_salto c : Py.isdigit c = true -> c <> "010"%char.
Proof. destruct c as [[] [] [] [] [] [] [] []]; cbn; done. Qed.

Lemma digits_to_end_solo s :
  solo_digitos s = true -> s <> "" -> Py.digits_to_end s = Some s.
Proof.
  induction s as [|c r IH]; [done|]. intros H _.
  cbn in H. apply andb_true_iff in H as [Hc Hr].
  cbn [Py.digits_to_end]. rewrite Hc.
  destruct r as [|c' r']; [done|].
  cbn in Hr. apply andb_true_iff in Hr as [Hc' Hr'].
  assert (Hrec : Py.digits_to_end (String c' r') = Some (String c' r')).
  { apply IH; [|done]. cbn. by rewrite Hc', Hr'. }
  pose proof (isdigit_no_salto c' Hc') as Hnl.
  destruct c' as [b0 b1 b2 b3 b4 b5 b6 b7].
  destruct b0, b1, b2, b3, b4, b5, b6, b7; try (by rewrite Hrec); try done.
  all: destruct r'; try (by rewrite Hrec); done.
Qed.

Lemma search_S_digitos_prefijo ds t :
  solo_digitos ds = true -> Py.search_S_digits (ds +:+ t) = Py.search_S_digits t.
Proof.
  induction ds as [|c r IH]; [done|]. intros H.
  cbn [solo_digitos] in H. apply andb_true_iff in H as [Hc Hr].
  change (String c r +:+ t) with (String c (r +:+ t)). cbn [Py.search_S_digits].
  rewrite (isdigit_no_S c Hc). by apply IH.
Qed.

Lemma search_S_digits_codigo ds dt :
  solo_digitos ds = true -> solo_digitos dt = true -> dt <> "" ->
  Py.search_S_digits ("UC" +:+ ds +:+ "S" +:+ dt) = Some dt.
Proof.
  intros Hds Hdt Hne.
  change ("UC" +:+ ds +:+ "S" +:+ dt) with (String "U" (String "C" (ds +:+ String "S" dt))).
  cbn [Py.search_S_digits]. cbn [Ascii.eqb Bool.eqb].
  rewrite search_S_digitos_prefijo by done.
  cbn [Py.search_S_digits]. rewrite Ascii.eqb_refl.
  by rewrite digits_to_end_solo.
Qed.

Lemma Z_of_digits_semestre t :
  (1 <= t <= 10)%Z -> Py.Z_of_digits 0 (Py.str_of_Z t) = t.
Proof.
  intros H.
  assert (Ht : (t = 1 \/ t = 2 \/ t = 3 \/ t = 4 \/ t = 5 \/ t = 6 \/ t = 7 \/ t = 8
               \/ t = 9 \/ t = 10)%Z) by lia.
  repeat (destruct Ht as [Ht|Ht]; [subst; reflexivity|]). subst. reflexivity.
Qed.

Lemma contar_sufijo_app l1 l2 sufijo :
  PlanDeEstudio.contar_sufijo (l1 ++ l2) sufijo
  = PlanDeEstudio.contar_sufijo l1 sufijo + PlanDeEstudio.contar_sufijo l2 sufijo.
Proof. unfold PlanDeEstudio.contar_sufijo. by rewrite filter_app, length_app. Qed.

Lemma codigo_manual_forma materias t :
  PlanDeEstudio.codigo_manual materias (PInt t)
  = ("UC" +:+ Py.str_of_Z
       (Z.of_nat (PlanDeEstudio.contar_sufijo materias ("S" +:+ Py.str_of_Z t) + 1)))
    +:+ ("S" +:+ Py.str_of_Z t).
Proof.
  unfold PlanDeEstudio.codigo_manual. cbn [py_str].
  generalize (Py.str_of_Z
    (Z.of_nat (PlanDeEstudio.contar_sufijo materias ("S" +:+ Py.str_of_Z t) + 1))).
  intros s. generalize ("S" +:+ Py.str_of_Z t). intros u.
  change ("UC" +:+ s +:+ u) with (String "U" (String "C" (s +:+ u))).
  reflexivity.
Qed.

Lemma codigos_numerados_S n t :
  codigos_numerados (S n) t
  = codigos_numerados n t
    ++ ["UC" +:+ Py.str_of_Z (Z.of_nat (S n)) +:+ "S" +:+ Py.str_of_Z t].
Proof. unfold codigos_numerados. by rewrite seq_S, fmap_app. Qed.

Lemma codigo_manual_nuevo materias t :
  numeradas_sin_huecos materias t ->
  PlanDeEstudio.codigo_manual materias (PInt t) ∉ codigos_de materias.
Proof.
  intros Hn Hin. unfold numeradas_sin_huecos in Hn.
  rewrite Forall_forall in Hn. specialize (Hn _ Hin).
  rewrite codigo_manual_forma in Hn at 1.
  specialize (Hn (endswith_append _ _)).
  unfold codigos_numerados in Hn.
  apply list_elem_of_fmap in Hn as (k & Hk & Hin').
  apply elem_of_seq in Hin'.
  unfold PlanDeEstudio.codigo_manual in Hk. cbn [py_str] in Hk.
  change ("UC" +:+ ?a +:+ ?b) with (String "U" (String "C" (a +:+ b))) in Hk.
  injection Hk as Hk. apply append_inj_r in Hk. apply str_of_Z_inj in Hk. lia.
Qed.

(** X20: when the codes of a plan are all different and the units of the
    term are numbered without gaps ("UC1S<t>", ..., "UC<n>S<t>"), adding a
    unit by hand for that term gives it a code that no unit of the plan has,
    and the plan is again without repeated codes and numbered without gaps
    for the term. *)
Theorem agregar_materia_manual_mantiene_numeracion (w : World) (r : nat)
    (p : plan_de_estudio) (nombre : string) (creditos : PyVal) (t : Z)
    (previas : option (list string)) :
  w_planes w !! r = Some p ->
  nombre <> "" ->
  es_None creditos = false ->
  (1 <= t <= 10)%Z ->
  NoDup (codigos_de (plan_materias p)) ->
  numeradas_sin_huecos (plan_materias p) t ->
  let codigo := PlanDeEstudio.codigo_manual (plan_materias p) (PInt t) in
  exists w' p',
    PlanDeEstudio.agregar_materia_manual r nombre creditos (PInt t) previas w = (Ret tt, w') /\
    w_planes w' !! r = Some p' /\
    (codigo ∉ codigos_de (plan_materias p)) /\
    codigos_de (plan_materias p') = codigos_de (plan_materias p) ++ [codigo] /\
    NoDup (codigos_de (plan_materias p')) /\
    numeradas_sin_huecos (plan_materias p') t.
Proof.
  intros Hp Hnom Hc Ht Hnd Hn. cbn zeta.
  pose proof (agregar_materia_manual_ok w r p nombre creditos t previas Hp Hnom Hc Ht) as H.
  cbn zeta in H.
  pose proof (codigo_manual_nuevo _ _ Hn) as Hnuevo.
  eexists. eexists. split; [exact H|].
  split; [cbn; apply lookup_insert_eq|].
  split; [exact Hnuevo|].
  cbn [plan_materias]. unfold codigos_de in *. rewrite !fmap_app. cbn [fmap list_fmap uc_codigo].
  split; [reflexivity|]. split.
  - apply NoDup_app. split; [exact Hnd|]. split; [|apply NoDup_singleton].
    intros c Hin Hc'. apply list_elem_of_singleton in Hc'. by subst c.
  - unfold numeradas_sin_huecos. rewrite contar_sufijo_app.
    assert (E : PlanDeEstudio.contar_sufijo
                  [UnidadCurricular (w_oid w)
                     (PlanDeEstudio.codigo_manual (plan_materias p) (PInt t))
                     (Py.capitalize (Py.lower nombre)) creditos (default [] previas)]
                  ("S" +:+ Py.str_of_Z t) = 1).
    { unfold PlanDeEstudio.contar_sufijo. cbn [uc_codigo filter list_filter].
      rewrite codigo_manual_forma.
      rewrite decide_True by apply endswith_append. reflexivity. }
    rewrite E. rewrite Nat.add_1_r, codigos_numerados_S.
    unfold codigos_de. rewrite fmap_app. cbn [fmap list_fmap uc_codigo].
    apply Forall_app. split.
    + unfold numeradas_sin_huecos in Hn. eapply Forall_impl; [exact Hn|].
      cbn beta. intros c Hc' Hend. apply elem_of_app. left. by apply Hc'.
    + apply Forall_singleton. intros _. apply elem_of_app. right.
      apply list_elem_of_singleton. unfold PlanDeEstudio.codigo_manual. cbn [py_str].
      by rewrite Nat.add_1_r.
Qed.

Lemma agregar_materia_manual_mantiene_numeracion_witness :
  let codigo := PlanDeEstudio.codigo_manual (plan_materias plan0) (PInt 1) in
  exists w' p',
    PlanDeEstudio.agregar_materia_manual 0 "quimica" (PInt 6) (PInt 1) None mundo_plan
    = (Ret tt, w') /\
    w_planes w' !! 0%nat = Some p' /\
    (codigo ∉ codigos_de (plan_materias plan0)) /\
    codigos_de (plan_materias p') = codigos_de (plan_materias plan0) ++ [codigo] /\
    NoDup (codigos_de (plan_materias p')) /\
    numeradas_sin_huecos (plan_materias p') 1.
Proof.
  apply (agregar_materia_manual_mantiene_numeracion mundo_plan 0 plan0 "quimica" (PInt 6) 1 None).
  - vm_compute. reflexivity.
  - discriminate.
  - reflexivity.
  - lia.
  - apply (bool_decide_unpack _). vm_compute. exact I.
  - apply (bool_decide_unpack _). vm_compute. exact I.
Defined.

(** What [crear_curso] returns, from the checks of the construction. *)
Lemma crear_curso_devuelve w quien codigo_uc año semestre plan :
  resultado (Coordinadora.crear_curso quien codigo_uc año semestre plan) w
  = Ret (match validacion_en_orden codigo_uc año semestre (w_planes w !! plan) with
         | inl _ => None
         | inr _ => Some (fresh (dom (w_cursos w)))
         end).
Proof.
  pose proof (curso_init_en_orden codigo_uc año semestre plan w) as H.
  cbn zeta in H. unfold resultado, Coordinadora.crear_curso.
  destruct (validacion_en_orden codigo_uc año semestre (w_planes w !! plan)) as [msg|uc].
  - erewrite bind_ret by exact H.
    erewrite bind_ret; cycle 1.
    { apply (curso_valido_Some _ _ CursoInvalido). cbn. apply lookup_insert_eq. }
    cbv beta iota. erewrite bind_ret by reflexivity. reflexivity.
  - destruct H as (w' & Hi & Hc & Hf).
    erewrite bind_ret by exact Hi.
    erewrite bind_ret by (by eapply curso_valido_true). reflexivity.
Qed.

(** X21: a course for a unit of the plan whose code is "UC<k>S<t>", with
    [t] between 1 and 10, is created only for term [t]: for a year from 2000
    on, [crear_curso] returns the new course when the term passed is [t] and
    [None] for every other integer. *)
Theorem crear_curso_semestre_del_codigo (w : World) (quien : persona) (plan : nat)
    (p : plan_de_estudio) (codigo : string) (k t año s : Z) :
  w_planes w !! plan = Some p ->
  codigo ∈ codigos_de (plan_materias p) ->
  codigo = "UC" +:+ Py.str_of_Z k +:+ "S" +:+ Py.str_of_Z t ->
  (0 <= k)%Z ->
  (1 <= t <= 10)%Z ->
  (2000 <= año)%Z ->
  resultado (Coordinadora.crear_curso quien (PStr codigo) (PInt año) (PInt s) plan) w
  = Ret (if (s =? t)%Z then Some (fresh (dom (w_cursos w))) else None).
Proof.
  intros Hp Hin Hcod Hk Ht Ha.
  rewrite crear_curso_devuelve, Hp. unfold validacion_en_orden.
  cbn [es_int valor_int andb].
  replace (2000 <=? año)%Z with true by (symmetry; apply Z.leb_le; lia).
  cbn [negb].
  destruct (PlanDeEstudio.buscar (plan_materias p) codigo) as [uc|] eqn:Hb; cycle 1.
  { exfalso. by apply buscar_None_codigos in Hb. }
  apply buscar_codigo in Hb. rewrite Hb, Hcod.
  rewrite search_S_digits_codigo
    by (try apply str_of_Z_digitos; try apply str_of_Z_no_vacio; lia).
  rewrite Z_of_digits_semestre by done.
  destruct (Z.eqb_spec s t) as [->|Hne].
  - replace (1 <=? t)%Z with true by (symmetry; apply Z.leb_le; lia).
    replace (t <=? 10)%Z with true by (symmetry; apply Z.leb_le; lia).
    reflexivity.
  - by destruct (negb ((1 <=? s)%Z && (s <=? 10)%Z)).
Qed.

Lemma crear_curso_semestre_del_codigo_witness :
  resultado (Coordinadora.crear_curso marta (PStr "UC1S2") (PInt 2024) (PInt 2) 0) mundo_plan
  = Ret (if (2 =? 2)%Z then Some (fresh (dom (w_cursos mundo_plan))) else None).
Proof.
  apply (crear_curso_semestre_del_codigo mundo_plan marta 0 plan0 "UC1S2" 1 2 2024 2).
  - vm_compute. reflexivity.
  - apply (bool_decide_unpack _). vm_compute. exact I.
  - reflexivity.
  - lia.
  - lia.
  - lia.
Defined.
